(** * figma-sync: the webhook pipeline Figma -> generated files -> GitHub pull request

    Shallow embedding of the two servers of the repository: the root
    server ([fetchFigmaDoc], [generateCode], [openPR] and the
    [/figma-webhook] handler, module [Root]) and its earlier variant
    [tools/figma-sync/server.js] (module [Tool]).

    - JavaScript values that reach the code are JSON values; they are an
      inductive type, and property access, truthiness, optional chaining,
      [||], template-literal conversion and [JSON.stringify(v, null, 2)]
      are written out on it.
    - A JavaScript string is the list of its UTF-8 bytes ([string]).
    - A number is written as an integer ([Z]): the status of a response
      and the clock are integers, and a number of a payload is only
      tested for being zero or printed. The number [JNum n] of a payload
      is the Number value of the integer literal [n], the nearest double,
      and prints as that double does. Fractions are outside the model.
    - The object [files] is an association list in insertion order, which
      is the order [Object.entries] enumerates it in.
    - The network (Figma, GitHub), the clock and the console are the
      outside world: every call is recorded in a trace with the answer it
      got, and the answers are given by an arbitrary oracle that sees the
      whole history. A statement for every oracle holds for every host. *)

From Stdlib Require Import String Ascii List ZArith Bool Lia DecimalString.
From Stdlib Require DecimalPos DecimalZ.
Import ListNotations.
Local Open Scope list_scope.
Local Open Scope string_scope.

Set Warnings "-register-all".

(* ================================================================== *)
(** ** JavaScript values *)
(* ================================================================== *)

Inductive JsValue : Type :=
| JUndefined
| JNull
| JBool (b : bool)
| JNum (n : Z)
| JStr (s : string)
| JArr (items : list JsValue)
| JObj (fields : list (string * JsValue)).

(** What the engine and the libraries throw or reject with. [Error] is
    [new Error(message)]; the message of a [TypeError] is the engine's
    own; a [Rejection] is the reason of a promise rejected by node-fetch
    or by Octokit. *)
Inductive Exn : Type :=
| Error (message : string)
| TypeError
| Rejection (reason : string).

Inductive Completion (A : Type) : Type :=
| Returned (a : A)
| Thrown (e : Exn).
Arguments Returned {A} a.
Arguments Thrown {A} e.

Definition dquote : string := String (ascii_of_nat 34) EmptyString.
Definition newline : string := String (ascii_of_nat 10) EmptyString.

(** [lines] joined by a line feed: a template literal that spans lines. *)
Fixpoint unlines (ls : list string) : string :=
  match ls with
  | [] => ""
  | [l] => l
  | l :: rest => l ++ newline ++ unlines rest
  end.

Fixpoint join (sep : string) (parts : list string) : string :=
  match parts with
  | [] => ""
  | [p] => p
  | p :: rest => p ++ sep ++ join sep rest
  end.

(** ToBoolean. *)
Definition truthy (v : JsValue) : bool :=
  match v with
  | JUndefined | JNull => false
  | JBool b => b
  | JNum n => negb (n =? 0)%Z
  | JStr s => negb (s =? "")
  | JArr _ | JObj _ => true
  end.

Definition nullish (v : JsValue) : bool :=
  match v with
  | JUndefined | JNull => true
  | _ => false
  end.

(** [a || b]. *)
Definition js_or (a b : JsValue) : JsValue := if truthy a then a else b.

(** Own properties of an object, each key held once, in enumeration
    order. *)
Fixpoint own (fields : list (string * JsValue)) (k : string) : JsValue :=
  match fields with
  | [] => JUndefined
  | (k', v) :: rest => if k' =? k then v else own rest k
  end.

Fixpoint has_own (fields : list (string * JsValue)) (k : string) : bool :=
  match fields with
  | [] => false
  | (k', _) :: rest => (k' =? k) || has_own rest k
  end.

(** [v.k] for the member names the code reads ([document], [children],
    [type], [name], [event_type], [file_key], [file_id]): none of them is
    a member of a prototype, so an object answers with its own property
    and every other non-nullish value with [undefined]. Reading a member
    of [undefined] or [null] throws. *)
Definition get (v : JsValue) (k : string) : Completion JsValue :=
  match v with
  | JUndefined | JNull => Thrown TypeError
  | JObj fields => Returned (own fields k)
  | _ => Returned JUndefined
  end.

(** [v?.k]. *)
Definition get_opt (v : JsValue) (k : string) : JsValue :=
  match v with
  | JObj fields => own fields k
  | _ => JUndefined
  end.

(** [v?.[0]]: the first element of an array, the first character of a
    string (kept as its first byte), the own property ["0"] of an
    object. *)
Definition first_opt (v : JsValue) : JsValue :=
  match v with
  | JArr (x :: _) => x
  | JStr (String c _) => JStr (String c EmptyString)
  | JObj fields => own fields "0"
  | _ => JUndefined
  end.

(** Strict equality with a string: [v === s]. *)
Definition strict_eq_str (v : JsValue) (s : string) : bool :=
  match v with
  | JStr s' => s' =? s
  | _ => false
  end.

(* ================================================================== *)
(** ** Number and string conversion *)
(* ================================================================== *)

(** The decimal digits of an integer. This is what a template literal
    prints for the two numbers the code itself produces, the clock (a time
    value is at most 8.64e15 in magnitude) and the status of a response:
    both are integers below 2^53, which print in full. *)
Definition number_to_string (n : Z) : string :=
  NilZero.string_of_int (Z.to_int n).

(** A number of a JSON text is a double. [to_double a] is the Number value
    of the integer literal [a >= 0]: [a] rounded to 53 significant bits,
    to the nearest, ties to the even significand. A result of 2^1024 or
    more stands for [Infinity]. *)
Definition to_double (a : Z) : Z :=
  let b := (Z.log2 a + 1)%Z in
  if (b <=? 53)%Z then a
  else
    let e := (b - 53)%Z in
    let m := Z.shiftr a e in
    let r := (a - Z.shiftl m e)%Z in
    let half := Z.shiftl 1 (e - 1) in
    let m' := if (half <? r)%Z || ((r =? half)%Z && Z.odd m) then (m + 1)%Z else m in
    Z.shiftl m' e.

Definition is_finite (n : Z) : bool :=
  (to_double (Z.abs n) <? Z.shiftl 1 1024)%Z.

Definition digits_of (x : Z) : Z :=
  Z.of_nat (String.length (number_to_string x)).

(** Number::toString, the choice of the digits: the integer with the
    fewest significant digits whose Number value is the double [x], and of
    those the one nearest to [x] (the even one on a tie), as V8 prints.
    [d] is the number of digits of [x] and [k] the number of significant
    digits tried; 17 digits always tell a double apart. *)
Fixpoint shortest_from (fuel : nat) (k : Z) (x d : Z) : Z :=
  match fuel with
  | O => x
  | S fuel' =>
      if (d <=? k)%Z then x
      else
        let u := (10 ^ (d - k))%Z in
        let lo := ((x / u) * u)%Z in
        let hi := (lo + u)%Z in
        let vlo := (to_double lo =? x)%Z in
        let vhi := (to_double hi =? x)%Z in
        if vlo && vhi
        then if (x - lo <? hi - x)%Z then lo
             else if (hi - x <? x - lo)%Z then hi
             else if Z.even (lo / u) then lo else hi
        else if vlo then lo
        else if vhi then hi
        else shortest_from fuel' (k + 1)%Z x d
  end.

Definition shortest (x : Z) : Z := shortest_from 17 1%Z x (digits_of x).

Fixpoint strip_zeros (s : string) : string :=
  match s with
  | EmptyString => EmptyString
  | String c rest =>
      match strip_zeros rest with
      | EmptyString => if (nat_of_ascii c =? 48)%nat then EmptyString
                       else String c EmptyString
      | kept => String c kept
      end
  end.

(** Number::toString, the layout: up to 21 digits in full, the zeros
    after the significant digits included; from 22 digits on, the
    significant digits with a point after the first and the exponent. *)
Definition layout (v : Z) : string :=
  let digits := number_to_string v in
  let n := String.length digits in
  if (n <=? 21)%nat then digits
  else
    match strip_zeros digits with
    | EmptyString => digits
    | String c EmptyString =>
        String c EmptyString ++ "e+" ++ number_to_string (Z.of_nat (n - 1))
    | String c rest =>
        String c EmptyString ++ "." ++ rest ++ "e+"
        ++ number_to_string (Z.of_nat (n - 1))
    end.

(** Number::toString of the Number value of the integer literal [n].
    Integers up to 2^53 in magnitude are doubles and print in full. *)
Definition Number_toString (n : Z) : string :=
  if (Z.abs n <=? 9007199254740992)%Z then number_to_string n
  else
    let sign := if (n <? 0)%Z then "-" else "" in
    if is_finite n then sign ++ layout (shortest (to_double (Z.abs n)))
    else sign ++ "Infinity".

(** SerializeJSONProperty of a number: [Infinity] serializes to [null]. *)
Definition Number_toJSON (n : Z) : string :=
  if is_finite n then Number_toString n else "null".

Definition hex_digit (n : nat) : string :=
  match n with
  | 0 => "0" | 1 => "1" | 2 => "2" | 3 => "3" | 4 => "4" | 5 => "5"
  | 6 => "6" | 7 => "7" | 8 => "8" | 9 => "9" | 10 => "a" | 11 => "b"
  | 12 => "c" | 13 => "d" | 14 => "e" | _ => "f"
  end.

(** QuoteJSONString, one byte at a time: bytes of a multi-byte character
    are above 0x7f and pass unchanged. *)
Definition quote_char (c : ascii) : string :=
  let n := nat_of_ascii c in
  match n with
  | 8 => "\b"
  | 9 => "\t"
  | 10 => "\n"
  | 12 => "\f"
  | 13 => "\r"
  | 34 => "\" ++ dquote
  | 92 => "\\"
  | _ => if (n <? 32)%nat
         then "\u00" ++ hex_digit (n / 16)%nat ++ hex_digit (n mod 16)%nat
         else String c EmptyString
  end.

Fixpoint quote_body (s : string) : string :=
  match s with
  | EmptyString => ""
  | String c rest => quote_char c ++ quote_body rest
  end.

Definition quote (s : string) : string := dquote ++ quote_body s ++ dquote.

Definition gap : string := "  ".

(** SerializeJSONProperty with a gap of two spaces; [None] is the
    [undefined] that an [undefined] value serializes to. A JSON value has
    no callable [toJSON], so none is looked for. *)
Fixpoint serialize (indent : string) (v : JsValue) {struct v} : option string :=
  match v with
  | JUndefined => None
  | JNull => Some "null"
  | JBool true => Some "true"
  | JBool false => Some "false"
  | JNum n => Some (Number_toJSON n)
  | JStr s => Some (quote s)
  | JArr items =>
      let inner := indent ++ gap in
      let partial :=
        (fix elems (l : list JsValue) : list string :=
           match l with
           | [] => []
           | x :: rest =>
               match serialize inner x with
               | Some s => s
               | None => "null"
               end :: elems rest
           end) items in
      match partial with
      | [] => Some "[]"
      | _ => Some ("[" ++ newline ++ inner
                   ++ join ("," ++ newline ++ inner) partial
                   ++ newline ++ indent ++ "]")
      end
  | JObj fields =>
      let inner := indent ++ gap in
      let partial :=
        (fix members (l : list (string * JsValue)) : list string :=
           match l with
           | [] => []
           | (k, x) :: rest =>
               match serialize inner x with
               | Some s => (quote k ++ ": " ++ s) :: members rest
               | None => members rest
               end
           end) fields in
      match partial with
      | [] => Some "{}"
      | _ => Some ("{" ++ newline ++ inner
                   ++ join ("," ++ newline ++ inner) partial
                   ++ newline ++ indent ++ "}")
      end
  end.

(** [JSON.stringify(v, null, 2)] inside a template literal: [undefined]
    prints as the word. *)
Definition JSON_stringify (v : JsValue) : string :=
  match serialize "" v with
  | Some s => s
  | None => "undefined"
  end.

(** ToString of a template literal [`${v}`]. An array joins its elements
    with commas, [null] and [undefined] elements as the empty string. An
    object prints through [Object.prototype.toString] unless it has an own
    [toString]: that one comes from JSON and is not callable, and
    [valueOf] gives back the object, so the conversion throws. *)
Fixpoint to_string (v : JsValue) {struct v} : Completion string :=
  match v with
  | JUndefined => Returned "undefined"
  | JNull => Returned "null"
  | JBool true => Returned "true"
  | JBool false => Returned "false"
  | JNum n => Returned (Number_toString n)
  | JStr s => Returned s
  | JArr items =>
      (fix elems (l : list JsValue) : Completion string :=
         match l with
         | [] => Returned ""
         | x :: rest =>
             match (if nullish x then Returned "" else to_string x) with
             | Thrown e => Thrown e
             | Returned s =>
                 match rest with
                 | [] => Returned s
                 | _ => match elems rest with
                        | Thrown e => Thrown e
                        | Returned t => Returned (s ++ "," ++ t)
                        end
                 end
             end
         end) items
  | JObj fields =>
      if has_own fields "toString"
      then Thrown TypeError
      else Returned "[object Object]"
  end.

(* ================================================================== *)
(** ** Sequencing of code that may throw *)
(* ================================================================== *)

Definition bindC {A B} (c : Completion A) (k : A -> Completion B) : Completion B :=
  match c with
  | Returned a => k a
  | Thrown e => Thrown e
  end.

Notation "'try!' x <- c ; k" := (bindC c (fun x => k))
  (at level 10, x name, c at level 100, k at level 200).

(* ================================================================== *)
(** ** Configuration read from the environment *)
(* ================================================================== *)

Record Config : Type := {
  FIGMA_TOKEN : string;
  FIGMA_FILE_ID : string;
  GH_TOKEN : string;
  GH_OWNER : string;
  GH_REPO : string;
  CODEGEN_TARGET : string
}.

(* ================================================================== *)
(** ** Start of the process: the environment *)
(* ================================================================== *)

(** [process.env]: a variable is set to a string or not set. *)
Definition Env : Type := string -> option string.

(** How the start of a server ends: [process.exit(code)] after a line on
    the error console, or a configuration to serve with. *)
Inductive Startup : Type :=
| Exited (code : Z) (line : string)
| Started (cfg : Config).

(** The three-byte UTF-8 encodings of the white space and line
    terminators of the language that lie above U+00A0: U+1680,
    U+2000..U+200A, U+2028, U+2029, U+202F, U+205F, U+3000, U+FEFF. *)
Definition blank3 (a b c : nat) : bool :=
  ((a =? 225) && (b =? 154) && (c =? 128))%nat
  || ((a =? 226) && (b =? 128)
      && (((128 <=? c) && (c <=? 138)) || (c =? 168) || (c =? 169) || (c =? 175)))%nat
  || ((a =? 226) && (b =? 129) && (c =? 159))%nat
  || ((a =? 227) && (b =? 128) && (c =? 128))%nat
  || ((a =? 239) && (b =? 187) && (c =? 191))%nat.

(** [s.trim() === ""]: every character of [s] is white space or a line
    terminator (tab, line feed, vertical tab, form feed, carriage return,
    space, U+00A0 and the characters of [blank3]). *)
Fixpoint blank (s : string) : bool :=
  match s with
  | EmptyString => true
  | String c rest =>
      let a := nat_of_ascii c in
      if ((9 <=? a) && (a <=? 13) || (a =? 32))%nat then blank rest
      else
        match rest with
        | EmptyString => false
        | String c2 rest2 =>
            let b := nat_of_ascii c2 in
            if ((a =? 194) && (b =? 160))%nat then blank rest2
            else
              match rest2 with
              | EmptyString => false
              | String c3 rest3 =>
                  if blank3 a b (nat_of_ascii c3) then blank rest3 else false
              end
        end
  end.

(** [!val] for a variable of the environment. *)
Definition unset_or_empty (val : option string) : bool :=
  match val with
  | None => true
  | Some s => s =? ""
  end.

(** The value of a variable that passed its check. *)
Definition value_of (val : option string) : string :=
  match val with
  | Some s => s
  | None => ""
  end.

(** [const { ..., NAME = fallback } = process.env]: the fallback stands
    in for a variable that is not set, not for an empty one. *)
Definition with_default (val : option string) (fallback : string) : string :=
  match val with
  | Some s => s
  | None => fallback
  end.

Definition required : list string :=
  ["FIGMA_TOKEN"; "FIGMA_FILE_ID"; "GH_TOKEN"; "GH_OWNER"; "GH_REPO"].

(* ================================================================== *)
(** ** The object files and the generator *)
(* ================================================================== *)

Definition Files : Type := list (string * string).

(** [files[path] = content]: a new key goes last, a key already there
    keeps its place and takes the new content. *)
Fixpoint assign (files : Files) (path content : string) : Files :=
  match files with
  | [] => [(path, content)]
  | (p, c) :: rest =>
      if p =? path then (p, content) :: rest
      else (p, c) :: assign rest path content
  end.

Definition paths (files : Files) : list string := map fst files.

(** [.filter(n => n.type === "FRAME")] on an array. *)
Fixpoint filter_frames (nodes : list JsValue) : Completion (list JsValue) :=
  match nodes with
  | [] => Returned []
  | n :: rest =>
      try! t <- get n "type";
      try! kept <- filter_frames rest;
      Returned (if strict_eq_str t "FRAME" then n :: kept else kept)
  end.

(** [.map(n => n.name)]. *)
Fixpoint map_names (nodes : list JsValue) : Completion (list JsValue) :=
  match nodes with
  | [] => Returned []
  | n :: rest =>
      try! name <- get n "name";
      try! names <- map_names rest;
      Returned (name :: names)
  end.

(** [figmaJson.document?.children?.[0]?.children]. *)
Definition first_page_children (figmaJson : JsValue) : Completion JsValue :=
  try! document <- get figmaJson "document";
  Returned (get_opt (first_opt (get_opt document "children")) "children").

(** [(... || []).filter(...).map(...)]: a truthy value that is not an
    array has no callable [filter]. *)
Definition topFrames (figmaJson : JsValue) : Completion (list JsValue) :=
  try! kids <- first_page_children figmaJson;
  match js_or kids (JArr []) with
  | JArr nodes =>
      try! frames <- filter_frames nodes;
      map_names frames
  | _ => Thrown TypeError
  end.

Definition tokens : JsValue :=
  JObj [("color", JObj [("primary", JStr "#0EA5E9")]);
        ("spacing", JObj [("m", JNum 16)])].

Definition screens_map (names : list JsValue) : string :=
  "export const screens = " ++ JSON_stringify (JArr names) ++ " as const;".

Definition index_ts : string :=
  unlines [
    "export { default as Home } from " ++ dquote ++ "./Home" ++ dquote ++ ";";
    "export { screens } from " ++ dquote ++ "./screens.map" ++ dquote ++ ";"
  ].

Definition tokens_path (cfg : Config) := CODEGEN_TARGET cfg ++ "/src/tokens.json".
Definition screens_path (cfg : Config) := CODEGEN_TARGET cfg ++ "/src/generated/screens.map.ts".
Definition home_path (cfg : Config) := CODEGEN_TARGET cfg ++ "/src/generated/Home.tsx".
Definition index_path (cfg : Config) := CODEGEN_TARGET cfg ++ "/src/generated/index.ts".

(* ================================================================== *)
(** ** The outside world: calls, answers, traces *)
(* ================================================================== *)

(** A promise settles: fulfilled with a value or rejected. *)
Inductive Settled (A : Type) : Type :=
| Fulfilled (a : A)
| Rejected (reason : string).
Arguments Fulfilled {A} a.
Arguments Rejected {A} reason.

(** The response of [fetch]: its status, and what reading the body as
    text or as JSON settles to. [ok] is node-fetch's: a status in
    200..299. *)
Record FetchResponse : Type := {
  res_status : Z;
  res_text : Settled string;
  res_json : Settled JsValue
}.

Definition res_ok (res : FetchResponse) : bool :=
  (200 <=? res_status res)%Z && (res_status res <? 300)%Z.

(** [new Octokit({ auth })] and the [owner], [repo] passed to every call. *)
Record Remote : Type := {
  auth : string;
  owner : string;
  repo : string
}.

Record TreeItem : Type := {
  item_path : string;
  item_mode : string;
  item_type : string;
  item_sha : string
}.

Inductive Call : Type :=
| Fetch (url : string) (x_figma_token : string)
| DateNow
| ConsoleLog (line : string)
| ConsoleError (e : Exn)
| ReposGet (r : Remote)
| GitGetRef (r : Remote) (ref : string)
| GitCreateBlob (r : Remote) (content encoding : string)
| GitCreateTree (r : Remote) (base_tree : string) (tree : list TreeItem)
| GitCreateCommit (r : Remote) (message tree : string) (parents : list string)
| GitCreateRef (r : Remote) (ref sha : string)
| PullsCreate (r : Remote) (head base title body : string).

(** What each call hands back. [ReposGet] answers with
    [data.default_branch] ([None] when the member is missing), the git
    calls with [data.sha] (of [data.object] for a ref), [PullsCreate]
    with [data.html_url]. *)
Definition Answer (c : Call) : Type :=
  match c with
  | Fetch _ _ => Settled FetchResponse
  | DateNow => Z
  | ConsoleLog _ => unit
  | ConsoleError _ => unit
  | ReposGet _ => Settled (option string)
  | GitGetRef _ _ => Settled string
  | GitCreateBlob _ _ _ => Settled string
  | GitCreateTree _ _ _ => Settled string
  | GitCreateCommit _ _ _ _ => Settled string
  | GitCreateRef _ _ _ => Settled unit
  | PullsCreate _ _ _ _ _ => Settled string
  end.

Record Event : Type := Ev {
  ev_call : Call;
  ev_answer : Answer ev_call
}.

Definition Trace : Type := list Event.

(** The world answers a call knowing everything that happened before. *)
Definition World : Type := Trace -> forall c : Call, Answer c.

(** Calls that write to the version-control host, calls that reach it at
    all, and the fetch of the design document. *)
Definition is_host_write (c : Call) : bool :=
  match c with
  | GitCreateBlob _ _ _ | GitCreateTree _ _ _ | GitCreateCommit _ _ _ _
  | GitCreateRef _ _ _ | PullsCreate _ _ _ _ _ => true
  | _ => false
  end.

Definition is_host_call (c : Call) : bool :=
  match c with
  | ReposGet _ | GitGetRef _ _ => true
  | _ => is_host_write c
  end.

Definition is_console (c : Call) : bool :=
  match c with
  | ConsoleLog _ | ConsoleError _ => true
  | _ => false
  end.

(* ================================================================== *)
(** ** The monad of asynchronous code *)
(* ================================================================== *)

(** An [async] function reads the world, extends the trace, and returns
    or throws; what it did before throwing stays done. *)
Definition M (A : Type) : Type := World -> Trace -> Completion A * Trace.

Definition ret {A} (a : A) : M A := fun _ t => (Returned a, t).

Definition throw {A} (e : Exn) : M A := fun _ t => (Thrown e, t).

Definition bind {A B} (m : M A) (k : A -> M B) : M B :=
  fun w t =>
    match m w t with
    | (Returned a, t') => k a w t'
    | (Thrown e, t') => (Thrown e, t')
    end.

(** [try { m } catch (e) { h e }]. *)
Definition try_catch {A} (m : M A) (h : Exn -> M A) : M A :=
  fun w t =>
    match m w t with
    | (Returned a, t') => (Returned a, t')
    | (Thrown e, t') => h e w t'
    end.

Definition perform (c : Call) : M (Answer c) :=
  fun w t => let a := w t c in (Returned a, (t ++ [Ev c a])%list).

(** [await p]. *)
Definition await {A} (p : Settled A) : M A :=
  match p with
  | Fulfilled a => ret a
  | Rejected reason => throw (Rejection reason)
  end.

(** Synchronous code that may throw, run inside an [async] function. *)
Definition lift {A} (c : Completion A) : M A :=
  match c with
  | Returned a => ret a
  | Thrown e => throw e
  end.

Notation "x <- m ;; k" := (bind m (fun x => k))
  (at level 61, m at next level, right associativity).
Notation "m ;; k" := (bind m (fun _ => k))
  (at level 61, right associativity).

(* ================================================================== *)
(** ** HTTP requests and responses, fetch and publish *)
(* ================================================================== *)

(** What [send] was given: a text, or [String(e)] of the error caught. *)
Inductive Sent : Type :=
| SentText (s : string)
| SentError (e : Exn).

Record Response : Type := {
  status : Z;
  sent : Sent
}.

(** [res.sendStatus(200)] sends the reason phrase as the body. *)
Definition sendStatus200 : Response := {| status := 200; sent := SentText "OK" |}.

Record Request : Type := {
  body : JsValue;
  x_figma_event_type : option string
}.

(** [req.headers[<name>]]. *)
Definition header (h : option string) : JsValue :=
  match h with
  | Some s => JStr s
  | None => JUndefined
  end.

Definition remote_of (cfg : Config) : Remote :=
  {| auth := GH_TOKEN cfg; owner := GH_OWNER cfg; repo := GH_REPO cfg |}.

Definition figma_url (cfg : Config) : string :=
  "https://api.figma.com/v1/files/" ++ FIGMA_FILE_ID cfg.

Definition commit_message : string := "chore(figma): auto-sync".
Definition pr_title : string := "Figma → GitHub auto-sync".
Definition pr_body : string := "Этот PR автоматически создан из изменений в Figma.".

(** [for (const [path, content] of Object.entries(files))]: one blob per
    entry, in order, each pushed onto [treeItems]. *)
Fixpoint createBlobs (r : Remote) (entries : Files) (treeItems : list TreeItem)
  : M (list TreeItem) :=
  match entries with
  | [] => ret treeItems
  | (path, content) :: rest =>
      blob <- perform (GitCreateBlob r content "utf-8") ;;
      sha <- await blob ;;
      createBlobs r rest
        (treeItems ++ [{| item_path := path; item_mode := "100644";
                          item_type := "blob"; item_sha := sha |}])%list
  end.

(** The root server. *)
Module Root.

Definition Home_tsx : string :=
  unlines [
    "export default function Home(){";
    "  return (";
    "    <div style={{ padding: 16 }}>";
    "      <h1>GRITHER</h1>";
    "      <p>Этот экран сгенерирован из Figma build.</p>";
    "    </div>";
    "  );";
    "}"
  ].

(** [generateCode]. *)
Definition generateCode (cfg : Config) (figmaJson : JsValue) : Completion Files :=
  try! topFrames <- topFrames figmaJson;
  let files := [] in
  let files := assign files (tokens_path cfg) (JSON_stringify tokens) in
  let files := assign files (screens_path cfg) (screens_map topFrames) in
  let files := assign files (home_path cfg) Home_tsx in
  let files := assign files (index_path cfg) index_ts in
  Returned files.

(** [fetchFigmaDoc]. *)
Definition fetchFigmaDoc (cfg : Config) : M JsValue :=
  settled <- perform (Fetch (figma_url cfg) (FIGMA_TOKEN cfg)) ;;
  res <- await settled ;;
  if negb (res_ok res) then
    let text := match res_text res with
                | Fulfilled text => text
                | Rejected _ => ""
                end in
    throw (Error ("Figma API error: " ++ number_to_string (res_status res)
                  ++ " " ++ text))
  else await (res_json res).

(** [repoInfo.data.default_branch || "main"]. *)
Definition base_branch (default_branch : option string) : string :=
  match default_branch with
  | Some b => if b =? "" then "main" else b
  | None => "main"
  end.

(** [openPR]. *)
Definition openPR (cfg : Config) (files : Files) : M string :=
  let r := remote_of cfg in
  repoInfo <- perform (ReposGet r) ;;
  default_branch <- await repoInfo ;;
  let baseBranch := base_branch default_branch in
  baseRef <- perform (GitGetRef r ("heads/" ++ baseBranch)) ;;
  baseSha <- await baseRef ;;
  now <- perform DateNow ;;
  let branch := "figma-sync/" ++ number_to_string now in
  treeItems <- createBlobs r files [] ;;
  tree <- perform (GitCreateTree r baseSha treeItems) ;;
  tree_sha <- await tree ;;
  commit <- perform (GitCreateCommit r commit_message tree_sha [baseSha]) ;;
  commit_sha <- await commit ;;
  created <- perform (GitCreateRef r ("refs/heads/" ++ branch) commit_sha) ;;
  await created ;;
  pr <- perform (PullsCreate r branch baseBranch pr_title pr_body) ;;
  html_url <- await pr ;;
  ret html_url.

Definition eventType (req : Request) : JsValue :=
  js_or (js_or (get_opt (body req) "event_type")
               (header (x_figma_event_type req)))
        (JStr "unknown").

Definition fileId (req : Request) : JsValue :=
  js_or (get_opt (body req) "file_key") (get_opt (body req) "file_id").

(** [fileId && fileId !== FIGMA_FILE_ID]. *)
Definition different_file (cfg : Config) (req : Request) : bool :=
  truthy (fileId req) && negb (strict_eq_str (fileId req) (FIGMA_FILE_ID cfg)).

(** [app.post("/figma-webhook", ...)]. *)
Definition webhook (cfg : Config) (req : Request) : M Response :=
  try_catch
    (type <- lift (to_string (eventType req)) ;;
     file <- lift (to_string (fileId req)) ;;
     perform (ConsoleLog ("[webhook] type=" ++ type ++ " file=" ++ file)) ;;
     if different_file cfg req then
       file <- lift (to_string (fileId req)) ;;
       perform (ConsoleLog ("[webhook] skip: different file (" ++ file ++ ")")) ;;
       ret sendStatus200
     else
       figmaJson <- fetchFigmaDoc cfg ;;
       files <- lift (generateCode cfg figmaJson) ;;
       prUrl <- openPR cfg files ;;
       perform (ConsoleLog ("[webhook] PR created: " ++ prUrl)) ;;
       ret {| status := 200; sent := SentText "OK" |})
    (fun e =>
       perform (ConsoleError e) ;;
       ret {| status := 500; sent := SentError e |}).

(** [requireEnv(name, val)]: [None] when the variable passes, else the
    line written before [process.exit(1)]. *)
Definition requireEnv (name : string) (val : option string) : option string :=
  if unset_or_empty val || blank (value_of val)
  then Some ("[env] Missing required env var: " ++ name)
  else None.

(** [names.forEach(n => requireEnv(n, process.env[n]))]: the process
    exits at the first variable that fails. *)
Fixpoint requireAll (env : Env) (names : list string) : option string :=
  match names with
  | [] => None
  | n :: rest =>
      match requireEnv n (env n) with
      | Some line => Some line
      | None => requireAll env rest
      end
  end.

(** The top of the file up to the creation of the application. *)
Definition startup (env : Env) : Startup :=
  match requireAll env required with
  | Some line => Exited 1 line
  | None =>
      Started {| FIGMA_TOKEN := value_of (env "FIGMA_TOKEN");
                 FIGMA_FILE_ID := value_of (env "FIGMA_FILE_ID");
                 GH_TOKEN := value_of (env "GH_TOKEN");
                 GH_OWNER := value_of (env "GH_OWNER");
                 GH_REPO := value_of (env "GH_REPO");
                 CODEGEN_TARGET := with_default (env "CODEGEN_TARGET") "." |}
  end.

End Root.

(** [tools/figma-sync/server.js]. *)
Module Tool.

Definition Home_tsx : string :=
  unlines [
    "export default function Home(){";
    "  return (<div style={{padding:16}}>";
    "    <h1>GRITHER</h1>";
    "    <p>Этот экран сгенерирован из Figma build.</p>";
    "  </div>);";
    "}"
  ].

(** [generateCode]. *)
Definition generateCode (cfg : Config) (figmaJson : JsValue) : Completion Files :=
  try! topFrames <- topFrames figmaJson;
  let files := [] in
  let files := assign files (tokens_path cfg) (JSON_stringify tokens) in
  let files := assign files (screens_path cfg) (screens_map topFrames) in
  let files := assign files (home_path cfg) Home_tsx in
  let files := assign files (index_path cfg) index_ts in
  Returned files.

(** [fetchFigmaDoc]. *)
Definition fetchFigmaDoc (cfg : Config) : M JsValue :=
  settled <- perform (Fetch (figma_url cfg) (FIGMA_TOKEN cfg)) ;;
  res <- await settled ;;
  if negb (res_ok res) then
    throw (Error ("Figma API error: " ++ number_to_string (res_status res)))
  else await (res_json res).

(** [openPR]: the base branch is [main]. *)
Definition openPR (cfg : Config) (files : Files) : M unit :=
  let r := remote_of cfg in
  baseRef <- perform (GitGetRef r "heads/main") ;;
  baseSha <- await baseRef ;;
  now <- perform DateNow ;;
  let branch := "figma-sync/" ++ number_to_string now in
  treeItems <- createBlobs r files [] ;;
  tree <- perform (GitCreateTree r baseSha treeItems) ;;
  tree_sha <- await tree ;;
  commit <- perform (GitCreateCommit r commit_message tree_sha [baseSha]) ;;
  commit_sha <- await commit ;;
  created <- perform (GitCreateRef r ("refs/heads/" ++ branch) commit_sha) ;;
  await created ;;
  pr <- perform (PullsCreate r branch "main" pr_title pr_body) ;;
  await pr ;;
  ret tt.

(** [app.post("/figma-webhook", ...)]: every event publishes. *)
Definition webhook (cfg : Config) (req : Request) : M Response :=
  try_catch
    (figmaJson <- fetchFigmaDoc cfg ;;
     files <- lift (generateCode cfg figmaJson) ;;
     openPR cfg files ;;
     ret sendStatus200)
    (fun e =>
       perform (ConsoleError e) ;;
       ret {| status := 500; sent := SentError e |}).

(** The top of the file: one test for the five variables, none of which
    may be unset or empty. *)
Definition startup (env : Env) : Startup :=
  if unset_or_empty (env "FIGMA_TOKEN") || unset_or_empty (env "FIGMA_FILE_ID")
     || unset_or_empty (env "GH_TOKEN") || unset_or_empty (env "GH_OWNER")
     || unset_or_empty (env "GH_REPO")
  then Exited 1 "Missing required env vars"
  else
    Started {| FIGMA_TOKEN := value_of (env "FIGMA_TOKEN");
               FIGMA_FILE_ID := value_of (env "FIGMA_FILE_ID");
               GH_TOKEN := value_of (env "GH_TOKEN");
               GH_OWNER := value_of (env "GH_OWNER");
               GH_REPO := value_of (env "GH_REPO");
               CODEGEN_TARGET := with_default (env "CODEGEN_TARGET") "apps/tma" |}.

End Tool.

(* ================================================================== *)
(** ** Vocabulary of the statements: file sets *)
(* ================================================================== *)

(** The files of one generation, once the names of the frames are known. *)
Definition emitted (cfg : Config) (home : string) (names : list JsValue) : Files :=
  [ (tokens_path cfg, JSON_stringify tokens);
    (screens_path cfg, screens_map names);
    (home_path cfg, home);
    (index_path cfg, index_ts) ].

(** The paths that are neither the tokens, nor the manifest, nor the
    index: the module files of the file set. *)
Definition screen_modules (cfg : Config) (files : Files) : list string :=
  filter (fun p => negb ((p =? tokens_path cfg) || (p =? screens_path cfg)
                         || (p =? index_path cfg)))
         (paths files).

Definition is_frame (n : JsValue) : bool :=
  strict_eq_str (get_opt n "type") "FRAME".

(** The names of the direct children whose type is [FRAME], in order. *)
Definition frame_names (nodes : list JsValue) : list JsValue :=
  map (fun n => get_opt n "name") (filter is_frame nodes).

Definition no_nullish (nodes : list JsValue) : bool :=
  forallb (fun n => negb (nullish n)) nodes.

(** The inputs on which [generateCode] returns: neither [null] nor
    [undefined], and the children of the first page either falsy (so
    that [[]] stands in) or an array without [null] elements. *)
Definition accepted (j : JsValue) : bool :=
  match first_page_children j with
  | Thrown _ => false
  | Returned kids =>
      match js_or kids (JArr []) with
      | JArr nodes => no_nullish nodes
      | _ => false
      end
  end.

(** The children the generator goes through. *)
Definition page_nodes (j : JsValue) : list JsValue :=
  match first_page_children j with
  | Returned (JArr nodes) => nodes
  | _ => []
  end.

Local Open Scope list_scope.

(* ================================================================== *)
(** ** Vocabulary of the statements: traces *)
(* ================================================================== *)

(** The calls of the blob loop when every blob is written, and the tree
    items pushed meanwhile. *)
Fixpoint blob_events (r : Remote) (entries : Files) (shas : list string) : Trace :=
  match entries, shas with
  | (_, content) :: es, sha :: ss =>
      Ev (GitCreateBlob r content "utf-8") (Fulfilled sha) :: blob_events r es ss
  | _, _ => []
  end.

Fixpoint tree_items (entries : Files) (shas : list string) : list TreeItem :=
  match entries, shas with
  | (path, _) :: es, sha :: ss =>
      {| item_path := path; item_mode := "100644";
         item_type := "blob"; item_sha := sha |} :: tree_items es ss
  | _, _ => []
  end.

Definition is_blob_write (c : Call) : bool :=
  match c with
  | GitCreateBlob _ _ _ => true
  | _ => false
  end.

Definition all_calls (p : Call -> bool) (seg : Trace) : bool :=
  forallb (fun e => p (ev_call e)) seg.

(** What a projection [f] picks out of a trace, in order. *)
Fixpoint collect {A} (f : Event -> option A) (seg : Trace) : list A :=
  match seg with
  | [] => []
  | e :: rest =>
      match f e with
      | Some a => a :: collect f rest
      | None => collect f rest
      end
  end.

(** The contents handed to [createBlob]. *)
Definition blob_content (e : Event) : option string :=
  match e with
  | Ev (GitCreateBlob _ content _) _ => Some content
  | _ => None
  end.

(** The paths of a tree handed to [createTree]. *)
Definition tree_paths (e : Event) : option (list string) :=
  match e with
  | Ev (GitCreateTree _ _ tree) _ => Some (map item_path tree)
  | _ => None
  end.

(** The parents of a commit handed to [createCommit]. *)
Definition commit_parents (e : Event) : option (list string) :=
  match e with
  | Ev (GitCreateCommit _ _ _ parents) _ => Some parents
  | _ => None
  end.

(** The name of a branch reference the host created. *)
Definition branch_created (e : Event) : option string :=
  match e with
  | Ev (GitCreateRef _ ref _) (Fulfilled _) => Some ref
  | _ => None
  end.

(** The address of a pull request the host opened. *)
Definition pull_opened (e : Event) : option string :=
  match e with
  | Ev (PullsCreate _ _ _ _ _) (Fulfilled url) => Some url
  | _ => None
  end.

(** Title and body of a pull request asked for. *)
Definition pull_text (e : Event) : option (string * string) :=
  match e with
  | Ev (PullsCreate _ _ _ title body) _ => Some (title, body)
  | _ => None
  end.

(** The answer to a fetch of the design document. *)
Definition fetch_answer (e : Event) : option (Settled FetchResponse) :=
  match e with
  | Ev (Fetch _ _) a => Some a
  | _ => None
  end.

(** The head a read of a reference was answered with. *)
Definition ref_read (e : Event) : option (Settled string) :=
  match e with
  | Ev (GitGetRef _ _) a => Some a
  | _ => None
  end.

(** Every answer in [seg] is the one the world gave at that point of the
    history that starts with [t]: nothing is replayed from an earlier
    call. *)
Fixpoint faithful (w : World) (t seg : Trace) : Prop :=
  match seg with
  | [] => True
  | e :: rest => ev_answer e = w t (ev_call e) /\ faithful w (t ++ [e]) rest
  end.

(** [m] only appends to the trace, only calls that satisfy [p], each
    answered by the world on the spot. *)
Definition emits {A} (p : Call -> bool) (m : M A) : Prop :=
  forall (w : World) (t : Trace),
    exists seg,
      snd (m w t) = t ++ seg /\ all_calls p seg = true /\ faithful w t seg.

(** The calls of a publish that went through, after the reads [pre] that
    named the base branch: the head of the base branch is read, the clock
    names the branch, and blobs, tree, commit, branch and pull request
    are written. *)
Definition published (r : Remote) (files : Files) (pre : Trace)
    (baseBranch baseSha : string) (now : Z) (shas : list string)
    (tree_sha commit_sha url : string) : Trace :=
  let branch := ("figma-sync/" ++ number_to_string now)%string in
  pre
  ++ [Ev (GitGetRef r ("heads/" ++ baseBranch)%string) (Fulfilled baseSha);
      Ev DateNow now]
  ++ blob_events r files shas
  ++ [Ev (GitCreateTree r baseSha (tree_items files shas)) (Fulfilled tree_sha);
      Ev (GitCreateCommit r commit_message tree_sha [baseSha]) (Fulfilled commit_sha);
      Ev (GitCreateRef r ("refs/heads/" ++ branch)%string commit_sha) (Fulfilled tt);
      Ev (PullsCreate r branch baseBranch pr_title pr_body) (Fulfilled url)].

(** The calls a publish may make: the host and the clock. *)
Definition is_publish_call (c : Call) : bool :=
  match c with
  | DateNow => true
  | _ => is_host_call c
  end.

(* ================================================================== *)
(** ** Vocabulary of the statements: the handlers *)
(* ================================================================== *)

Definition failed (e : Exn) : Response := {| status := 500; sent := SentError e |}.

Definition fetch_call (cfg : Config) : Call :=
  Fetch (figma_url cfg) (FIGMA_TOKEN cfg).

(** What [fetchFigmaDoc] of the root server makes of the answer. *)
Definition Root_fetch_result (a : Settled FetchResponse) : Completion JsValue :=
  match a with
  | Rejected reason => Thrown (Rejection reason)
  | Fulfilled res =>
      if res_ok res then
        match res_json res with
        | Fulfilled j => Returned j
        | Rejected reason => Thrown (Rejection reason)
        end
      else
        Thrown (Error ("Figma API error: " ++ number_to_string (res_status res)
                       ++ " " ++ match res_text res with
                                 | Fulfilled text => text
                                 | Rejected _ => ""
                                 end)%string)
  end.

Definition Tool_fetch_result (a : Settled FetchResponse) : Completion JsValue :=
  match a with
  | Rejected reason => Thrown (Rejection reason)
  | Fulfilled res =>
      if res_ok res then
        match res_json res with
        | Fulfilled j => Returned j
        | Rejected reason => Thrown (Rejection reason)
        end
      else
        Thrown (Error ("Figma API error: " ++ number_to_string (res_status res))%string)
  end.

Definition log_received (type file : string) : Event :=
  Ev (ConsoleLog ("[webhook] type=" ++ type ++ " file=" ++ file)%string) tt.

Definition log_skip (file : string) : Event :=
  Ev (ConsoleLog ("[webhook] skip: different file (" ++ file ++ ")")%string) tt.

Definition log_created (url : string) : Event :=
  Ev (ConsoleLog ("[webhook] PR created: " ++ url)%string) tt.

Definition log_error (e : Exn) : Event := Ev (ConsoleError e) tt.

(* ================================================================== *)
(** ** The two servers side by side *)
(* ================================================================== *)

Inductive Server : Type := RootServer | ToolServer.

Definition generateCode_of (s : Server) : Config -> JsValue -> Completion Files :=
  match s with
  | RootServer => Root.generateCode
  | ToolServer => Tool.generateCode
  end.

Definition Home_tsx_of (s : Server) : string :=
  match s with
  | RootServer => Root.Home_tsx
  | ToolServer => Tool.Home_tsx
  end.

Definition webhook_of (s : Server) : Config -> Request -> M Response :=
  match s with
  | RootServer => Root.webhook
  | ToolServer => Tool.webhook
  end.

(** The requests a server leaves alone: the root server those for
    another file, the earlier server none. *)
Definition ignores (s : Server) (cfg : Config) (req : Request) : bool :=
  match s with
  | RootServer => Root.different_file cfg req
  | ToolServer => false
  end.

Definition fetch_result_of (s : Server) : Settled FetchResponse -> Completion JsValue :=
  match s with
  | RootServer => Root_fetch_result
  | ToolServer => Tool_fetch_result
  end.

(** How a run ended, and the trace it left. *)
Definition ending {A} (r : Completion A * Trace) : option Exn * Trace :=
  match r with
  | (Returned _, t) => (None, t)
  | (Thrown e, t) => (Some e, t)
  end.

Definition openPR_of (s : Server) (cfg : Config) (files : Files) (w : World)
    (t : Trace) : option Exn * Trace :=
  match s with
  | RootServer => ending (Root.openPR cfg files w t)
  | ToolServer => ending (Tool.openPR cfg files w t)
  end.

(** The reads by which a server names the base branch, and the name. *)
Definition base_reads (s : Server) (cfg : Config) (default_branch : option string)
  : Trace :=
  match s with
  | RootServer => [Ev (ReposGet (remote_of cfg)) (Fulfilled default_branch)]
  | ToolServer => []
  end.

Definition base_of (s : Server) (default_branch : option string) : string :=
  match s with
  | RootServer => Root.base_branch default_branch
  | ToolServer => "main"
  end.

(** [files[path]]. *)
Fixpoint content_of (files : Files) (path : string) : option string :=
  match files with
  | [] => None
  | (p, c) :: rest => if (p =? path)%string then Some c else content_of rest path
  end.

(** What the generator reads of a node: its type and its name. *)
Definition head_of (n : JsValue) : JsValue * JsValue :=
  (get_opt n "type", get_opt n "name").

(** The fetch of the design document failed: the request was rejected,
    the status is not in 200..299, or the body is not JSON. *)
Definition fetch_failed (a : Settled FetchResponse) : bool :=
  match a with
  | Rejected _ => true
  | Fulfilled res =>
      negb (res_ok res)
      || match res_json res with
         | Rejected _ => true
         | Fulfilled _ => false
         end
  end.

(* ================================================================== *)
(** ** Vocabulary of the statements: further projections *)
(* ================================================================== *)

(** The reason a call was rejected with. *)
Definition rejection (e : Event) : option string :=
  match e with
  | Ev (Fetch _ _) (Rejected reason) => Some reason
  | Ev (ReposGet _) (Rejected reason) => Some reason
  | Ev (GitGetRef _ _) (Rejected reason) => Some reason
  | Ev (GitCreateBlob _ _ _) (Rejected reason) => Some reason
  | Ev (GitCreateTree _ _ _) (Rejected reason) => Some reason
  | Ev (GitCreateCommit _ _ _ _) (Rejected reason) => Some reason
  | Ev (GitCreateRef _ _ _) (Rejected reason) => Some reason
  | Ev (PullsCreate _ _ _ _ _) (Rejected reason) => Some reason
  | _ => None
  end.

(** No call of [seg] but the last was rejected, and the last was
    rejected with [reason]. *)
Fixpoint aborted_by (seg : Trace) (reason : string) : Prop :=
  match seg with
  | [] => False
  | e :: rest =>
      match rest with
      | [] => rejection e = Some reason
      | _ => rejection e = None /\ aborted_by rest reason
      end
  end.

(** The reason a request for a pull request was rejected with. *)
Definition pull_rejected (e : Event) : option string :=
  match e with
  | Ev (PullsCreate _ _ _ _ _) (Rejected reason) => Some reason
  | _ => None
  end.

(** A reading of the clock. *)
Definition clock_read (e : Event) : option Z :=
  match e with
  | Ev DateNow now => Some now
  | _ => None
  end.

(** A read of a reference: its name and the answer. *)
Definition ref_asked (e : Event) : option (string * Settled string) :=
  match e with
  | Ev (GitGetRef _ ref) a => Some (ref, a)
  | _ => None
  end.

(** A blob written: content, encoding and the answer. *)
Definition blob_written (e : Event) : option (string * string * Settled string) :=
  match e with
  | Ev (GitCreateBlob _ content encoding) a => Some (content, encoding, a)
  | _ => None
  end.

(** A tree written: base tree, items and the answer. *)
Definition tree_written (e : Event)
  : option (string * list TreeItem * Settled string) :=
  match e with
  | Ev (GitCreateTree _ base_tree tree) a => Some (base_tree, tree, a)
  | _ => None
  end.

(** A commit written: message, tree, parents and the answer. *)
Definition commit_written (e : Event)
  : option (string * string * list string * Settled string) :=
  match e with
  | Ev (GitCreateCommit _ message tree parents) a => Some (message, tree, parents, a)
  | _ => None
  end.

(** A reference written: name, commit and the answer. *)
Definition ref_written (e : Event) : option (string * string * Settled unit) :=
  match e with
  | Ev (GitCreateRef _ ref sha) a => Some (ref, sha, a)
  | _ => None
  end.

(** A pull request asked for: head, base and the answer. *)
Definition pull_asked (e : Event) : option (string * string * Settled string) :=
  match e with
  | Ev (PullsCreate _ head base _ _) a => Some (head, base, a)
  | _ => None
  end.

Definition remote_eqb (a b : Remote) : bool :=
  ((auth a =? auth b) && (owner a =? owner b) && (repo a =? repo b))%string.

(** The call is addressed as the configuration says: a fetch goes to the
    configured file with the configured token, a call to the host carries
    the configured credentials, owner and repository. *)
Definition targets (cfg : Config) (c : Call) : bool :=
  match c with
  | Fetch url token =>
      ((url =? figma_url cfg) && (token =? FIGMA_TOKEN cfg))%string
  | ReposGet r | GitGetRef r _ | GitCreateBlob r _ _ | GitCreateTree r _ _
  | GitCreateCommit r _ _ _ | GitCreateRef r _ _ | PullsCreate r _ _ _ _ =>
      remote_eqb r (remote_of cfg)
  | DateNow | ConsoleLog _ | ConsoleError _ => true
  end.

(** A payload gains or changes the member [k]. *)
Fixpoint set_field (fields : list (string * JsValue)) (k : string) (v : JsValue)
  : list (string * JsValue) :=
  match fields with
  | [] => [(k, v)]
  | (k', v') :: rest =>
      if (k' =? k)%string then (k', v) :: rest else (k', v') :: set_field rest k v
  end.

(** Neither an object nor an array. *)
Definition is_primitive (v : JsValue) : bool :=
  match v with
  | JArr _ | JObj _ => false
  | _ => true
  end.

Definition is_string (v : JsValue) : bool :=
  match v with
  | JStr _ => true
  | _ => false
  end.

(** A name that is missing read as [null]. *)
Definition undefined_as_null (v : JsValue) : JsValue :=
  match v with
  | JUndefined => JNull
  | _ => v
  end.

(** The pages of a document: [document.children] when it is an array. *)
Definition pages (j : JsValue) : list JsValue :=
  match get_opt (get_opt j "document") "children" with
  | JArr ps => ps
  | _ => []
  end.

(** One character of the body of a quoted string read back; [None] at
    the closing quote. Used to tell two quoted strings apart. *)
Definition hex_value (c : ascii) : nat :=
  let n := nat_of_ascii c in
  if (n <? 58)%nat then (n - 48)%nat else (n - 87)%nat.

Definition unquote_step (s : string) : option (ascii * string) :=
  match s with
  | EmptyString => None
  | String c rest =>
      match nat_of_ascii c with
      | 34 => None
      | 92 =>
          match rest with
          | String e rest' =>
              match nat_of_ascii e with
              | 98 => Some (ascii_of_nat 8, rest')
              | 116 => Some (ascii_of_nat 9, rest')
              | 110 => Some (ascii_of_nat 10, rest')
              | 102 => Some (ascii_of_nat 12, rest')
              | 114 => Some (ascii_of_nat 13, rest')
              | 34 => Some (ascii_of_nat 34, rest')
              | 92 => Some (ascii_of_nat 92, rest')
              | 117 =>
                  match rest' with
                  | String _ (String _ (String h (String l rest''))) =>
                      Some (ascii_of_nat (16 * hex_value h + hex_value l), rest'')
                  | _ => None
                  end
              | _ => None
              end
          | EmptyString => None
          end
      | _ => Some (c, rest)
      end
  end.

(** The console output of a run that reaches the fetch: the root server
    has logged the event, the earlier server nothing. *)
Definition Run_head (s : Server) (cfg : Config) (req : Request) (head : Trace)
  : Prop :=
  match s with
  | RootServer =>
      exists type file,
        to_string (Root.eventType req) = Returned type
        /\ to_string (Root.fileId req) = Returned file
        /\ Root.different_file cfg req = false
        /\ head = [log_received type file]
  | ToolServer => head = []
  end.

(** The runs of a handler, outcome by outcome: what was called, what was
    answered and what is sent back. [head] is the console output before
    the fetch. *)
Inductive Run (s : Server) (cfg : Config) (req : Request) (w : World) (t : Trace)
  : Response -> Trace -> Prop :=
| run_log_failed (e : Exn) :
    s = RootServer ->
    to_string (Root.eventType req) = Thrown e
    \/ ((exists type, to_string (Root.eventType req) = Returned type)
        /\ to_string (Root.fileId req) = Thrown e) ->
    Run s cfg req w t (failed e) [log_error e]
| run_ignored (type file : string) :
    s = RootServer ->
    to_string (Root.eventType req) = Returned type ->
    to_string (Root.fileId req) = Returned file ->
    ignores s cfg req = true ->
    Run s cfg req w t sendStatus200 [log_received type file; log_skip file]
| run_fetch_failed (head : Trace) (e : Exn) :
    Run_head s cfg req head ->
    fetch_result_of s (w (t ++ head) (fetch_call cfg)) = Thrown e ->
    Run s cfg req w t (failed e)
      (head ++ [Ev (fetch_call cfg) (w (t ++ head) (fetch_call cfg)); log_error e])
| run_generate_failed (head : Trace) (figmaJson : JsValue) (e : Exn) :
    Run_head s cfg req head ->
    fetch_result_of s (w (t ++ head) (fetch_call cfg)) = Returned figmaJson ->
    generateCode_of s cfg figmaJson = Thrown e ->
    Run s cfg req w t (failed e)
      (head ++ [Ev (fetch_call cfg) (w (t ++ head) (fetch_call cfg)); log_error e])
| run_publish_failed (head pub : Trace) (figmaJson : JsValue) (files : Files)
    (e : Exn) :
    Run_head s cfg req head ->
    fetch_result_of s (w (t ++ head) (fetch_call cfg)) = Returned figmaJson ->
    generateCode_of s cfg figmaJson = Returned files ->
    openPR_of s cfg files w
      (t ++ head ++ [Ev (fetch_call cfg) (w (t ++ head) (fetch_call cfg))])
    = (Some e,
       (t ++ head ++ [Ev (fetch_call cfg) (w (t ++ head) (fetch_call cfg))]) ++ pub) ->
    Run s cfg req w t (failed e)
      (head ++ [Ev (fetch_call cfg) (w (t ++ head) (fetch_call cfg))]
       ++ pub ++ [log_error e])
| run_published (head pub tail : Trace) (figmaJson : JsValue) (files : Files) :
    Run_head s cfg req head ->
    fetch_result_of s (w (t ++ head) (fetch_call cfg)) = Returned figmaJson ->
    generateCode_of s cfg figmaJson = Returned files ->
    openPR_of s cfg files w
      (t ++ head ++ [Ev (fetch_call cfg) (w (t ++ head) (fetch_call cfg))])
    = (None,
       (t ++ head ++ [Ev (fetch_call cfg) (w (t ++ head) (fetch_call cfg))]) ++ pub) ->
    all_calls is_console tail = true ->
    Run s cfg req w t {| status := 200; sent := SentText "OK" |}
      (head ++ [Ev (fetch_call cfg) (w (t ++ head) (fetch_call cfg))]
       ++ pub ++ tail).

(* ================================================================== *)
(** ** Sample configuration, documents, requests and host *)
(* ================================================================== *)

Definition cfg0 : Config :=
  {| FIGMA_TOKEN := "figd_token"; FIGMA_FILE_ID := "FILE123";
     GH_TOKEN := "ghp_token"; GH_OWNER := "acme"; GH_REPO := "front";
     CODEGEN_TARGET := "." |}.

(** A node of a Figma document. *)
Definition node (type name : string) (children : list JsValue) : JsValue :=
  JObj [("id", JStr name); ("name", JStr name); ("type", JStr type);
        ("children", JArr children)].

(** A document with one page. *)
Definition doc_of (page_children : list JsValue) : JsValue :=
  JObj [("name", JStr "design");
        ("document",
         JObj [("type", JStr "DOCUMENT");
               ("children",
                JArr [JObj [("type", JStr "CANVAS");
                            ("children", JArr page_children)]])])].

(** Whether an earlier call created the branch reference [ref]. *)
Fixpoint ref_exists (t : Trace) (ref : string) : bool :=
  match t with
  | [] => false
  | Ev (GitCreateRef _ ref' _) (Fulfilled _) :: rest =>
      (ref' =? ref) || ref_exists rest ref
  | _ :: rest => ref_exists rest ref
  end.

Fixpoint pulls_opened (t : Trace) : nat :=
  match t with
  | [] => 0
  | Ev (PullsCreate _ _ _ _ _) (Fulfilled _) :: rest => S (pulls_opened rest)
  | _ :: rest => pulls_opened rest
  end.

Definition stamp (t : Trace) : string := number_to_string (Z.of_nat (length t)).

(** A design tool that serves [served] and a host that behaves like a
    git server: the default branch is [main] with a fixed head, objects
    get fresh identifiers, a branch name can be created once, pull
    requests are numbered. The clock advances with every call. *)
Definition demo_world (served : Settled FetchResponse) : World :=
  fun t c =>
    match c return Answer c with
    | Fetch _ _ => served
    | DateNow => (1700000000000 + Z.of_nat (length t))%Z
    | ConsoleLog _ => tt
    | ConsoleError _ => tt
    | ReposGet _ => Fulfilled (Some "main")
    | GitGetRef _ ref =>
        if ref =? "heads/main" then Fulfilled "c0ffee" else Rejected "Not Found"
    | GitCreateBlob _ _ _ => Fulfilled ("blob@" ++ stamp t)%string
    | GitCreateTree _ _ _ => Fulfilled ("tree@" ++ stamp t)%string
    | GitCreateCommit _ _ _ _ => Fulfilled ("commit@" ++ stamp t)%string
    | GitCreateRef _ ref _ =>
        if ref_exists t ref then Rejected "Reference already exists"
        else Fulfilled tt
    | PullsCreate r _ _ _ _ =>
        Fulfilled ("https://github.com/" ++ owner r ++ "/" ++ repo r ++ "/pull/"
                   ++ number_to_string (Z.of_nat (S (pulls_opened t))))%string
    end.

Definition serve (doc : JsValue) : Settled FetchResponse :=
  Fulfilled {| res_status := 200; res_text := Rejected "body used already";
               res_json := Fulfilled doc |}.

Definition forbidden : Settled FetchResponse :=
  Fulfilled {| res_status := 403;
               res_text := Fulfilled "Invalid token";
               res_json := Fulfilled (JObj [("status", JNum 403);
                                            ("err", JStr "Invalid token")]) |}.

Definition file_update (file_key : string) : Request :=
  {| body := JObj [("event_type", JStr "FILE_UPDATE"); ("file_key", JStr file_key)];
     x_figma_event_type := None |}.

Definition home_settings : JsValue :=
  doc_of [node "FRAME" "Home" []; node "FRAME" "Settings" []].

Definition two_homes : JsValue :=
  doc_of [node "FRAME" "Home" []; node "FRAME" "Home" []].

Definition nested_frame : JsValue :=
  doc_of [node "GROUP" "Layer" [node "FRAME" "Inner" []]].

Definition two_files : Files :=
  [("src/a.ts", "export const a = 1;"); ("src/b.ts", "export const b = 2;")]%string.

Definition one_file : Files := [("src/a.ts", "export const a = 1;")]%string.

Definition two_runs (s : Server) (w : World) (req : Request) : Trace * Trace :=
  let first := snd (webhook_of s cfg0 req w []) in
  let second := snd (webhook_of s cfg0 req w first) in
  (first, skipn (length first) second).

(** A webhook payload for another file whose event type is an object
    with a member named [toString]. *)
Definition odd_event : Request :=
  {| body := JObj [("event_type", JObj [("toString", JNum 1)]);
                   ("file_key", JStr "OTHER")]%string;
     x_figma_event_type := None |}.

(* ================================================================== *)
(** ** Vocabulary of the statements: publishing, pages and the environment *)
(* ================================================================== *)

(** What is known of a publish that threw. *)
Definition publish_failure (seg : Trace) (e : Exn) : Prop :=
  exists reason,
    e = Rejection reason
    /\ aborted_by seg reason
    /\ collect pull_opened seg = []
    /\ (collect branch_created seg = [] \/ collect pull_rejected seg = [reason]).

(** The answer to the question for the default branch. *)
Definition repo_read (e : Event) : option (Settled (option string)) :=
  match e with
  | Ev (ReposGet _) a => Some a
  | _ => None
  end.

(** The blobs written for [files] when the host answered [shas], and the
    tree items made of them. *)
Definition blob_records (files : Files) (shas : list string)
  : list (string * string * Settled string) :=
  map (fun cs => (fst cs, "utf-8"%string, Fulfilled (snd cs)))
      (combine (map snd files) shas).

(** A host whose pull requests are refused: everything else is answered
    as by [demo_world]. *)
Definition no_pulls_world : World :=
  fun t c =>
    match c return Answer c with
    | PullsCreate _ _ _ _ _ => Rejected "Validation Failed"
    | c' => demo_world forbidden t c'
    end.

(** An element of an array as [JSON.stringify] prints it. *)
Definition element (indent : string) (v : JsValue) : string :=
  match serialize indent v with
  | Some s => s
  | None => "null"%string
  end.

Definition page_of (children : list JsValue) : JsValue :=
  JObj [("type", JStr "CANVAS"); ("children", JArr children)]%string.

Definition book (pages : list JsValue) : JsValue :=
  JObj [("document", JObj [("children", JArr pages)])]%string.

Definition startup_of (s : Server) : Env -> Startup :=
  match s with
  | RootServer => Root.startup
  | ToolServer => Tool.startup
  end.

Definition default_target (s : Server) : string :=
  match s with
  | RootServer => "."
  | ToolServer => "apps/tma"
  end.

(** The configuration read off the environment, with the target
    directory [target]. *)
Definition config_of (env : Env) (target : string) : Config :=
  {| FIGMA_TOKEN := value_of (env "FIGMA_TOKEN"%string);
     FIGMA_FILE_ID := value_of (env "FIGMA_FILE_ID"%string);
     GH_TOKEN := value_of (env "GH_TOKEN"%string);
     GH_OWNER := value_of (env "GH_OWNER"%string);
     GH_REPO := value_of (env "GH_REPO"%string);
     CODEGEN_TARGET := target |}.

Definition sample_env : Env :=
  fun n =>
    if (n =? "FIGMA_TOKEN")%string then Some "figd_token"%string
    else if (n =? "FIGMA_FILE_ID")%string then Some "FILE123"%string
    else if (n =? "GH_TOKEN")%string
         then Some (String (ascii_of_nat 9) (String (ascii_of_nat 32) EmptyString))
    else if (n =? "GH_OWNER")%string then Some "acme"%string
    else if (n =? "CODEGEN_TARGET")%string then Some ""%string
    else None.

Definition started_env : Env :=
  fun n =>
    if (n =? "FIGMA_TOKEN")%string then Some "figd_token"%string
    else if (n =? "FIGMA_FILE_ID")%string then Some "FILE123"%string
    else if (n =? "GH_TOKEN")%string then Some "ghp_token"%string
    else if (n =? "GH_OWNER")%string then Some "acme"%string
    else if (n =? "GH_REPO")%string then Some "front"%string
    else if (n =? "CODEGEN_TARGET")%string then Some ""%string
    else None.

Definition blank_env : Env :=
  fun n =>
    if (n =? "GH_REPO")%string
    then Some (String (ascii_of_nat 32) (String (ascii_of_nat 10) EmptyString))
    else started_env n.

(* ================================================================== *)
(** ** Facts about strings and the file set *)
(* ================================================================== *)

(** An integer of at most 2^53 in magnitude prints in full. *)
Lemma Number_toString_safe (n : Z) :
  (Z.abs n <= 9007199254740992)%Z -> Number_toString n = number_to_string n.
Proof.
  intros H. unfold Number_toString.
  now rewrite (proj2 (Z.leb_le _ _) H).
Qed.

(** Beyond that a number prints as the nearest double does: rounded,
    padded with zeros up to 21 digits, in exponent form from 22 digits,
    and [Infinity] from 2^1024 on, which [JSON.stringify] turns into
    [null]. *)
Example Number_toString_rounds :
  Number_toString 9007199254740993 = "9007199254740992"%string
  /\ Number_toString 18446744073709551616 = "18446744073709552000"%string
  /\ Number_toString (- 123456789012345678901) = "-123456789012345680000"%string.
Proof. repeat split; vm_compute; reflexivity. Qed.

Example Number_toString_exponent :
  Number_toString (10 ^ 21) = "1e+21"%string
  /\ Number_toString 123456789012345678901234567890
     = "1.2345678901234568e+29"%string
  /\ Number_toString (2 ^ 1024) = "Infinity"%string
  /\ Number_toJSON (2 ^ 1024) = "null"%string.
Proof. repeat split; vm_compute; reflexivity. Qed.

Lemma eqb_append_prefix (p a b : string) : (p ++ a =? p ++ b) = (a =? b).
Proof.
  induction p as [|c p IH]; simpl; [reflexivity|].
  rewrite Ascii.eqb_refl. exact IH.
Qed.

Lemma prefix_append (p s : string) : prefix p (p ++ s) = true.
Proof.
  induction p as [|c p IH]; simpl.
  - destruct s; reflexivity.
  - destruct (ascii_dec c c) as [_|ne]; [exact IH | now destruct ne].
Qed.

Lemma assign_four (cfg : Config) (a b c d : string) :
  assign (assign (assign (assign [] (tokens_path cfg) a) (screens_path cfg) b)
                 (home_path cfg) c) (index_path cfg) d
  = [ (tokens_path cfg, a); (screens_path cfg, b);
      (home_path cfg, c); (index_path cfg, d) ].
Proof.
  unfold tokens_path, screens_path, home_path, index_path. simpl.
  repeat (rewrite eqb_append_prefix; simpl). reflexivity.
Qed.

Lemma Root_generateCode_eq (cfg : Config) (j : JsValue) :
  Root.generateCode cfg j =
  (try! names <- topFrames j; Returned (emitted cfg Root.Home_tsx names)).
Proof.
  unfold Root.generateCode. destruct (topFrames j); [|reflexivity].
  cbv beta iota zeta delta [bindC]. now rewrite assign_four.
Qed.

Lemma Tool_generateCode_eq (cfg : Config) (j : JsValue) :
  Tool.generateCode cfg j =
  (try! names <- topFrames j; Returned (emitted cfg Tool.Home_tsx names)).
Proof.
  unfold Tool.generateCode. destruct (topFrames j); [|reflexivity].
  cbv beta iota zeta delta [bindC]. now rewrite assign_four.
Qed.

Lemma screen_modules_emitted (cfg : Config) (home : string) (names : list JsValue) :
  screen_modules cfg (emitted cfg home names) = [home_path cfg].
Proof.
  unfold screen_modules, emitted, paths, tokens_path, screens_path,
    home_path, index_path. simpl.
  repeat (rewrite eqb_append_prefix; simpl). reflexivity.
Qed.

(* ================================================================== *)
(** ** Which nodes become screens *)
(* ================================================================== *)

Lemma get_get_opt (n : JsValue) (k : string) :
  nullish n = false -> get n k = Returned (get_opt n k).
Proof. destruct n; simpl; intros H; try discriminate; reflexivity. Qed.

Lemma filter_frames_ok (nodes : list JsValue) :
  no_nullish nodes = true ->
  filter_frames nodes = Returned (filter is_frame nodes).
Proof.
  induction nodes as [|n rest IH]; simpl; intros H; [reflexivity|].
  apply andb_prop in H as [Hn Hrest]. apply negb_true_iff in Hn.
  rewrite (@get_get_opt n "type" Hn), (IH Hrest). simpl.
  unfold is_frame. destruct (strict_eq_str _ _); reflexivity.
Qed.

Lemma filter_frames_throws (nodes : list JsValue) :
  no_nullish nodes = false -> filter_frames nodes = Thrown TypeError.
Proof.
  induction nodes as [|n rest IH]; simpl; intros H; [discriminate|].
  destruct (nullish n) eqn:Hn; simpl in H.
  - destruct n; try discriminate; reflexivity.
  - rewrite (@get_get_opt n "type" Hn), (IH H). reflexivity.
Qed.

Lemma is_frame_not_nullish (n : JsValue) : is_frame n = true -> nullish n = false.
Proof. destruct n; simpl; try discriminate; reflexivity. Qed.

Lemma map_names_filter (nodes : list JsValue) :
  map_names (filter is_frame nodes) = Returned (frame_names nodes).
Proof.
  unfold frame_names.
  induction nodes as [|n rest IH]; simpl; [reflexivity|].
  destruct (is_frame n) eqn:Hf; [|exact IH].
  simpl. rewrite (@get_get_opt n "name" (is_frame_not_nullish n Hf)), IH.
  reflexivity.
Qed.

Lemma topFrames_accepted (j : JsValue) :
  accepted j = true -> topFrames j = Returned (frame_names (page_nodes j)).
Proof.
  unfold accepted, topFrames, page_nodes.
  destruct (first_page_children j) as [kids|e]; simpl; [|discriminate].
  unfold js_or. destruct kids; simpl; try discriminate; try reflexivity.
  - destruct b; simpl; [discriminate | reflexivity].
  - destruct (n =? 0)%Z; simpl; [reflexivity | discriminate].
  - destruct (s =? ""); simpl; [reflexivity | discriminate].
  - intros H. rewrite (@filter_frames_ok items H). simpl. apply map_names_filter.
Qed.

Lemma topFrames_rejected (j : JsValue) :
  accepted j = false -> topFrames j = Thrown TypeError.
Proof.
  unfold accepted, topFrames.
  destruct (first_page_children j) as [kids|e] eqn:Hk; simpl.
  - unfold js_or. destruct kids; simpl; try discriminate; try reflexivity.
    + destruct b; simpl; [reflexivity | discriminate].
    + destruct (n =? 0)%Z; simpl; [discriminate | reflexivity].
    + destruct (s =? ""); simpl; [discriminate | reflexivity].
    + intros H. now rewrite (@filter_frames_throws items H).
  - intros _. unfold first_page_children in Hk.
    destruct j; simpl in Hk; try discriminate; now inversion Hk.
Qed.

(* ================================================================== *)
(** ** Facts about traces *)
(* ================================================================== *)

Lemma all_calls_app (p : Call -> bool) (a b : Trace) :
  all_calls p (a ++ b) = all_calls p a && all_calls p b.
Proof. apply forallb_app. Qed.

Lemma blob_events_blobs (r : Remote) (entries : Files) (shas : list string) :
  all_calls is_blob_write (blob_events r entries shas) = true.
Proof.
  revert shas. induction entries as [|[p c] es IH]; intros [|sha ss]; simpl; auto.
Qed.

Lemma tree_items_paths (entries : Files) (shas : list string) :
  length shas = length entries ->
  map item_path (tree_items entries shas) = paths entries.
Proof.
  revert shas. induction entries as [|[p c] es IH]; intros [|sha ss]; simpl;
    intros H; try discriminate; [reflexivity|].
  f_equal. apply IH. now injection H.
Qed.

Lemma collect_app {A} (f : Event -> option A) (a b : Trace) :
  collect f (a ++ b) = collect f a ++ collect f b.
Proof.
  induction a as [|e a IH]; simpl; [reflexivity|].
  destruct (f e); simpl; now rewrite IH.
Qed.

Lemma collect_none {A} (f : Event -> option A) (p : Call -> bool) (seg : Trace) :
  (forall e, p (ev_call e) = true -> f e = None) ->
  all_calls p seg = true -> collect f seg = [].
Proof.
  intros Hf. induction seg as [|e seg IH]; simpl; [reflexivity|].
  intros H. apply andb_prop in H as [He Hs].
  rewrite (Hf e He). auto.
Qed.

Lemma collect_blob_events {A} (f : Event -> option A) (r : Remote)
    (entries : Files) (shas : list string) :
  (forall e, is_blob_write (ev_call e) = true -> f e = None) ->
  collect f (blob_events r entries shas) = [].
Proof.
  intros Hf. apply collect_none with (p := is_blob_write);
    [exact Hf | apply blob_events_blobs].
Qed.

Lemma blobs_written_blob_events (r : Remote) (entries : Files) (shas : list string) :
  length shas = length entries ->
  collect blob_content (blob_events r entries shas) = map snd entries.
Proof.
  revert shas. induction entries as [|[p c] es IH]; intros [|sha ss]; simpl;
    intros H; try discriminate; [reflexivity|].
  f_equal. apply IH. now injection H.
Qed.

Lemma createBlobs_returned (r : Remote) (entries : Files) :
  forall (items items' : list TreeItem) (w : World) (t t' : Trace),
    createBlobs r entries items w t = (Returned items', t') ->
    exists shas,
      length shas = length entries
      /\ t' = (t ++ blob_events r entries shas)%list
      /\ items' = (items ++ tree_items entries shas)%list.
Proof.
  induction entries as [|[p c] es IH]; simpl; intros items items' w t t' H.
  - inversion H; subst. exists []. now rewrite !app_nil_r.
  - unfold bind, perform in H. simpl in H.
    destruct (w t (GitCreateBlob r c "utf-8")) as [sha|reason] eqn:Hw;
      simpl in H; [|discriminate].
    apply IH in H as (shas & Hlen & Ht & Hi).
    exists (sha :: shas). simpl. rewrite Hlen. split; [reflexivity|].
    rewrite Ht, Hi, <- !app_assoc. simpl. auto.
Qed.

Lemma faithful_app (w : World) (a b : Trace) :
  forall t, faithful w t (a ++ b) <-> faithful w t a /\ faithful w (t ++ a) b.
Proof.
  induction a as [|e a IH]; intros t; simpl.
  - rewrite app_nil_r. tauto.
  - rewrite IH, <- app_assoc. simpl. tauto.
Qed.

Section Emits.
Variable p : Call -> bool.

Lemma emits_ret {A} (a : A) : emits p (ret a).
Proof. intros w t. exists []. simpl. now rewrite app_nil_r. Qed.

Lemma emits_throw {A} (e : Exn) : emits p (@throw A e).
Proof. intros w t. exists []. simpl. now rewrite app_nil_r. Qed.

Lemma emits_await {A} (s : Settled A) : emits p (await s).
Proof. destruct s; [apply emits_ret | apply emits_throw]. Qed.

Lemma emits_lift {A} (c : Completion A) : emits p (lift c).
Proof. destruct c; [apply emits_ret | apply emits_throw]. Qed.

Lemma emits_perform (c : Call) : p c = true -> emits p (perform c).
Proof.
  intros Hc w t. exists [Ev c (w t c)]. split; [reflexivity|].
  simpl. now rewrite Hc.
Qed.

Lemma emits_bind {A B} (m : M A) (k : A -> M B) :
  emits p m -> (forall a, emits p (k a)) -> emits p (bind m k).
Proof.
  intros Hm Hk w t. unfold bind.
  destruct (Hm w t) as (s1 & E1 & P1 & F1).
  destruct (m w t) as [[a|e] t1]; simpl in E1; subst t1.
  - destruct (Hk a w (t ++ s1)) as (s2 & E2 & P2 & F2).
    exists (s1 ++ s2).
    rewrite E2, app_assoc, all_calls_app, P1, P2, faithful_app. auto.
  - exists s1. auto.
Qed.

Lemma emits_try_catch {A} (m : M A) (h : Exn -> M A) :
  emits p m -> (forall e, emits p (h e)) -> emits p (try_catch m h).
Proof.
  intros Hm Hh w t. unfold try_catch.
  destruct (Hm w t) as (s1 & E1 & P1 & F1).
  destruct (m w t) as [[a|e] t1]; simpl in E1; subst t1.
  - exists s1. auto.
  - destruct (Hh e w (t ++ s1)) as (s2 & E2 & P2 & F2).
    exists (s1 ++ s2).
    rewrite E2, app_assoc, all_calls_app, P1, P2, faithful_app. auto.
Qed.

Lemma emits_createBlobs (r : Remote) (entries : Files) :
  (forall c, is_blob_write c = true -> p c = true) ->
  forall items, emits p (createBlobs r entries items).
Proof.
  intros Hp. induction entries as [|[path content] es IH]; intros items; simpl.
  - apply emits_ret.
  - apply emits_bind; [apply emits_perform, Hp; reflexivity|].
    intros blob. apply emits_bind; [apply emits_await|].
    intros sha. apply IH.
Qed.
End Emits.

Ltac emits_steps :=
  repeat first
    [ apply emits_ret | apply emits_throw | apply emits_await | apply emits_lift
    | apply emits_perform; reflexivity
    | apply emits_createBlobs; intros [] Hc; (discriminate Hc || reflexivity)
    | apply emits_bind; [|intros ?] ].

Ltac settle H :=
  match type of H with
  | context [match ?x with Fulfilled _ => _ | Rejected _ => _ end] =>
      let E := fresh "Hw" in
      destruct x eqn:E; simpl in H; try discriminate H
  end.

(* ================================================================== *)
(** ** What a publish leaves in the trace *)
(* ================================================================== *)

Ltac norm_trace :=
  unfold published; repeat (progress (simpl; rewrite <- ?app_assoc)).

Ltac unfold_M H := unfold bind, perform, await, ret, throw in H; simpl in H.

Lemma Root_openPR_returned (cfg : Config) (files : Files) (w : World)
    (t t' : Trace) (url : string) :
  Root.openPR cfg files w t = (Returned url, t') ->
  exists default_branch baseSha now shas tree_sha commit_sha,
    length shas = length files
    /\ t' = t ++ published (remote_of cfg) files
                   [Ev (ReposGet (remote_of cfg)) (Fulfilled default_branch)]
                   (Root.base_branch default_branch) baseSha now shas
                   tree_sha commit_sha url.
Proof.
  unfold Root.openPR. intros H. unfold_M H.
  settle H. settle H.
  destruct (createBlobs _ files [] w _) as [[items|e] tb] eqn:Hb;
    simpl in H; [|discriminate].
  apply createBlobs_returned in Hb as (shas & Hlen & -> & ->).
  settle H. settle H. settle H. settle H.
  inversion H; subst; clear H.
  match goal with u : unit |- _ => destruct u end.
  eexists _, _, _, shas, _, _. split; [exact Hlen|].
  unfold published. simpl. rewrite <- !app_assoc. simpl. reflexivity.
Qed.

Lemma Tool_openPR_returned (cfg : Config) (files : Files) (w : World)
    (t t' : Trace) (u : unit) :
  Tool.openPR cfg files w t = (Returned u, t') ->
  exists baseSha now shas tree_sha commit_sha url,
    length shas = length files
    /\ t' = t ++ published (remote_of cfg) files [] "main" baseSha now shas
                   tree_sha commit_sha url.
Proof.
  unfold Tool.openPR. intros H. unfold_M H.
  settle H.
  destruct (createBlobs _ files [] w _) as [[items|e] tb] eqn:Hb;
    simpl in H; [|discriminate].
  apply createBlobs_returned in Hb as (shas & Hlen & -> & ->).
  settle H. settle H. settle H. settle H.
  inversion H; subst; clear H.
  match goal with u : unit |- _ => destruct u end.
  eexists _, _, shas, _, _, _. split; [exact Hlen|].
  unfold published. simpl. rewrite <- !app_assoc. simpl. reflexivity.
Qed.

Lemma Root_openPR_emits (cfg : Config) (files : Files) :
  emits is_publish_call (Root.openPR cfg files).
Proof. unfold Root.openPR. emits_steps. Qed.

Lemma Tool_openPR_emits (cfg : Config) (files : Files) :
  emits is_publish_call (Tool.openPR cfg files).
Proof. unfold Tool.openPR. emits_steps. Qed.

(* ================================================================== *)
(** ** The webhook handlers, case by case *)
(* ================================================================== *)

Lemma Root_fetchFigmaDoc_eq (cfg : Config) (w : World) (t : Trace) :
  Root.fetchFigmaDoc cfg w t =
  (Root_fetch_result (w t (fetch_call cfg)),
   t ++ [Ev (fetch_call cfg) (w t (fetch_call cfg))]).
Proof.
  unfold Root.fetchFigmaDoc, fetch_call, bind, perform. simpl.
  destruct (w t (Fetch _ _)) as [res|reason]; simpl; [|reflexivity].
  destruct (res_ok res); simpl; [|reflexivity].
  destruct (res_json res); reflexivity.
Qed.

Lemma Tool_fetchFigmaDoc_eq (cfg : Config) (w : World) (t : Trace) :
  Tool.fetchFigmaDoc cfg w t =
  (Tool_fetch_result (w t (fetch_call cfg)),
   t ++ [Ev (fetch_call cfg) (w t (fetch_call cfg))]).
Proof.
  unfold Tool.fetchFigmaDoc, fetch_call, bind, perform. simpl.
  destruct (w t (Fetch _ _)) as [res|reason]; simpl; [|reflexivity].
  destruct (res_ok res); simpl; [|reflexivity].
  destruct (res_json res); reflexivity.
Qed.

(** The root handler written as the tree of its outcomes. *)
Lemma Root_webhook_eq (cfg : Config) (req : Request) (w : World) (t : Trace) :
  Root.webhook cfg req w t =
  match to_string (Root.eventType req) with
  | Thrown e => (Returned (failed e), t ++ [log_error e])
  | Returned type =>
    match to_string (Root.fileId req) with
    | Thrown e => (Returned (failed e), t ++ [log_error e])
    | Returned file =>
      let t1 := t ++ [log_received type file] in
      if Root.different_file cfg req then
        (Returned sendStatus200, t1 ++ [log_skip file])
      else
        let a := w t1 (fetch_call cfg) in
        let t2 := t1 ++ [Ev (fetch_call cfg) a] in
        match Root_fetch_result a with
        | Thrown e => (Returned (failed e), t2 ++ [log_error e])
        | Returned figmaJson =>
          match Root.generateCode cfg figmaJson with
          | Thrown e => (Returned (failed e), t2 ++ [log_error e])
          | Returned files =>
            match Root.openPR cfg files w t2 with
            | (Thrown e, t3) => (Returned (failed e), t3 ++ [log_error e])
            | (Returned url, t3) =>
                (Returned {| status := 200; sent := SentText "OK" |},
                 t3 ++ [log_created url])
            end
          end
        end
    end
  end.
Proof.
  unfold Root.webhook, try_catch, log_error, log_received, log_skip, log_created.
  unfold bind at 1.
  destruct (to_string (Root.eventType req)) as [type|e]; simpl;
    [|unfold bind, perform; simpl; now destruct (w t (ConsoleError e))].
  unfold bind at 1.
  destruct (to_string (Root.fileId req)) as [file|e]; simpl;
    [|unfold bind, perform; simpl; now destruct (w t (ConsoleError e))].
  unfold bind at 1. unfold perform at 1.
  destruct (w t (ConsoleLog _)).
  destruct (Root.different_file cfg req).
  - unfold bind, perform, ret; simpl.
    now destruct (w _ (ConsoleLog _)).
  - unfold bind at 1. rewrite Root_fetchFigmaDoc_eq.
    destruct (Root_fetch_result _) as [figmaJson|e];
      [|unfold bind, perform; simpl; now destruct (w _ (ConsoleError e))].
    unfold bind at 1.
    destruct (Root.generateCode cfg figmaJson) as [files|e]; simpl;
      [|unfold bind, perform; simpl; now destruct (w _ (ConsoleError e))].
    unfold bind at 1.
    destruct (Root.openPR cfg files w _) as [[url|e] t3];
      [|unfold bind, perform; simpl; now destruct (w _ (ConsoleError e))].
    unfold bind, perform, ret; simpl.
    now destruct (w t3 (ConsoleLog _)).
Qed.

(** The handler of [tools/figma-sync/server.js] as the tree of its
    outcomes. *)
Lemma Tool_webhook_eq (cfg : Config) (req : Request) (w : World) (t : Trace) :
  Tool.webhook cfg req w t =
  let a := w t (fetch_call cfg) in
  let t2 := t ++ [Ev (fetch_call cfg) a] in
  match Tool_fetch_result a with
  | Thrown e => (Returned (failed e), t2 ++ [log_error e])
  | Returned figmaJson =>
    match Tool.generateCode cfg figmaJson with
    | Thrown e => (Returned (failed e), t2 ++ [log_error e])
    | Returned files =>
      match Tool.openPR cfg files w t2 with
      | (Thrown e, t3) => (Returned (failed e), t3 ++ [log_error e])
      | (Returned _, t3) => (Returned sendStatus200, t3)
      end
    end
  end.
Proof.
  unfold Tool.webhook, try_catch, log_error.
  unfold bind at 1. rewrite Tool_fetchFigmaDoc_eq.
  destruct (Tool_fetch_result _) as [figmaJson|e]; simpl;
    [|unfold bind, perform; simpl; now destruct (w _ (ConsoleError e))].
  unfold bind at 1.
  destruct (Tool.generateCode cfg figmaJson) as [files|e]; simpl;
    [|unfold bind, perform; simpl; now destruct (w _ (ConsoleError e))].
  unfold bind at 1.
  destruct (Tool.openPR cfg files w _) as [[u|e] t3];
    [|unfold bind, perform; simpl; now destruct (w _ (ConsoleError e))].
  reflexivity.
Qed.

Lemma generateCode_of_eq (s : Server) (cfg : Config) (j : JsValue) :
  generateCode_of s cfg j =
  (try! names <- topFrames j; Returned (emitted cfg (Home_tsx_of s) names)).
Proof. destruct s; [apply Root_generateCode_eq | apply Tool_generateCode_eq]. Qed.

Lemma generateCode_of_accepted (s : Server) (cfg : Config) (j : JsValue) :
  accepted j = true ->
  generateCode_of s cfg j =
  Returned (emitted cfg (Home_tsx_of s) (frame_names (page_nodes j))).
Proof.
  intros H. now rewrite generateCode_of_eq, (topFrames_accepted j H).
Qed.

Lemma openPR_of_returned (s : Server) (cfg : Config) (files : Files)
    (w : World) (t t' : Trace) :
  openPR_of s cfg files w t = (None, t') ->
  exists default_branch baseSha now shas tree_sha commit_sha url,
    length shas = length files
    /\ t' = t ++ published (remote_of cfg) files (base_reads s cfg default_branch)
                   (base_of s default_branch) baseSha now shas
                   tree_sha commit_sha url.
Proof.
  destruct s; simpl.
  - destruct (Root.openPR cfg files w t) as [[url|e] t1] eqn:H; simpl;
      intros E; inversion E; subst.
    apply Root_openPR_returned in H
      as (db & baseSha & now & shas & tree_sha & commit_sha & Hlen & Ht).
    now exists db, baseSha, now, shas, tree_sha, commit_sha, url.
  - destruct (Tool.openPR cfg files w t) as [[u|e] t1] eqn:H; simpl;
      intros E; inversion E; subst.
    apply Tool_openPR_returned in H
      as (baseSha & now & shas & tree_sha & commit_sha & url & Hlen & Ht).
    now exists None, baseSha, now, shas, tree_sha, commit_sha, url.
Qed.

Lemma openPR_of_emits (s : Server) (cfg : Config) (files : Files) (w : World)
    (t : Trace) :
  exists seg,
    snd (openPR_of s cfg files w t) = t ++ seg
    /\ all_calls is_publish_call seg = true /\ faithful w t seg.
Proof.
  destruct s; simpl.
  - destruct (Root_openPR_emits cfg files w t) as (seg & E & P & F).
    exists seg. destruct (Root.openPR cfg files w t) as [[a|e] t1]; auto.
  - destruct (Tool_openPR_emits cfg files w t) as (seg & E & P & F).
    exists seg. destruct (Tool.openPR cfg files w t) as [[a|e] t1]; auto.
Qed.

Lemma fetch_result_returned (s : Server) (a : Settled FetchResponse) (j : JsValue) :
  fetch_result_of s a = Returned j ->
  exists res, a = Fulfilled res /\ res_ok res = true /\ res_json res = Fulfilled j.
Proof.
  destruct s; simpl; destruct a as [res|reason]; simpl; try discriminate;
    destruct (res_ok res) eqn:Hok; try discriminate;
    destruct (res_json res) as [j'|reason] eqn:Hj; try discriminate;
    intros E; inversion E; subst; exists res; auto.
Qed.

(** A run that answers 200 without having ignored the request went
    through fetch, generation and a whole publish. *)
Lemma webhook_of_published (s : Server) (cfg : Config) (req : Request)
    (w : World) (t t' : Trace) (resp : Response) :
  webhook_of s cfg req w t = (Returned resp, t') ->
  status resp = 200%Z ->
  ignores s cfg req = false ->
  exists head tail res figmaJson files default_branch baseSha now shas
         tree_sha commit_sha url,
    all_calls is_console head = true
    /\ all_calls is_console tail = true
    /\ res_ok res = true
    /\ res_json res = Fulfilled figmaJson
    /\ generateCode_of s cfg figmaJson = Returned files
    /\ length shas = length files
    /\ t' = t ++ head
              ++ Ev (fetch_call cfg) (Fulfilled res)
              :: published (remote_of cfg) files (base_reads s cfg default_branch)
                   (base_of s default_branch) baseSha now shas
                   tree_sha commit_sha url
              ++ tail.
Proof.
  destruct s; simpl; intros H Hst Hig.
  - rewrite Root_webhook_eq in H.
    destruct (to_string (Root.eventType req)) as [type|e];
      [|inversion H; subst; discriminate].
    destruct (to_string (Root.fileId req)) as [file|e];
      [|inversion H; subst; discriminate].
    cbv zeta in H. rewrite Hig in H.
    destruct (Root_fetch_result _) as [figmaJson|e] eqn:Hf;
      [|inversion H; subst; discriminate].
    destruct (Root.generateCode cfg figmaJson) as [files|e] eqn:Hg;
      [|inversion H; subst; discriminate].
    destruct (Root.openPR cfg files w _) as [[url|e] t3] eqn:Hp;
      [|inversion H; subst; discriminate].
    apply (fetch_result_returned RootServer) in Hf as (res & Ha & Hok & Hj).
    rewrite Ha in Hp.
    apply Root_openPR_returned in Hp
      as (db & baseSha & now & shas & tree_sha & commit_sha & Hlen & Ht).
    inversion H; subst; clear H.
    exists [log_received type file], [log_created url], res, figmaJson, files,
      db, baseSha, now, shas, tree_sha, commit_sha, url.
    repeat split; auto.
    norm_trace. reflexivity.
  - rewrite Tool_webhook_eq in H. cbv zeta in H.
    destruct (Tool_fetch_result _) as [figmaJson|e] eqn:Hf;
      [|inversion H; subst; discriminate].
    destruct (Tool.generateCode cfg figmaJson) as [files|e] eqn:Hg;
      [|inversion H; subst; discriminate].
    destruct (Tool.openPR cfg files w _) as [[u|e] t3] eqn:Hp;
      [|inversion H; subst; discriminate].
    apply (fetch_result_returned ToolServer) in Hf as (res & Ha & Hok & Hj).
    rewrite Ha in Hp.
    apply Tool_openPR_returned in Hp
      as (baseSha & now & shas & tree_sha & commit_sha & url & Hlen & Ht).
    inversion H; subst; clear H.
    exists [], [], res, figmaJson, files, None, baseSha, now, shas,
      tree_sha, commit_sha, url.
    repeat split; auto.
    norm_trace. reflexivity.
Qed.

Lemma content_of_emitted (cfg : Config) (home : string) (names : list JsValue) :
  content_of (emitted cfg home names) (tokens_path cfg) = Some (JSON_stringify tokens)
  /\ content_of (emitted cfg home names) (screens_path cfg) = Some (screens_map names)
  /\ content_of (emitted cfg home names) (home_path cfg) = Some home
  /\ content_of (emitted cfg home names) (index_path cfg) = Some index_ts.
Proof.
  unfold emitted, tokens_path, screens_path, home_path, index_path. simpl.
  repeat (rewrite eqb_append_prefix; simpl). auto.
Qed.

Lemma paths_emitted_NoDup (cfg : Config) (home : string) (names : list JsValue) :
  NoDup (paths (emitted cfg home names)).
Proof.
  assert (D : forall a b : string, (a =? b)%string = false ->
              (CODEGEN_TARGET cfg ++ a)%string <> (CODEGEN_TARGET cfg ++ b)%string).
  { intros a b E. apply String.eqb_neq. now rewrite eqb_append_prefix. }
  unfold emitted, paths, tokens_path, screens_path, home_path, index_path. simpl.
  repeat constructor; simpl; intros H;
    repeat (destruct H as [H|H]; [revert H; apply D; reflexivity|]); exact H.
Qed.

Lemma paths_emitted_prefixed (cfg : Config) (home : string) (names : list JsValue) :
  forallb (prefix (CODEGEN_TARGET cfg)) (paths (emitted cfg home names)) = true.
Proof.
  unfold emitted, paths, tokens_path, screens_path, home_path, index_path. simpl.
  now rewrite !prefix_append.
Qed.

Lemma frame_names_app (a b : list JsValue) :
  frame_names (a ++ b) = frame_names a ++ frame_names b.
Proof. unfold frame_names. now rewrite filter_app, map_app. Qed.

Lemma frame_names_frame (n : JsValue) (rest : list JsValue) :
  is_frame n = true ->
  frame_names (n :: rest) = get_opt n "name" :: frame_names rest.
Proof. unfold frame_names. simpl. now intros ->. Qed.

Lemma frame_names_heads (a b : list JsValue) :
  map head_of a = map head_of b -> frame_names a = frame_names b.
Proof.
  unfold frame_names. revert b.
  induction a as [|n a IH]; intros [|n' b] H; simpl in *; try discriminate;
    [reflexivity|].
  injection H as Htype Hname Hrest. specialize (IH b Hrest).
  unfold is_frame in *. rewrite Htype.
  destruct (strict_eq_str (get_opt n' "type") "FRAME"); simpl;
    rewrite ?Hname, IH; reflexivity.
Qed.

Lemma generateCode_of_rejected (s : Server) (cfg : Config) (j : JsValue) :
  accepted j = false -> generateCode_of s cfg j = Thrown TypeError.
Proof.
  intros H. now rewrite generateCode_of_eq, (topFrames_rejected j H).
Qed.

(** Inputs with the document, the page list, the first page or its
    children missing or [null] are among the accepted ones. *)
Lemma accepted_without_children (j : JsValue) :
  nullish j = false ->
  nullish (get_opt (first_opt (get_opt (get_opt j "document") "children")) "children")
    = true ->
  accepted j = true.
Proof.
  intros Hj Hk. unfold accepted, first_page_children.
  rewrite (@get_get_opt j "document" Hj). simpl.
  destruct (get_opt _ "children"); simpl in *; try discriminate; reflexivity.
Qed.

Example accepted_empty_object : accepted (JObj []) = true.
Proof. reflexivity. Qed.

Example accepted_null_document : accepted (JObj [("document", JNull)]) = true.
Proof. reflexivity. Qed.

Example accepted_no_pages :
  accepted (JObj [("document", JObj [("children", JArr [])])]) = true.
Proof. reflexivity. Qed.

Example accepted_null_children :
  accepted (JObj [("document", JObj [("children", JArr [JObj [("children", JNull)]])])])
  = true.
Proof. reflexivity. Qed.

(* ================================================================== *)
(** ** Claims about the code generator *)
(* ================================================================== *)

(** C2, as the code has it. For every accepted document with no
    top-level frame, either server's generator returns a file set whose
    screens manifest is the empty sequence, with the tokens and the index
    present; the file set still holds one module, the fixed sample screen
    [Home.tsx], which the generator emits for every document. *)
Theorem zero_screens_file_set (s : Server) (cfg : Config) (j : JsValue) :
  accepted j = true ->
  filter is_frame (page_nodes j) = [] ->
  exists files,
    generateCode_of s cfg j = Returned files
    /\ content_of files (screens_path cfg)
       = Some "export const screens = [] as const;"%string
    /\ content_of files (tokens_path cfg) = Some (JSON_stringify tokens)
    /\ content_of files (index_path cfg) = Some index_ts
    /\ screen_modules cfg files = [home_path cfg]
    /\ content_of files (home_path cfg) = Some (Home_tsx_of s).
Proof.
  intros Hacc Hzero.
  exists (emitted cfg (Home_tsx_of s) []).
  destruct (content_of_emitted cfg (Home_tsx_of s) []) as (Ht & Hs & Hh & Hi).
  rewrite (generateCode_of_accepted s cfg j Hacc).
  unfold frame_names. rewrite Hzero. simpl.
  repeat split; auto using screen_modules_emitted.
Qed.

Lemma zero_screens_file_set_witness :
  exists files,
    generateCode_of RootServer cfg0 (doc_of [node "TEXT" "Title" []]) = Returned files
    /\ content_of files (screens_path cfg0)
       = Some "export const screens = [] as const;"%string
    /\ content_of files (tokens_path cfg0) = Some (JSON_stringify tokens)
    /\ content_of files (index_path cfg0) = Some index_ts
    /\ screen_modules cfg0 files = [home_path cfg0]
    /\ content_of files (home_path cfg0) = Some (Home_tsx_of RootServer).
Proof.
  apply (zero_screens_file_set RootServer cfg0 (doc_of [node "TEXT" "Title" []]));
    reflexivity.
Defined.

(** C2 as stated fails: for the document whose only page is empty the
    file set contains a module file, [./src/generated/Home.tsx]. *)
Lemma zero_screens_module_emitted :
  filter is_frame (page_nodes (doc_of [])) = []
  /\ exists files,
       Root.generateCode cfg0 (doc_of []) = Returned files
       /\ paths files = ["./src/tokens.json"; "./src/generated/screens.map.ts";
                         "./src/generated/Home.tsx"; "./src/generated/index.ts"]%string
       /\ screen_modules cfg0 files = ["./src/generated/Home.tsx"%string].
Proof.
  split; [reflexivity|]. eexists. split; [reflexivity|]. split; reflexivity.
Qed.

(** C3, as the code has it. For every accepted document with two
    top-level frames of the same name, either server's generator emits
    one module path, the fixed [Home.tsx] of every run: no path is derived
    from a frame, so no frame's output replaces another's. Both frames are
    entries of the screens manifest, in document order. *)
Theorem same_name_frames_one_module (s : Server) (cfg : Config) (j : JsValue)
    (before between after : list JsValue) (a b name : JsValue) :
  accepted j = true ->
  page_nodes j = before ++ a :: between ++ b :: after ->
  is_frame a = true ->
  is_frame b = true ->
  get_opt a "name" = name ->
  get_opt b "name" = name ->
  exists files,
    generateCode_of s cfg j = Returned files
    /\ screen_modules cfg files = [home_path cfg]
    /\ content_of files (screens_path cfg)
       = Some (screens_map (frame_names before ++ name
                            :: frame_names between ++ name :: frame_names after)).
Proof.
  intros Hacc Hnodes Ha Hb Hna Hnb.
  exists (emitted cfg (Home_tsx_of s) (frame_names (page_nodes j))).
  destruct (content_of_emitted cfg (Home_tsx_of s) (frame_names (page_nodes j)))
    as (_ & Hs & _ & _).
  split; [apply generateCode_of_accepted, Hacc|].
  split; [apply screen_modules_emitted|].
  rewrite Hs, Hnodes. do 2 f_equal.
  rewrite frame_names_app, (frame_names_frame a _ Ha), frame_names_app,
    (frame_names_frame b _ Hb), Hna, Hnb.
  reflexivity.
Qed.

Lemma same_name_frames_one_module_witness :
  exists files,
    generateCode_of RootServer cfg0 two_homes = Returned files
    /\ screen_modules cfg0 files = [home_path cfg0]
    /\ content_of files (screens_path cfg0)
       = Some (screens_map (frame_names [] ++ JStr "Home"
                            :: frame_names [] ++ JStr "Home" :: frame_names [])).
Proof.
  apply (same_name_frames_one_module RootServer cfg0 two_homes [] [] []
           (node "FRAME" "Home" []) (node "FRAME" "Home" []) (JStr "Home"));
    reflexivity.
Defined.

(** C3 as stated fails: two top-level frames both named Home give one
    module path, not two. *)
Lemma same_name_frames_single_path :
  page_nodes two_homes = [node "FRAME" "Home" []; node "FRAME" "Home" []]
  /\ exists files,
       Root.generateCode cfg0 two_homes = Returned files
       /\ screen_modules cfg0 files = ["./src/generated/Home.tsx"%string]
       /\ length (screen_modules cfg0 files) <> 2.
Proof.
  split; [reflexivity|]. eexists. split; [reflexivity|].
  split; [reflexivity|]. simpl. discriminate.
Qed.

(** C6. For every accepted design document and configuration, two runs
    of the generation step return the same file set, byte for byte,
    whatever the world and the history of each run, and leave the trace as
    it was: generation is a function of the document and the target
    directory alone. *)
Theorem generateCode_deterministic (s : Server) (cfg : Config) (D : JsValue)
    (w1 w2 : World) (t1 t2 : Trace) :
  accepted D = true ->
  exists files,
    lift (generateCode_of s cfg D) w1 t1 = (Returned files, t1)
    /\ lift (generateCode_of s cfg D) w2 t2 = (Returned files, t2)
    /\ files = emitted cfg (Home_tsx_of s) (frame_names (page_nodes D)).
Proof.
  intros Hacc. exists (emitted cfg (Home_tsx_of s) (frame_names (page_nodes D))).
  rewrite (generateCode_of_accepted s cfg D Hacc). simpl. auto.
Qed.

Lemma generateCode_deterministic_witness :
  exists files,
    lift (generateCode_of RootServer cfg0 two_homes)
         (demo_world forbidden) [] = (Returned files, [])
    /\ lift (generateCode_of RootServer cfg0 two_homes)
            (demo_world (serve two_homes)) [Ev DateNow 5%Z]
       = (Returned files, [Ev DateNow 5%Z])
    /\ files = emitted cfg0 (Home_tsx_of RootServer) (frame_names (page_nodes two_homes)).
Proof.
  apply (generateCode_deterministic RootServer cfg0 two_homes
           (demo_world forbidden) (demo_world (serve two_homes)) []
           [Ev DateNow 5%Z]).
  reflexivity.
Defined.

(** C7, as the code has it. The generator reads the type and the name of
    the direct children of the first page and nothing below them: two
    accepted documents whose first-page children agree, one by one, in
    type and name give the same file set, whatever their descendants. A
    frame nested inside another node is never visited. *)
Theorem descendants_not_visited (s : Server) (cfg : Config) (j j' : JsValue) :
  accepted j = true ->
  accepted j' = true ->
  map head_of (page_nodes j) = map head_of (page_nodes j') ->
  generateCode_of s cfg j = generateCode_of s cfg j'.
Proof.
  intros Hj Hj' Hheads.
  rewrite (generateCode_of_accepted s cfg j Hj),
          (generateCode_of_accepted s cfg j' Hj').
  now rewrite (frame_names_heads _ _ Hheads).
Qed.

Lemma descendants_not_visited_witness :
  generateCode_of RootServer cfg0 nested_frame
  = generateCode_of RootServer cfg0 (doc_of [node "GROUP" "Layer" []]).
Proof.
  apply (descendants_not_visited RootServer cfg0 nested_frame
           (doc_of [node "GROUP" "Layer" []])); reflexivity.
Defined.

(** C7 as stated fails: a frame inside a group on the first page does
    not reach the output, the manifest is empty and the file set is that
    of an empty page. *)
Lemma nested_frame_lost :
  exists files,
    Root.generateCode cfg0 nested_frame = Returned files
    /\ content_of files "./src/generated/screens.map.ts"
       = Some "export const screens = [] as const;"%string
    /\ Root.generateCode cfg0 (doc_of []) = Returned files.
Proof. eexists. split; [reflexivity|]. split; reflexivity. Qed.

(** C9, as the code has it. On every accepted input (not [null] or
    [undefined] itself, the first page's children falsy or an array
    without [null] elements; so also when the document, the page list or
    the children are missing or [null]) either server's generator returns
    a file set with exactly the four paths of tokens, manifest, [Home.tsx]
    and index, all distinct and all under the target directory. *)
Theorem generateCode_four_paths (s : Server) (cfg : Config) (j : JsValue) :
  accepted j = true ->
  exists files,
    generateCode_of s cfg j = Returned files
    /\ paths files = [tokens_path cfg; screens_path cfg; home_path cfg; index_path cfg]
    /\ NoDup (paths files)
    /\ forallb (prefix (CODEGEN_TARGET cfg)) (paths files) = true.
Proof.
  intros Hacc. eexists.
  split; [apply generateCode_of_accepted, Hacc|].
  split; [reflexivity|].
  split; [apply paths_emitted_NoDup | apply paths_emitted_prefixed].
Qed.

Lemma generateCode_four_paths_witness :
  exists files,
    generateCode_of RootServer cfg0 (JObj [("document", JNull)]) = Returned files
    /\ paths files = [tokens_path cfg0; screens_path cfg0; home_path cfg0; index_path cfg0]
    /\ NoDup (paths files)
    /\ forallb (prefix (CODEGEN_TARGET cfg0)) (paths files) = true.
Proof.
  apply (generateCode_four_paths RootServer cfg0 (JObj [("document", JNull)])).
  reflexivity.
Defined.

(** C9 as stated fails: the generator throws on the input [null], on a
    first page that has [null] among its children, and on children that
    are a string. *)
Lemma generateCode_throws :
  Root.generateCode cfg0 JNull = Thrown TypeError
  /\ Root.generateCode cfg0 (doc_of [JNull]) = Thrown TypeError
  /\ Root.generateCode cfg0
       (JObj [("document",
               JObj [("children", JArr [JObj [("children", JStr "abc")]])])])
     = Thrown TypeError
  /\ Tool.generateCode cfg0 (doc_of [JNull]) = Thrown TypeError.
Proof. repeat split; reflexivity. Qed.

(* ================================================================== *)
(** ** Claims about the publish *)
(* ================================================================== *)

Lemma collect_published_commits (r : Remote) (files : Files) (pre : Trace)
    (baseBranch baseSha : string) (now : Z) (shas : list string)
    (tree_sha commit_sha url : string) :
  all_calls (fun c => negb (is_host_write c)) pre = true ->
  collect commit_parents
    (published r files pre baseBranch baseSha now shas tree_sha commit_sha url)
  = [[baseSha]].
Proof.
  intros Hpre. unfold published.
  rewrite !collect_app, collect_blob_events
    by (intros [[] a] Hc; (discriminate Hc || reflexivity)).
  rewrite (collect_none commit_parents (fun c => negb (is_host_write c)))
    by (try exact Hpre; intros [[] a] Hc; (discriminate Hc || reflexivity)).
  reflexivity.
Qed.

Lemma base_reads_no_write (s : Server) (cfg : Config) (db : option string) :
  all_calls (fun c => negb (is_host_write c)) (base_reads s cfg db) = true.
Proof. destruct s; reflexivity. Qed.

Ltac not_a_blob := intros [[] a] Hc; (discriminate Hc || reflexivity).

Lemma collect_published (s : Server) (cfg : Config) (files : Files)
    (db : option string) (baseSha : string) (now : Z) (shas : list string)
    (tree_sha commit_sha url : string) :
  length shas = length files ->
  let seg := published (remote_of cfg) files (base_reads s cfg db) (base_of s db)
               baseSha now shas tree_sha commit_sha url in
  collect pull_text seg = [(pr_title, pr_body)]
  /\ collect pull_opened seg = [url]
  /\ collect branch_created seg
     = [("refs/heads/figma-sync/" ++ number_to_string now)%string]
  /\ collect ref_read seg = [Fulfilled baseSha]
  /\ collect fetch_answer seg = []
  /\ collect blob_content seg = map snd files
  /\ collect tree_paths seg = [paths files].
Proof.
  intros Hlen. unfold published. cbv zeta.
  rewrite !collect_app.
  rewrite (collect_blob_events pull_text), (collect_blob_events pull_opened),
    (collect_blob_events branch_created), (collect_blob_events ref_read),
    (collect_blob_events fetch_answer), (collect_blob_events tree_paths)
    by not_a_blob.
  rewrite (blobs_written_blob_events _ files shas Hlen).
  destruct s; simpl; rewrite ?app_nil_r, (tree_items_paths files shas Hlen);
    repeat split; reflexivity.
Qed.

Lemma collect_published_pull (s : Server) (cfg : Config) (files : Files)
    (db : option string) (baseSha : string) (now : Z) (shas : list string)
    (tree_sha commit_sha url : string) :
  collect pull_asked
    (published (remote_of cfg) files (base_reads s cfg db) (base_of s db)
       baseSha now shas tree_sha commit_sha url)
  = [(("figma-sync/" ++ number_to_string now)%string, base_of s db, Fulfilled url)].
Proof.
  unfold published.
  rewrite !collect_app, (collect_blob_events pull_asked) by not_a_blob.
  destruct s; reflexivity.
Qed.

(** C4. Every publish that goes through, of either server, constructs
    exactly one commit; its parents are the one-element list holding the
    head of the base branch, and that head is what the host answered,
    within this same publish and before any write, to the read of
    [heads/<base branch>]. The read is made once and its answer is the
    live one of that moment. The base branch is the branch the pull
    request of this publish is opened against: on the root server the
    default branch the host answered with at the start of this publish
    ([main] when it names none), on the earlier server [main]; nothing is
    read before the head but that answer. *)
Theorem commit_parent_is_live_base_head (s : Server) (cfg : Config)
    (files : Files) (w : World) (t t' : Trace) :
  openPR_of s cfg files w t = (None, t') ->
  exists seg reads rest default_branch baseSha head url,
    t' = t ++ seg
    /\ collect commit_parents seg = [[baseSha]]
    /\ collect ref_read seg = [Fulfilled baseSha]
    /\ seg = reads
             ++ Ev (GitGetRef (remote_of cfg) ("heads/" ++ base_of s default_branch)%string)
                   (Fulfilled baseSha)
             :: rest
    /\ all_calls (fun c => negb (is_host_write c)) reads = true
    /\ w (t ++ reads)
         (GitGetRef (remote_of cfg) ("heads/" ++ base_of s default_branch)%string)
       = Fulfilled baseSha
    /\ reads = match s with
               | RootServer =>
                   [Ev (ReposGet (remote_of cfg)) (Fulfilled default_branch)]
               | ToolServer => []
               end
    /\ (s = RootServer ->
        w t (ReposGet (remote_of cfg)) = Fulfilled default_branch)
    /\ base_of s default_branch
       = match s with
         | RootServer =>
             match default_branch with
             | Some name => if (name =? "")%string then "main"%string else name
             | None => "main"%string
             end
         | ToolServer => "main"%string
         end
    /\ collect pull_asked seg = [(head, base_of s default_branch, Fulfilled url)].
Proof.
  intros H.
  destruct (openPR_of_emits s cfg files w t) as (seg & Hseg & _ & Hlive).
  destruct (openPR_of_returned s cfg files w t t' H)
    as (db & baseSha & now & shas & tree_sha & commit_sha & url & Hlen & Ht).
  rewrite H in Hseg. simpl in Hseg. rewrite Ht in Hseg.
  apply app_inv_head in Hseg. subst seg.
  destruct (collect_published s cfg files db baseSha now shas tree_sha
              commit_sha url Hlen) as (_ & _ & _ & Hread & _).
  eexists _, (base_reads s cfg db), _, db, baseSha, _, url.
  split; [exact Ht|].
  split; [apply collect_published_commits, base_reads_no_write|].
  split; [exact Hread|].
  split; [unfold published; simpl; reflexivity|].
  split; [apply base_reads_no_write|].
  unfold published in Hlive. apply faithful_app in Hlive as [Hreads Hlive].
  simpl in Hlive.
  split; [symmetry; exact (proj1 Hlive)|].
  split; [destruct s; reflexivity|].
  split; [intros ->; simpl in Hreads; symmetry; exact (proj1 Hreads)|].
  split; [|apply collect_published_pull].
  destruct s; [|reflexivity].
  destruct db as [name|]; [|reflexivity].
  simpl. unfold Root.base_branch, js_or. simpl.
  destruct (name =? "")%string; reflexivity.
Qed.

Lemma commit_parent_is_live_base_head_witness :
  exists seg reads rest default_branch baseSha head url,
    snd (openPR_of RootServer cfg0 two_files (demo_world forbidden) []) = [] ++ seg
    /\ collect commit_parents seg = [[baseSha]]
    /\ collect ref_read seg = [Fulfilled baseSha]
    /\ seg = reads
             ++ Ev (GitGetRef (remote_of cfg0)
                      ("heads/" ++ base_of RootServer default_branch)%string)
                   (Fulfilled baseSha)
             :: rest
    /\ all_calls (fun c => negb (is_host_write c)) reads = true
    /\ demo_world forbidden ([] ++ reads)
         (GitGetRef (remote_of cfg0)
            ("heads/" ++ base_of RootServer default_branch)%string)
       = Fulfilled baseSha
    /\ reads = [Ev (ReposGet (remote_of cfg0)) (Fulfilled default_branch)]
    /\ (RootServer = RootServer ->
        demo_world forbidden [] (ReposGet (remote_of cfg0)) = Fulfilled default_branch)
    /\ base_of RootServer default_branch
       = match default_branch with
         | Some name => if (name =? "")%string then "main"%string else name
         | None => "main"%string
         end
    /\ collect pull_asked seg
       = [(head, base_of RootServer default_branch, Fulfilled url)].
Proof.
  apply (commit_parent_is_live_base_head RootServer cfg0 two_files
           (demo_world forbidden) []).
  reflexivity.
Defined.

(** C8, as the code has it. Every publish that goes through asks for one
    pull request, and its title and body are the two fixed texts of the
    source, whatever the files published. *)
Theorem pull_request_text_is_fixed (s : Server) (cfg : Config) (files : Files)
    (w : World) (t t' : Trace) :
  openPR_of s cfg files w t = (None, t') ->
  exists seg,
    t' = t ++ seg
    /\ collect pull_text seg
       = [("Figma → GitHub auto-sync"%string,
           "Этот PR автоматически создан из изменений в Figma."%string)].
Proof.
  intros H.
  destruct (openPR_of_returned s cfg files w t t' H)
    as (db & baseSha & now & shas & tree_sha & commit_sha & url & Hlen & Ht).
  eexists. split; [exact Ht|].
  apply (collect_published s cfg files db baseSha now shas tree_sha commit_sha
           url Hlen).
Qed.

Lemma pull_request_text_is_fixed_witness :
  exists seg,
    snd (openPR_of ToolServer cfg0 two_files (demo_world forbidden) []) = [] ++ seg
    /\ collect pull_text seg
       = [("Figma → GitHub auto-sync"%string,
           "Этот PR автоматически создан из изменений в Figma."%string)].
Proof.
  apply (pull_request_text_is_fixed ToolServer cfg0 two_files
           (demo_world forbidden) []).
  reflexivity.
Defined.

(** C8 as stated fails: a publish that adds two files and a publish that
    adds one ask for a pull request with the same title and body; the
    title of the two-file publish has no figure 2 in it. *)
Lemma pull_request_title_ignores_counts :
  let w := demo_world forbidden in
  collect pull_text (snd (Root.openPR cfg0 two_files w []))
  = [("Figma → GitHub auto-sync"%string,
      "Этот PR автоматически создан из изменений в Figma."%string)]
  /\ collect pull_text (snd (Root.openPR cfg0 one_file w []))
     = collect pull_text (snd (Root.openPR cfg0 two_files w []))
  /\ length (collect blob_content (snd (Root.openPR cfg0 two_files w []))) = 2
  /\ length (collect blob_content (snd (Root.openPR cfg0 one_file w []))) = 1
  /\ index 0 "2" "Figma → GitHub auto-sync" = None.
Proof. vm_compute. repeat split; reflexivity. Qed.

(* ================================================================== *)
(** ** Claims about the webhook pipeline *)
(* ================================================================== *)

Lemma fetch_failed_thrown (s : Server) (a : Settled FetchResponse) :
  fetch_failed a = true -> exists e, fetch_result_of s a = Thrown e.
Proof.
  destruct s; simpl; destruct a as [res|reason]; simpl; eauto;
    destruct (res_ok res); simpl; eauto;
    destruct (res_json res); simpl; eauto; discriminate.
Qed.

Lemma fetch_returned_not_failed (s : Server) (a : Settled FetchResponse)
    (j : JsValue) :
  fetch_result_of s a = Returned j -> fetch_failed a = false.
Proof.
  intros H. destruct (fetch_failed a) eqn:F; [|reflexivity].
  destruct (fetch_failed_thrown s a F) as [e He]. congruence.
Qed.

Lemma publish_calls_no_fetch (seg : Trace) :
  all_calls is_publish_call seg = true -> collect fetch_answer seg = [].
Proof.
  apply collect_none. intros [[] a] Hc; (discriminate Hc || reflexivity).
Qed.

(** C1, as the code has it. Neither server keeps or compares an earlier
    file set: every run that is not ignored and answers 200 creates one
    new branch, named after the clock it read, and opens one new pull
    request,
    whatever ran before and whether or not the document changed. *)
Theorem every_published_run_creates_branch_and_request (s : Server)
    (cfg : Config) (req : Request) (w : World) (t t' : Trace) (resp : Response) :
  webhook_of s cfg req w t = (Returned resp, t') ->
  status resp = 200%Z ->
  ignores s cfg req = false ->
  exists seg now url,
    t' = t ++ seg
    /\ In (Ev DateNow now) seg
    /\ collect branch_created seg
       = [("refs/heads/figma-sync/" ++ number_to_string now)%string]
    /\ collect pull_opened seg = [url].
Proof.
  intros H Hst Hig.
  destruct (webhook_of_published s cfg req w t t' resp H Hst Hig)
    as (head & tail & res & D & files & db & baseSha & now & shas & tree_sha
        & commit_sha & url & Hhead & Htail & _ & _ & _ & Hlen & Ht).
  destruct (collect_published s cfg files db baseSha now shas tree_sha
              commit_sha url Hlen) as (_ & Hpull & Hbranch & _).
  exists (head ++ [Ev (fetch_call cfg) (Fulfilled res)]
            ++ published (remote_of cfg) files (base_reads s cfg db)
                 (base_of s db) baseSha now shas tree_sha commit_sha url
            ++ tail), now, url.
  split; [exact Ht|].
  split.
  { apply in_or_app. right. apply in_or_app. right. apply in_or_app. left.
    unfold published. apply in_or_app. right. simpl. auto. }
  rewrite !collect_app, Hpull, Hbranch.
  rewrite (collect_none branch_created is_console head),
    (collect_none branch_created is_console tail),
    (collect_none pull_opened is_console head),
    (collect_none pull_opened is_console tail)
    by (try assumption; intros [[] a] Hc; (discriminate Hc || reflexivity)).
  split; reflexivity.
Qed.

Lemma every_published_run_creates_branch_and_request_witness :
  exists seg now url,
    snd (webhook_of RootServer cfg0 (file_update "FILE123")
           (demo_world (serve home_settings))
           (fst (two_runs RootServer (demo_world (serve home_settings))
                   (file_update "FILE123"))))
    = fst (two_runs RootServer (demo_world (serve home_settings))
             (file_update "FILE123")) ++ seg
    /\ In (Ev DateNow now) seg
    /\ collect branch_created seg
       = [("refs/heads/figma-sync/" ++ number_to_string now)%string]
    /\ collect pull_opened seg = [url].
Proof.
  apply (every_published_run_creates_branch_and_request RootServer cfg0
           (file_update "FILE123") (demo_world (serve home_settings))
           (fst (two_runs RootServer (demo_world (serve home_settings))
                   (file_update "FILE123")))
           _ {| status := 200; sent := SentText "OK" |});
    vm_compute; reflexivity.
Defined.

(** C1 as stated fails: two runs in a row on the same document, against
    a host that behaves like a git server. The second run fetches the
    same document, writes the same file contents, and still creates a new
    branch and opens a second pull request. *)
Lemma second_run_publishes_again :
  let w := demo_world (serve home_settings) in
  let req := file_update "FILE123" in
  let first := fst (two_runs RootServer w req) in
  let second := snd (two_runs RootServer w req) in
  collect fetch_answer first = [serve home_settings]
  /\ collect fetch_answer second = [serve home_settings]
  /\ collect blob_content second = collect blob_content first
  /\ collect branch_created first = ["refs/heads/figma-sync/1700000000004"%string]
  /\ collect branch_created second = ["refs/heads/figma-sync/1700000000018"%string]
  /\ collect pull_opened second = ["https://github.com/acme/front/pull/2"%string]
  /\ collect branch_created (snd (two_runs ToolServer w req))
     = ["refs/heads/figma-sync/1700000000013"%string].
Proof. vm_compute. repeat split; reflexivity. Qed.

Lemma failed_fetch_run (cfg : Config) (a a0 : Settled FetchResponse)
    (pre post : Trace) :
  collect fetch_answer pre = [] ->
  collect fetch_answer post = [] ->
  In a (collect fetch_answer (pre ++ [Ev (fetch_call cfg) a0] ++ post)) ->
  a = a0.
Proof.
  intros Hpre Hpost. rewrite !collect_app, Hpre, Hpost. simpl.
  intros [E|[]]. now symmetry.
Qed.

Ltac segment_of H Ht :=
  inversion H as [[Hr Ht]]; rewrite <- ?app_assoc in Ht;
  apply app_inv_head in Ht.

Ltac same_fetch pre Hin :=
  refine (failed_fetch_run _ _ _ pre _ _ _ Hin);
  [ reflexivity
  | rewrite ?collect_app;
    repeat match goal with
           | Hc : all_calls is_publish_call ?pub = true |- _ =>
               rewrite (publish_calls_no_fetch pub Hc)
           end;
    reflexivity ].

(** C5. In every run, of either server, in which the fetch of the design
    document fails (the request is rejected, the status is not OK, or the
    body is not JSON), the handler answers 500 with the error of the
    fetch, and the run makes no call to the version-control host at all:
    no read, no blob, tree, commit, branch or pull request. *)
Theorem failed_fetch_leaves_host_untouched (s : Server) (cfg : Config)
    (req : Request) (w : World) (t seg : Trace) (resp : Response)
    (a : Settled FetchResponse) :
  webhook_of s cfg req w t = (Returned resp, t ++ seg) ->
  In a (collect fetch_answer seg) ->
  fetch_failed a = true ->
  (exists e, fetch_result_of s a = Thrown e /\ resp = failed e)
  /\ status resp = 500%Z
  /\ all_calls (fun c => negb (is_host_call c)) seg = true.
Proof.
  intros H Hin Hfail.
  destruct (fetch_failed_thrown s a Hfail) as [e He].
  destruct s; simpl in H.
  - rewrite Root_webhook_eq in H.
    destruct (to_string (Root.eventType req)) as [type|e1];
      [|segment_of H Ht; subst seg; destruct Hin].
    destruct (to_string (Root.fileId req)) as [file|e1];
      [|segment_of H Ht; subst seg; destruct Hin].
    cbv zeta in H. destruct (Root.different_file cfg req);
      [segment_of H Ht; subst seg; destruct Hin|].
    set (t1 := t ++ [log_received type file]) in *.
    set (a0 := w t1 (fetch_call cfg)) in *.
    destruct (Root_fetch_result a0) as [figmaJson|e0] eqn:Hres.
    + exfalso.
      pose proof (fetch_returned_not_failed RootServer a0 figmaJson Hres) as Hok.
      assert (a = a0); [|congruence].
      destruct (Root.generateCode cfg figmaJson) as [files|e1].
      * destruct (Root_openPR_emits cfg files w (t1 ++ [Ev (fetch_call cfg) a0]))
          as (pub & Hpub & Hcalls & _).
        destruct (Root.openPR cfg files w _) as [[url|e1] t3];
          simpl in Hpub; subst t3; unfold t1 in H; segment_of H Ht; subst seg;
          same_fetch [log_received type file] Hin.
      * unfold t1 in H. segment_of H Ht. subst seg.
        same_fetch [log_received type file] Hin.
    + unfold t1 in H. segment_of H Ht. subst seg.
      assert (a = a0) as -> by same_fetch [log_received type file] Hin.
      simpl in He. rewrite Hres in He. inversion He; subst e0.
      repeat split; eauto.
  - rewrite Tool_webhook_eq in H. cbv zeta in H.
    set (a0 := w t (fetch_call cfg)) in *.
    destruct (Tool_fetch_result a0) as [figmaJson|e0] eqn:Hres.
    + exfalso.
      pose proof (fetch_returned_not_failed ToolServer a0 figmaJson Hres) as Hok.
      assert (a = a0); [|congruence].
      destruct (Tool.generateCode cfg figmaJson) as [files|e1].
      * destruct (Tool_openPR_emits cfg files w (t ++ [Ev (fetch_call cfg) a0]))
          as (pub & Hpub & Hcalls & _).
        destruct (Tool.openPR cfg files w _) as [[u|e1] t3];
          simpl in Hpub; subst t3; segment_of H Ht; subst seg;
          same_fetch (@nil Event) Hin.
      * segment_of H Ht. subst seg. same_fetch (@nil Event) Hin.
    + segment_of H Ht. subst seg.
      assert (a = a0) as -> by same_fetch (@nil Event) Hin.
      simpl in He. rewrite Hres in He. inversion He; subst e0.
      repeat split; eauto.
Qed.

Lemma failed_fetch_leaves_host_untouched_witness :
  let seg := snd (webhook_of RootServer cfg0 (file_update "FILE123")
                    (demo_world forbidden) []) in
  let resp := failed (Error "Figma API error: 403 Invalid token") in
  (exists e, fetch_result_of RootServer forbidden = Thrown e /\ resp = failed e)
  /\ status resp = 500%Z
  /\ all_calls (fun c => negb (is_host_call c)) seg = true.
Proof.
  apply (failed_fetch_leaves_host_untouched RootServer cfg0
           (file_update "FILE123") (demo_world forbidden) []
           (snd (webhook_of RootServer cfg0 (file_update "FILE123")
                   (demo_world forbidden) []))
           (failed (Error "Figma API error: 403 Invalid token")) forbidden).
  - vm_compute. reflexivity.
  - vm_compute. left. reflexivity.
  - reflexivity.
Defined.

Lemma strict_eq_str_other (v : JsValue) (s : string) :
  v <> JStr s -> strict_eq_str v s = false.
Proof.
  destruct v; simpl; auto. intros H.
  destruct (String.eqb_spec s0 s); [subst; now destruct H | reflexivity].
Qed.

(** X24. For every webhook request whose file identifier ([file_key],
    else [file_id]) is truthy and is not the configured one, the root
    handler fetches nothing and calls the host not at all, so nothing is
    generated or written: the run consists of console output only. When
    the event type and the file identifier convert to text for the log
    line, it answers 200 after exactly two lines, the line of the request
    and the line of the skip. *)
Theorem other_file_is_ignored (cfg : Config) (req : Request) (w : World)
    (t : Trace) :
  truthy (Root.fileId req) = true ->
  Root.fileId req <> JStr (FIGMA_FILE_ID cfg) ->
  exists resp seg,
    Root.webhook cfg req w t = (Returned resp, t ++ seg)
    /\ all_calls is_console seg = true
    /\ (forall type file,
          to_string (Root.eventType req) = Returned type ->
          to_string (Root.fileId req) = Returned file ->
          resp = sendStatus200 /\ status resp = 200%Z
          /\ seg = [log_received type file; log_skip file]).
Proof.
  intros Htruthy Hother.
  assert (Hdiff : Root.different_file cfg req = true).
  { unfold Root.different_file.
    now rewrite Htruthy, (strict_eq_str_other _ _ Hother). }
  rewrite Root_webhook_eq.
  destruct (to_string (Root.eventType req)) as [type|e1].
  - destruct (to_string (Root.fileId req)) as [file|e2].
    + cbv zeta. rewrite Hdiff.
      exists sendStatus200, [log_received type file; log_skip file].
      rewrite <- app_assoc.
      split; [reflexivity|]. split; [reflexivity|].
      intros type' file' E1 E2. inversion E1; inversion E2; subst. auto.
    + exists (failed e2), [log_error e2].
      split; [reflexivity|]. split; [reflexivity|].
      intros type' file' E1 E2. discriminate E2.
  - exists (failed e1), [log_error e1].
    split; [reflexivity|]. split; [reflexivity|].
    intros type' file' E1 E2. discriminate E1.
Qed.

Lemma other_file_is_ignored_witness :
  exists resp seg,
    Root.webhook cfg0 (file_update "OTHER") (demo_world (serve home_settings)) []
    = (Returned resp, [] ++ seg)
    /\ all_calls is_console seg = true
    /\ (forall type file,
          to_string (Root.eventType (file_update "OTHER")) = Returned type ->
          to_string (Root.fileId (file_update "OTHER")) = Returned file ->
          resp = sendStatus200 /\ status resp = 200%Z
          /\ seg = [log_received type file; log_skip file]).
Proof.
  apply (other_file_is_ignored cfg0 (file_update "OTHER")
           (demo_world (serve home_settings)) []).
  - reflexivity.
  - simpl. discriminate.
Defined.

(** C10. The code departs from the claim, and from the comment of the
    handler that a webhook for another file is just ignored, at a request
    for another file whose event type is an object with a member named
    [toString]: the payload names the file [OTHER], which is not the
    configured one, and the handler answers 500 with a TypeError where the
    claim has 200. The line of the log is built inside the [try] block
    before the file is compared, and the template literal throws on that
    event type. The run fetches nothing and calls the host not at all:
    all it does is to write the error to the console. *)
Theorem other_file_answered_500 :
  Root.fileId odd_event = JStr "OTHER"
  /\ JStr "OTHER" <> JStr (FIGMA_FILE_ID cfg0)
  /\ to_string (Root.eventType odd_event) = Thrown TypeError
  /\ Root.webhook cfg0 odd_event (demo_world (serve home_settings)) []
     = (Returned {| status := 500; sent := SentError TypeError |},
        [Ev (ConsoleError TypeError) tt]).
Proof.
  split; [reflexivity|]. split; [discriminate|]. split; reflexivity.
Qed.

(** The usual payload, event type and file key both strings: a request
    for another file is answered 200 after two lines of console output. *)
Lemma other_file_string_payload (cfg : Config) (event file_key : string)
    (w : World) (t : Trace) :
  event <> ""%string ->
  file_key <> ""%string ->
  file_key <> FIGMA_FILE_ID cfg ->
  Root.webhook cfg
    {| body := JObj [("event_type", JStr event); ("file_key", JStr file_key)]%string;
       x_figma_event_type := None |} w t
  = (Returned sendStatus200,
     t ++ [log_received event file_key; log_skip file_key]).
Proof.
  intros Hevent Hkey Hother.
  rewrite Root_webhook_eq.
  unfold Root.eventType, Root.fileId, Root.different_file, Root.fileId, js_or.
  simpl.
  apply String.eqb_neq in Hevent, Hkey, Hother.
  repeat (progress (simpl; rewrite ?Hevent, ?Hkey, ?Hother)).
  now rewrite <- app_assoc.
Qed.

(** Two runs, in any two worlds and after any two histories, that fetch
    the same document and publish hand the host the same blob contents
    and the same tree paths. *)
Lemma published_files_deterministic (s : Server) (cfg : Config)
    (req1 req2 : Request) (w1 w2 : World) (t1 t2 seg1 seg2 : Trace)
    (resp1 resp2 : Response) (D : JsValue) :
  webhook_of s cfg req1 w1 t1 = (Returned resp1, t1 ++ seg1) ->
  webhook_of s cfg req2 w2 t2 = (Returned resp2, t2 ++ seg2) ->
  status resp1 = 200%Z -> status resp2 = 200%Z ->
  ignores s cfg req1 = false -> ignores s cfg req2 = false ->
  (forall res, In (Fulfilled res) (collect fetch_answer (seg1 ++ seg2)) ->
               res_json res = Fulfilled D) ->
  collect blob_content seg1 = collect blob_content seg2
  /\ collect tree_paths seg1 = collect tree_paths seg2.
Proof.
  intros H1 H2 S1 S2 I1 I2 HD.
  destruct (webhook_of_published s cfg req1 w1 t1 _ resp1 H1 S1 I1)
    as (hd1 & tl1 & res1 & D1 & f1 & db1 & b1 & n1 & sh1 & tr1 & c1 & u1
        & Hh1 & Ht1 & _ & Hj1 & Hg1 & Hl1 & E1).
  destruct (webhook_of_published s cfg req2 w2 t2 _ resp2 H2 S2 I2)
    as (hd2 & tl2 & res2 & D2 & f2 & db2 & b2 & n2 & sh2 & tr2 & c2 & u2
        & Hh2 & Ht2 & _ & Hj2 & Hg2 & Hl2 & E2).
  apply app_inv_head in E1, E2. subst seg1 seg2.
  assert (Hno : forall l, all_calls is_console l = true ->
                  collect fetch_answer l = [] /\ collect blob_content l = []
                  /\ collect tree_paths l = []).
  { intros l Hl. repeat split; apply (collect_none _ is_console); auto;
      intros [[] a] Hc; (discriminate Hc || reflexivity). }
  destruct (Hno hd1 Hh1) as (F1 & B1 & T1), (Hno tl1 Ht1) as (F1' & B1' & T1'),
    (Hno hd2 Hh2) as (F2 & B2 & T2), (Hno tl2 Ht2) as (F2' & B2' & T2').
  destruct (collect_published s cfg f1 db1 b1 n1 sh1 tr1 c1 u1 Hl1)
    as (_ & _ & _ & _ & P1 & Q1 & R1).
  destruct (collect_published s cfg f2 db2 b2 n2 sh2 tr2 c2 u2 Hl2)
    as (_ & _ & _ & _ & P2 & Q2 & R2).
  assert (D1 = D /\ D2 = D) as [-> ->].
  { split.
    - assert (Hin : In (Fulfilled res1)
                      (collect fetch_answer
                         ((hd1 ++ Ev (fetch_call cfg) (Fulfilled res1) :: published
                             (remote_of cfg) f1 (base_reads s cfg db1) (base_of s db1)
                             b1 n1 sh1 tr1 c1 u1 ++ tl1) ++
                          hd2 ++ Ev (fetch_call cfg) (Fulfilled res2) :: published
                             (remote_of cfg) f2 (base_reads s cfg db2) (base_of s db2)
                             b2 n2 sh2 tr2 c2 u2 ++ tl2))).
      { rewrite !collect_app, F1. simpl. now left. }
      apply HD in Hin. congruence.
    - assert (Hin : In (Fulfilled res2)
                      (collect fetch_answer
                         ((hd1 ++ Ev (fetch_call cfg) (Fulfilled res1) :: published
                             (remote_of cfg) f1 (base_reads s cfg db1) (base_of s db1)
                             b1 n1 sh1 tr1 c1 u1 ++ tl1) ++
                          hd2 ++ Ev (fetch_call cfg) (Fulfilled res2) :: published
                             (remote_of cfg) f2 (base_reads s cfg db2) (base_of s db2)
                             b2 n2 sh2 tr2 c2 u2 ++ tl2))).
      { rewrite (collect_app _ (hd1 ++ _)), (collect_app _ hd2), F2. simpl.
        apply in_or_app. right. now left. }
      apply HD in Hin. congruence. }
  assert (f1 = f2) as -> by congruence.
  change (Ev (fetch_call cfg) (Fulfilled res1) :: ?x)
    with ([Ev (fetch_call cfg) (Fulfilled res1)] ++ x).
  change (Ev (fetch_call cfg) (Fulfilled res2) :: ?x)
    with ([Ev (fetch_call cfg) (Fulfilled res2)] ++ x).
  rewrite !collect_app, B1, B1', B2, B2', T1, T1', T2, T2', Q1, Q2, R1, R2.
  split; reflexivity.
Qed.

(* ================================================================== *)
(** ** Every run of a handler is one of six *)
(* ================================================================== *)

Lemma openPR_of_segment (s : Server) (cfg : Config) (files : Files) (w : World)
    (t : Trace) :
  exists o pub,
    openPR_of s cfg files w t = (o, t ++ pub)
    /\ all_calls is_publish_call pub = true /\ faithful w t pub.
Proof.
  destruct (openPR_of_emits s cfg files w t) as (pub & E & P & F).
  destruct (openPR_of s cfg files w t) as [o t'] eqn:H. simpl in E. subst t'.
  now exists o, pub.
Qed.

Lemma webhook_of_run (s : Server) (cfg : Config) (req : Request) (w : World)
    (t : Trace) :
  exists resp seg,
    webhook_of s cfg req w t = (Returned resp, t ++ seg)
    /\ Run s cfg req w t resp seg.
Proof.
  destruct s; simpl.
  - rewrite Root_webhook_eq.
    destruct (to_string (Root.eventType req)) as [type|e] eqn:Ht.
    2:{ exists (failed e), [log_error e]. split; [reflexivity|].
        apply run_log_failed; auto. }
    destruct (to_string (Root.fileId req)) as [file|e] eqn:Hf.
    2:{ exists (failed e), [log_error e]. split; [reflexivity|].
        apply run_log_failed; eauto. }
    cbv zeta. destruct (Root.different_file cfg req) eqn:Hd.
    { exists sendStatus200, [log_received type file; log_skip file].
      rewrite <- app_assoc. split; [reflexivity|].
      now apply run_ignored. }
    assert (Hhead : Run_head RootServer cfg req [log_received type file])
      by (simpl; eauto 6).
    set (head := [log_received type file]) in *.
    set (a := w (t ++ head) (fetch_call cfg)).
    destruct (Root_fetch_result a) as [figmaJson|e] eqn:Hres.
    2:{ exists (failed e), (head ++ [Ev (fetch_call cfg) a; log_error e]).
        split; [now rewrite <- !app_assoc|].
        now apply run_fetch_failed. }
    destruct (Root.generateCode cfg figmaJson) as [files|e] eqn:Hg.
    2:{ exists (failed e), (head ++ [Ev (fetch_call cfg) a; log_error e]).
        split; [now rewrite <- !app_assoc|].
        now apply run_generate_failed with (figmaJson := figmaJson). }
    destruct (openPR_of_segment RootServer cfg files w
                (t ++ head ++ [Ev (fetch_call cfg) a]))
      as (o & pub & Hp & _).
    rewrite app_assoc in Hp. simpl in Hp.
    destruct (Root.openPR cfg files w _) as [[url|e] t3] eqn:Hopen;
      simpl in Hp; inversion Hp; subst o t3.
    + exists {| status := 200; sent := SentText "OK" |},
        (head ++ [Ev (fetch_call cfg) a] ++ pub ++ [log_created url]).
      split; [now rewrite <- !app_assoc|].
      apply run_published with (figmaJson := figmaJson) (files := files); auto.
      unfold openPR_of. rewrite app_assoc. fold a. now rewrite Hopen.
    + exists (failed e), (head ++ [Ev (fetch_call cfg) a] ++ pub ++ [log_error e]).
      split; [now rewrite <- !app_assoc|].
      apply run_publish_failed with (figmaJson := figmaJson) (files := files); auto.
      unfold openPR_of. rewrite app_assoc. fold a. now rewrite Hopen.
  - rewrite Tool_webhook_eq. cbv zeta.
    assert (Hhead : Run_head ToolServer cfg req []) by reflexivity.
    set (a := w t (fetch_call cfg)).
    assert (Ea : a = w (t ++ []) (fetch_call cfg)) by now rewrite app_nil_r.
    destruct (Tool_fetch_result a) as [figmaJson|e] eqn:Hres.
    2:{ exists (failed e), ([] ++ [Ev (fetch_call cfg) a; log_error e]).
        split; [now rewrite <- !app_assoc|].
        rewrite Ea. apply run_fetch_failed; auto. simpl. now rewrite <- Ea. }
    destruct (Tool.generateCode cfg figmaJson) as [files|e] eqn:Hg.
    2:{ exists (failed e), ([] ++ [Ev (fetch_call cfg) a; log_error e]).
        split; [now rewrite <- !app_assoc|].
        rewrite Ea. apply run_generate_failed with (figmaJson := figmaJson); auto.
        simpl. now rewrite <- Ea. }
    destruct (openPR_of_segment ToolServer cfg files w
                (t ++ [] ++ [Ev (fetch_call cfg) a]))
      as (o & pub & Hp & _).
    simpl in Hp.
    destruct (Tool.openPR cfg files w _) as [[u|e] t3] eqn:Hopen;
      simpl in Hp; inversion Hp; subst o t3.
    + exists sendStatus200, ([] ++ [Ev (fetch_call cfg) a] ++ pub ++ []).
      split; [now rewrite app_nil_r, <- !app_assoc|].
      rewrite Ea.
      apply run_published with (figmaJson := figmaJson) (files := files); auto;
        simpl; rewrite <- ?Ea; auto.
      now rewrite Hopen.
    + exists (failed e), ([] ++ [Ev (fetch_call cfg) a] ++ pub ++ [log_error e]).
      split; [now rewrite <- !app_assoc|].
      rewrite Ea.
      apply run_publish_failed with (figmaJson := figmaJson) (files := files); auto;
        simpl; rewrite <- ?Ea; auto.
      now rewrite Hopen.
Qed.

(* ================================================================== *)
(** ** A publish that fails *)
(* ================================================================== *)

Lemma aborted_cons (e : Event) (rest : Trace) (reason : string) :
  rejection e = None -> aborted_by rest reason -> aborted_by (e :: rest) reason.
Proof. intros He Hr. destruct rest; simpl in *; [contradiction | auto]. Qed.

Lemma aborted_app (a b : Trace) (reason : string) :
  collect rejection a = [] -> aborted_by b reason -> aborted_by (a ++ b) reason.
Proof.
  induction a as [|e a IH]; intros Ha Hb; [exact Hb|].
  simpl in Ha. destruct (rejection e) eqn:He; [discriminate|].
  change ((e :: a) ++ b) with (e :: (a ++ b)).
  apply aborted_cons; auto.
Qed.

Lemma aborted_rejections (seg : Trace) (reason : string) :
  aborted_by seg reason -> collect rejection seg = [reason].
Proof.
  induction seg as [|e rest IH]; simpl; [contradiction|].
  destruct rest as [|e' rest'].
  - intros ->. reflexivity.
  - intros [-> H]. now apply IH.
Qed.

Lemma blob_events_clean (r : Remote) (entries : Files) (shas : list string) :
  collect rejection (blob_events r entries shas) = [].
Proof.
  revert shas. induction entries as [|[p c] es IH]; intros [|sha ss]; simpl; auto.
Qed.

Lemma createBlobs_thrown (r : Remote) (entries : Files) :
  forall (items : list TreeItem) (w : World) (t t' : Trace) (e : Exn),
    createBlobs r entries items w t = (Thrown e, t') ->
    exists seg reason,
      t' = t ++ seg /\ e = Rejection reason /\ aborted_by seg reason
      /\ all_calls is_blob_write seg = true.
Proof.
  induction entries as [|[p c] es IH]; simpl; intros items w t t' e H.
  - discriminate.
  - unfold bind, perform in H. simpl in H.
    destruct (w t (GitCreateBlob r c "utf-8")) as [sha|reason] eqn:Hw; simpl in H.
    + apply IH in H as (seg & reason & -> & -> & Hab & Hall).
      exists (Ev (GitCreateBlob r c "utf-8") (Fulfilled sha) :: seg), reason.
      rewrite <- app_assoc. repeat split; auto.
      now apply aborted_cons.
    + inversion H; subst.
      exists [Ev (GitCreateBlob r c "utf-8") (Rejected reason)], reason.
      repeat split.
Qed.

Ltac other_call :=
  let a := fresh "a" in
  let Hc := fresh "Hc" in
  intros [[] a] Hc; (discriminate Hc || reflexivity).

Ltac clean_blobs :=
  simpl; rewrite ?collect_app, ?blob_events_clean;
  repeat match goal with
         | |- context [collect ?f (blob_events ?r ?es ?ss)] =>
             rewrite (collect_blob_events f r es ss) by other_call
         | Hb : all_calls is_blob_write ?seg = true
           |- context [collect ?f ?seg] =>
             rewrite (collect_none f is_blob_write seg) by (try exact Hb; other_call)
         end;
  simpl.

Ltac aborted_steps :=
  repeat (apply aborted_cons; [reflexivity|]);
  try (apply aborted_app; [apply blob_events_clean|]);
  repeat (apply aborted_cons; [reflexivity|]);
  try assumption; try reflexivity.

Ltac failure_here H :=
  inversion H; subst; clear H;
  eexists; split;
  [ rewrite <- ?app_assoc; simpl; reflexivity
  | eexists; split; [reflexivity|]; split; [aborted_steps|];
    split; [clean_blobs; reflexivity | clean_blobs; simpl; auto] ].

Ltac settle_or_fail H :=
  match type of H with
  | context [match ?x with Fulfilled _ => _ | Rejected _ => _ end] =>
      let E := fresh "Hw" in
      destruct x eqn:E; simpl in H; [|failure_here H]
  end.

Lemma Root_openPR_thrown (cfg : Config) (files : Files) (w : World)
    (t t' : Trace) (e : Exn) :
  Root.openPR cfg files w t = (Thrown e, t') ->
  exists seg, t' = t ++ seg /\ publish_failure seg e.
Proof.
  unfold Root.openPR, publish_failure. intros H. unfold_M H.
  settle_or_fail H. settle_or_fail H.
  destruct (createBlobs _ files [] w _) as [[items|e0] tb] eqn:Hb; simpl in H.
  - apply createBlobs_returned in Hb as (shas & Hlen & -> & ->).
    settle_or_fail H. settle_or_fail H. settle_or_fail H. settle_or_fail H.
    discriminate.
  - apply createBlobs_thrown in Hb as (seg & reason & -> & -> & Hab & Hall).
    inversion H; subst; clear H.
    eexists. split; [rewrite <- ?app_assoc; simpl; reflexivity|].
    exists reason. split; [reflexivity|]. split; [aborted_steps|].
    split; clean_blobs; simpl; auto.
Qed.

Lemma Tool_openPR_thrown (cfg : Config) (files : Files) (w : World)
    (t t' : Trace) (e : Exn) :
  Tool.openPR cfg files w t = (Thrown e, t') ->
  exists seg, t' = t ++ seg /\ publish_failure seg e.
Proof.
  unfold Tool.openPR, publish_failure. intros H. unfold_M H.
  settle_or_fail H.
  destruct (createBlobs _ files [] w _) as [[items|e0] tb] eqn:Hb; simpl in H.
  - apply createBlobs_returned in Hb as (shas & Hlen & -> & ->).
    settle_or_fail H. settle_or_fail H. settle_or_fail H. settle_or_fail H.
    discriminate.
  - apply createBlobs_thrown in Hb as (seg & reason & -> & -> & Hab & Hall).
    inversion H; subst; clear H.
    eexists. split; [rewrite <- ?app_assoc; simpl; reflexivity|].
    exists reason. split; [reflexivity|]. split; [aborted_steps|].
    split; clean_blobs; simpl; auto.
Qed.

Lemma openPR_of_thrown (s : Server) (cfg : Config) (files : Files) (w : World)
    (t t' : Trace) (e : Exn) :
  openPR_of s cfg files w t = (Some e, t') ->
  exists seg, t' = t ++ seg /\ publish_failure seg e.
Proof.
  destruct s; simpl.
  - destruct (Root.openPR cfg files w t) as [[url|e0] t0] eqn:H; simpl;
      intros E; inversion E; subst.
    now apply Root_openPR_thrown in H.
  - destruct (Tool.openPR cfg files w t) as [[u|e0] t0] eqn:H; simpl;
      intros E; inversion E; subst.
    now apply Tool_openPR_thrown in H.
Qed.

Lemma published_clean (r : Remote) (files : Files) (pre : Trace)
    (baseBranch baseSha : string) (now : Z) (shas : list string)
    (tree_sha commit_sha url : string) :
  collect rejection pre = [] ->
  collect rejection
    (published r files pre baseBranch baseSha now shas tree_sha commit_sha url) = [].
Proof.
  intros Hpre. unfold published.
  now rewrite !collect_app, Hpre, blob_events_clean.
Qed.

Lemma base_reads_clean (s : Server) (cfg : Config) (db : option string) :
  collect rejection (base_reads s cfg db) = [].
Proof. destruct s; reflexivity. Qed.

Lemma collect_blob_records (r : Remote) (files : Files) (shas : list string) :
  collect blob_written (blob_events r files shas) = blob_records files shas.
Proof.
  unfold blob_records. revert shas.
  induction files as [|[p c] es IH]; intros [|sha ss]; simpl; auto.
  now rewrite IH.
Qed.

Lemma tree_items_shape (files : Files) (shas : list string) :
  length shas = length files ->
  map item_path (tree_items files shas) = paths files
  /\ map item_sha (tree_items files shas) = shas
  /\ Forall (fun i => item_mode i = "100644"%string /\ item_type i = "blob"%string)
            (tree_items files shas).
Proof.
  revert shas. induction files as [|[p c] es IH]; intros [|sha ss]; simpl;
    intros H; try discriminate; [repeat split; constructor|].
  injection H as H. destruct (IH ss H) as (Hp & Hs & Hf).
  repeat split; [now rewrite Hp | now rewrite Hs | constructor; auto].
Qed.

Lemma collect_published_chain (s : Server) (cfg : Config) (files : Files)
    (db : option string) (baseSha : string) (now : Z) (shas : list string)
    (tree_sha commit_sha url : string) :
  let seg := published (remote_of cfg) files (base_reads s cfg db) (base_of s db)
               baseSha now shas tree_sha commit_sha url in
  collect repo_read seg
  = match s with RootServer => [Fulfilled db] | ToolServer => [] end
  /\ collect ref_asked seg = [(("heads/" ++ base_of s db)%string, Fulfilled baseSha)]
  /\ collect clock_read seg = [now]
  /\ collect blob_written seg = blob_records files shas
  /\ collect tree_written seg = [(baseSha, tree_items files shas, Fulfilled tree_sha)]
  /\ collect commit_written seg
     = [(commit_message, tree_sha, [baseSha], Fulfilled commit_sha)]
  /\ collect ref_written seg
     = [(("refs/heads/figma-sync/" ++ number_to_string now)%string, commit_sha,
         Fulfilled tt)]
  /\ collect pull_asked seg
     = [(("figma-sync/" ++ number_to_string now)%string, base_of s db, Fulfilled url)].
Proof.
  unfold published. cbv zeta.
  rewrite !collect_app, collect_blob_records.
  rewrite (collect_blob_events repo_read), (collect_blob_events ref_asked),
    (collect_blob_events clock_read), (collect_blob_events tree_written),
    (collect_blob_events commit_written), (collect_blob_events ref_written),
    (collect_blob_events pull_asked) by other_call.
  destruct s; simpl; rewrite ?app_nil_r; repeat split; reflexivity.
Qed.

Lemma number_to_string_inj (a b : Z) :
  number_to_string a = number_to_string b -> a = b.
Proof.
  unfold number_to_string. intros H.
  apply DecimalZ.to_int_inj.
  assert (N : forall z, Z.to_int z <> Decimal.Pos Decimal.Nil
                        /\ Z.to_int z <> Decimal.Neg Decimal.Nil).
  { intros [|p|p]; simpl; split; try discriminate; intros E; injection E;
      apply DecimalPos.Unsigned.to_uint_nonnil. }
  destruct (N a) as [Ha1 Ha2], (N b) as [Hb1 Hb2].
  pose proof (NilZero.isi (Z.to_int a) Ha1 Ha2) as Ia.
  pose proof (NilZero.isi (Z.to_int b) Hb1 Hb2) as Ib.
  rewrite H in Ia. congruence.
Qed.

(* ================================================================== *)
(** ** Further properties of the publish *)
(* ================================================================== *)

(** X10. In a publish that goes through, of either server, each object
    is made of the one before: the tree is based on the head read from
    the base branch, the commit holds the tree the host answered with, the
    new branch points at the commit the host answered with, and the pull
    request goes from that branch to the base branch whose head was read.
    The name of the branch is the reading of the clock. *)
Theorem publish_chain (s : Server) (cfg : Config) (files : Files) (w : World)
    (t t' : Trace) :
  openPR_of s cfg files w t = (None, t') ->
  exists seg default_branch baseSha now items tree_sha commit_sha url,
    t' = t ++ seg
    /\ collect repo_read seg
       = match s with RootServer => [Fulfilled default_branch] | ToolServer => [] end
    /\ collect ref_asked seg
       = [(("heads/" ++ base_of s default_branch)%string, Fulfilled baseSha)]
    /\ collect clock_read seg = [now]
    /\ collect tree_written seg = [(baseSha, items, Fulfilled tree_sha)]
    /\ collect commit_written seg
       = [("chore(figma): auto-sync"%string, tree_sha, [baseSha], Fulfilled commit_sha)]
    /\ collect ref_written seg
       = [(("refs/heads/figma-sync/" ++ number_to_string now)%string, commit_sha,
           Fulfilled tt)]
    /\ collect pull_asked seg
       = [(("figma-sync/" ++ number_to_string now)%string, base_of s default_branch,
           Fulfilled url)].
Proof.
  intros H.
  destruct (openPR_of_returned s cfg files w t t' H)
    as (db & baseSha & now & shas & tree_sha & commit_sha & url & Hlen & Ht).
  destruct (collect_published_chain s cfg files db baseSha now shas tree_sha
              commit_sha url) as (H1 & H2 & H3 & _ & H5 & H6 & H7 & H8).
  exists (published (remote_of cfg) files (base_reads s cfg db) (base_of s db)
            baseSha now shas tree_sha commit_sha url),
    db, baseSha, now, (tree_items files shas), tree_sha, commit_sha, url.
  split; [exact Ht|]. split; [exact H1|]. split; [exact H2|].
  split; [exact H3|]. split; [exact H5|]. split; [exact H6|].
  split; [exact H7 | exact H8].
Qed.

Lemma publish_chain_witness :
  exists seg default_branch baseSha now items tree_sha commit_sha url,
    snd (openPR_of RootServer cfg0 two_files (demo_world forbidden) []) = [] ++ seg
    /\ collect repo_read seg = [Fulfilled default_branch]
    /\ collect ref_asked seg
       = [(("heads/" ++ base_of RootServer default_branch)%string, Fulfilled baseSha)]
    /\ collect clock_read seg = [now]
    /\ collect tree_written seg = [(baseSha, items, Fulfilled tree_sha)]
    /\ collect commit_written seg
       = [("chore(figma): auto-sync"%string, tree_sha, [baseSha], Fulfilled commit_sha)]
    /\ collect ref_written seg
       = [(("refs/heads/figma-sync/" ++ number_to_string now)%string, commit_sha,
           Fulfilled tt)]
    /\ collect pull_asked seg
       = [(("figma-sync/" ++ number_to_string now)%string,
           base_of RootServer default_branch, Fulfilled url)].
Proof.
  apply (publish_chain RootServer cfg0 two_files (demo_world forbidden) []).
  reflexivity.
Defined.

(** X11. In a publish that goes through, exactly one blob is written per
    file, in the order of the file set, with encoding utf-8, and the tree
    has one item per file, in the same order: the path of the file, mode
    100644, type blob, and the identifier the host answered for that
    file's blob. *)
Theorem tree_lists_every_file (s : Server) (cfg : Config) (files : Files)
    (w : World) (t t' : Trace) :
  openPR_of s cfg files w t = (None, t') ->
  exists seg shas base items answer,
    t' = t ++ seg
    /\ length shas = length files
    /\ collect blob_written seg
       = map (fun cs => (fst cs, "utf-8"%string, Fulfilled (snd cs)))
             (combine (map snd files) shas)
    /\ collect tree_written seg = [(base, items, answer)]
    /\ map item_path items = paths files
    /\ map item_sha items = shas
    /\ Forall (fun i => item_mode i = "100644"%string /\ item_type i = "blob"%string)
              items.
Proof.
  intros H.
  destruct (openPR_of_returned s cfg files w t t' H)
    as (db & baseSha & now & shas & tree_sha & commit_sha & url & Hlen & Ht).
  destruct (collect_published_chain s cfg files db baseSha now shas tree_sha
              commit_sha url) as (_ & _ & _ & H4 & H5 & _).
  destruct (tree_items_shape files shas Hlen) as (Hp & Hs & Hf).
  exists (published (remote_of cfg) files (base_reads s cfg db) (base_of s db)
            baseSha now shas tree_sha commit_sha url),
    shas, baseSha, (tree_items files shas), (Fulfilled tree_sha).
  split; [exact Ht|]. split; [exact Hlen|]. split; [exact H4|].
  split; [exact H5|]. split; [exact Hp|]. split; [exact Hs | exact Hf].
Qed.

Lemma tree_lists_every_file_witness :
  exists seg shas base items answer,
    snd (openPR_of ToolServer cfg0 two_files (demo_world forbidden) []) = [] ++ seg
    /\ length shas = length two_files
    /\ collect blob_written seg
       = map (fun cs => (fst cs, "utf-8"%string, Fulfilled (snd cs)))
             (combine (map snd two_files) shas)
    /\ collect tree_written seg = [(base, items, answer)]
    /\ map item_path items = paths two_files
    /\ map item_sha items = shas
    /\ Forall (fun i => item_mode i = "100644"%string /\ item_type i = "blob"%string)
              items.
Proof.
  apply (tree_lists_every_file ToolServer cfg0 two_files (demo_world forbidden) []).
  reflexivity.
Defined.

(** X12. A publish stops at the first call the host rejects: when
    [openPR] throws, the error is the rejection of the last call it made,
    no earlier call of the publish was rejected, and every call was to the
    host or the clock. *)
Theorem publish_stops_at_first_rejection (s : Server) (cfg : Config)
    (files : Files) (w : World) (t t' : Trace) (e : Exn) :
  openPR_of s cfg files w t = (Some e, t') ->
  exists seg reason,
    t' = t ++ seg
    /\ e = Rejection reason
    /\ aborted_by seg reason
    /\ collect rejection seg = [reason]
    /\ all_calls is_publish_call seg = true.
Proof.
  intros H.
  destruct (openPR_of_thrown s cfg files w t t' e H)
    as (seg & Ht & reason & He & Hab & _).
  destruct (openPR_of_segment s cfg files w t) as (o & pub & Hp & Hcalls & _).
  rewrite H in Hp. inversion Hp as [[Ho Ht']]. rewrite Ht in Ht'.
  apply app_inv_head in Ht'. subst pub.
  exists seg, reason. repeat split; auto using aborted_rejections.
Qed.

Lemma publish_stops_at_first_rejection_witness :
  exists seg reason,
    snd (openPR_of RootServer cfg0 two_files no_pulls_world []) = [] ++ seg
    /\ Rejection "Validation Failed" = Rejection reason
    /\ aborted_by seg reason
    /\ collect rejection seg = [reason]
    /\ all_calls is_publish_call seg = true.
Proof.
  apply (publish_stops_at_first_rejection RootServer cfg0 two_files
           no_pulls_world []).
  reflexivity.
Defined.

(** X13. A publish that throws has opened no pull request; it leaves a
    new branch behind only when the rejected call is the request for the
    pull request itself. *)
Theorem failed_publish_opens_no_pull_request (s : Server) (cfg : Config)
    (files : Files) (w : World) (t t' : Trace) (e : Exn) :
  openPR_of s cfg files w t = (Some e, t') ->
  exists seg reason,
    t' = t ++ seg
    /\ e = Rejection reason
    /\ collect pull_opened seg = []
    /\ (collect branch_created seg = [] \/ collect pull_rejected seg = [reason]).
Proof.
  intros H.
  destruct (openPR_of_thrown s cfg files w t t' e H)
    as (seg & Ht & reason & He & _ & Hpull & Hbranch).
  now exists seg, reason.
Qed.

Lemma failed_publish_opens_no_pull_request_witness :
  exists seg reason,
    snd (openPR_of ToolServer cfg0 two_files no_pulls_world []) = [] ++ seg
    /\ Rejection "Validation Failed" = Rejection reason
    /\ collect pull_opened seg = []
    /\ (collect branch_created seg = [] \/ collect pull_rejected seg = [reason]).
Proof.
  apply (failed_publish_opens_no_pull_request ToolServer cfg0 two_files
           no_pulls_world []).
  reflexivity.
Defined.

(** X14. Two publishes that go through, of any server and of any files,
    create branches of the same name exactly when they read the same
    value off the clock. *)
Theorem branch_name_follows_clock (s1 s2 : Server) (cfg1 cfg2 : Config)
    (files1 files2 : Files) (w1 w2 : World) (t1 t2 seg1 seg2 : Trace) :
  openPR_of s1 cfg1 files1 w1 t1 = (None, t1 ++ seg1) ->
  openPR_of s2 cfg2 files2 w2 t2 = (None, t2 ++ seg2) ->
  (collect branch_created seg1 = collect branch_created seg2
   <-> collect clock_read seg1 = collect clock_read seg2).
Proof.
  intros H1 H2.
  destruct (openPR_of_returned s1 cfg1 files1 w1 t1 _ H1)
    as (db1 & b1 & n1 & sh1 & tr1 & c1 & u1 & Hl1 & E1).
  destruct (openPR_of_returned s2 cfg2 files2 w2 t2 _ H2)
    as (db2 & b2 & n2 & sh2 & tr2 & c2 & u2 & Hl2 & E2).
  apply app_inv_head in E1, E2. subst seg1 seg2.
  destruct (collect_published s1 cfg1 files1 db1 b1 n1 sh1 tr1 c1 u1 Hl1)
    as (_ & _ & B1 & _).
  destruct (collect_published s2 cfg2 files2 db2 b2 n2 sh2 tr2 c2 u2 Hl2)
    as (_ & _ & B2 & _).
  destruct (collect_published_chain s1 cfg1 files1 db1 b1 n1 sh1 tr1 c1 u1)
    as (_ & _ & C1 & _).
  destruct (collect_published_chain s2 cfg2 files2 db2 b2 n2 sh2 tr2 c2 u2)
    as (_ & _ & C2 & _).
  rewrite B1, B2, C1, C2. split; intros E.
  - injection E as E. apply number_to_string_inj in E. now subst.
  - injection E as E. now subst.
Qed.

Lemma branch_name_follows_clock_witness :
  collect branch_created
    (snd (openPR_of RootServer cfg0 two_files (demo_world forbidden) []))
  = collect branch_created
      (skipn 1 (snd (openPR_of ToolServer cfg0 one_file (demo_world forbidden)
                       [Ev DateNow 0%Z])))
  <-> collect clock_read
        (snd (openPR_of RootServer cfg0 two_files (demo_world forbidden) []))
      = collect clock_read
          (skipn 1 (snd (openPR_of ToolServer cfg0 one_file (demo_world forbidden)
                           [Ev DateNow 0%Z]))).
Proof.
  apply (branch_name_follows_clock RootServer ToolServer cfg0 cfg0 two_files
           one_file (demo_world forbidden) (demo_world forbidden) []
           [Ev DateNow 0%Z]); reflexivity.
Defined.

(* ================================================================== *)
(** ** Further properties of the handlers *)
(* ================================================================== *)

Ltac addressed :=
  simpl; unfold remote_eqb; rewrite ?String.eqb_refl; reflexivity.

Ltac targets_steps :=
  repeat first
    [ apply emits_ret | apply emits_throw | apply emits_await | apply emits_lift
    | apply emits_perform; addressed
    | apply emits_bind; [|intros ?]
    | apply emits_try_catch; [|intros ?]
    | match goal with |- emits _ (if ?b then _ else _) => destruct b end ].

Lemma createBlobs_targets (cfg : Config) (entries : Files) :
  forall items, emits (targets cfg) (createBlobs (remote_of cfg) entries items).
Proof.
  induction entries as [|[path content] es IH]; intros items; simpl.
  - apply emits_ret.
  - apply emits_bind; [apply emits_perform; addressed|].
    intros blob. apply emits_bind; [apply emits_await|].
    intros sha. apply IH.
Qed.

Lemma webhook_of_targets (s : Server) (cfg : Config) (req : Request) :
  emits (targets cfg) (webhook_of s cfg req).
Proof.
  destruct s; simpl.
  - unfold Root.webhook, Root.fetchFigmaDoc, Root.openPR.
    targets_steps; try apply createBlobs_targets; targets_steps.
  - unfold Tool.webhook, Tool.fetchFigmaDoc, Tool.openPR.
    targets_steps; try apply createBlobs_targets; targets_steps.
Qed.

(** X15. Whatever the request, every fetch of a run goes to the file of
    the configuration with the token of the configuration, and every call
    to the host carries the credentials, owner and repository of the
    configuration: nothing of the payload decides where a run reads or
    writes. *)
Theorem run_addresses_configured_file_and_repository (s : Server) (cfg : Config)
    (req : Request) (w : World) (t : Trace) :
  exists seg,
    snd (webhook_of s cfg req w t) = t ++ seg
    /\ all_calls (targets cfg) seg = true.
Proof.
  destruct (webhook_of_targets s cfg req w t) as (seg & E & P & _).
  now exists seg.
Qed.

Lemma run_head_console (s : Server) (cfg : Config) (req : Request) (head : Trace) :
  Run_head s cfg req head -> all_calls is_console head = true.
Proof.
  destruct s; simpl.
  - intros (type & file & _ & _ & _ & ->). reflexivity.
  - intros ->. reflexivity.
Qed.

(** X16. A handler always answers, and with one of two answers: 200 with
    the text OK, or 500 with the error it caught; in the second case the
    last thing the run did was to write that same error to the error
    console. *)
Theorem handler_answers_200_or_500 (s : Server) (cfg : Config) (req : Request)
    (w : World) (t : Trace) :
  exists resp seg,
    webhook_of s cfg req w t = (Returned resp, t ++ seg)
    /\ (resp = {| status := 200; sent := SentText "OK" |}
        \/ exists e before,
             resp = {| status := 500; sent := SentError e |}
             /\ seg = before ++ [Ev (ConsoleError e) tt]).
Proof.
  destruct (webhook_of_run s cfg req w t) as (resp & seg & H & R).
  exists resp, seg. split; [exact H|].
  destruct R.
  - right. now exists e, [].
  - now left.
  - right. exists e, (head ++ [Ev (fetch_call cfg) (w (t ++ head) (fetch_call cfg))]).
    split; [reflexivity|]. now rewrite <- app_assoc.
  - right. exists e, (head ++ [Ev (fetch_call cfg) (w (t ++ head) (fetch_call cfg))]).
    split; [reflexivity|]. now rewrite <- app_assoc.
  - right.
    exists e, (head ++ [Ev (fetch_call cfg) (w (t ++ head) (fetch_call cfg))] ++ pub).
    split; [reflexivity|]. now rewrite <- !app_assoc.
  - now left.
Qed.

Lemma console_clean (seg : Trace) :
  all_calls is_console seg = true ->
  collect rejection seg = [] /\ collect fetch_answer seg = []
  /\ all_calls (fun c => negb (is_host_call c)) seg = true.
Proof.
  intros H. repeat split.
  - apply (collect_none rejection is_console); [other_call | exact H].
  - apply (collect_none fetch_answer is_console); [other_call | exact H].
  - unfold all_calls in *. rewrite forallb_forall in *.
    intros e He. specialize (H e He). now destruct (ev_call e).
Qed.

Lemma publish_segment_calls (s : Server) (cfg : Config) (files : Files)
    (w : World) (t pub : Trace) (o : option Exn) :
  openPR_of s cfg files w t = (o, t ++ pub) ->
  all_calls is_publish_call pub = true.
Proof.
  intros H. destruct (openPR_of_segment s cfg files w t) as (o' & pub' & E & P & _).
  rewrite H in E. inversion E as [[Ho Ht]]. apply app_inv_head in Ht. now subst.
Qed.

Lemma run_of (s : Server) (cfg : Config) (req : Request) (w : World)
    (t seg : Trace) (resp : Response) :
  webhook_of s cfg req w t = (Returned resp, t ++ seg) ->
  Run s cfg req w t resp seg.
Proof.
  intros H. destruct (webhook_of_run s cfg req w t) as (resp' & seg' & E & R).
  rewrite H in E. inversion E as [[Hr Ht]]. apply app_inv_head in Ht. now subst.
Qed.

Lemma fetch_result_fulfilled (s : Server) (res : FetchResponse) (D : JsValue) :
  res_ok res = true -> res_json res = Fulfilled D ->
  fetch_result_of s (Fulfilled res) = Returned D.
Proof. intros Hok Hj. destruct s; simpl; now rewrite Hok, Hj. Qed.

Lemma fetch_event_answer (cfg : Config) (a a0 : Settled FetchResponse)
    (head rest : Trace) :
  all_calls is_console head = true ->
  collect fetch_answer rest = [] ->
  In a (collect fetch_answer (head ++ [Ev (fetch_call cfg) a0] ++ rest)) ->
  a = a0.
Proof.
  intros Hh Hr. apply failed_fetch_run; [apply console_clean, Hh | exact Hr].
Qed.

(** X17. In every run, of either server, in which the design tool serves
    a document the generator does not accept, the handler answers 500
    with a TypeError and the run makes no call to the host at all. *)
Theorem malformed_document_leaves_host_untouched (s : Server) (cfg : Config)
    (req : Request) (w : World) (t seg : Trace) (resp : Response)
    (res : FetchResponse) (D : JsValue) :
  webhook_of s cfg req w t = (Returned resp, t ++ seg) ->
  In (Fulfilled res) (collect fetch_answer seg) ->
  res_ok res = true ->
  res_json res = Fulfilled D ->
  accepted D = false ->
  resp = {| status := 500; sent := SentError TypeError |}
  /\ all_calls (fun c => negb (is_host_call c)) seg = true.
Proof.
  intros H Hin Hok Hj Hacc. apply run_of in H.
  pose proof (fetch_result_fulfilled s res D Hok Hj) as Hres.
  pose proof (generateCode_of_rejected s cfg D Hacc) as Hgen.
  destruct H as [e Hs Hthrown | type file Hs Ht Hf Hig | head e Hh Hfetch
                | head figmaJson e Hh Hfetch Hg
                | head pub figmaJson files e Hh Hfetch Hg Hp
                | head pub tail figmaJson files Hh Hfetch Hg Hp Htail].
  - destruct Hin.
  - destruct Hin.
  - pose proof (run_head_console s cfg req head Hh) as Hc.
    apply (fetch_event_answer cfg _ _ head [log_error e] Hc eq_refl) in Hin.
    rewrite <- Hin, Hres in Hfetch. discriminate.
  - pose proof (run_head_console s cfg req head Hh) as Hc.
    apply (fetch_event_answer cfg _ _ head [log_error e] Hc eq_refl) in Hin.
    rewrite <- Hin, Hres in Hfetch. inversion Hfetch; subst figmaJson.
    rewrite Hgen in Hg. inversion Hg; subst e.
    split; [reflexivity|].
    rewrite all_calls_app. destruct (console_clean head Hc) as (_ & _ & ->).
    reflexivity.
  - pose proof (run_head_console s cfg req head Hh) as Hc.
    pose proof (publish_segment_calls _ _ _ _ _ _ _ Hp) as Hpub.
    apply (fetch_event_answer cfg _ _ head (pub ++ [log_error e]) Hc) in Hin.
    + rewrite <- Hin, Hres in Hfetch. inversion Hfetch; subst figmaJson.
      rewrite Hgen in Hg. discriminate.
    + now rewrite collect_app, (publish_calls_no_fetch pub Hpub).
  - pose proof (run_head_console s cfg req head Hh) as Hc.
    pose proof (publish_segment_calls _ _ _ _ _ _ _ Hp) as Hpub.
    apply (fetch_event_answer cfg _ _ head (pub ++ tail) Hc) in Hin.
    + rewrite <- Hin, Hres in Hfetch. inversion Hfetch; subst figmaJson.
      rewrite Hgen in Hg. discriminate.
    + rewrite collect_app, (publish_calls_no_fetch pub Hpub).
      now destruct (console_clean tail Htail) as (_ & -> & _).
Qed.

Lemma malformed_document_leaves_host_untouched_witness :
  let seg := snd (webhook_of ToolServer cfg0 (file_update "FILE123")
                    (demo_world (serve (doc_of [JNull]))) []) in
  {| status := 500; sent := SentError TypeError |}
  = {| status := 500; sent := SentError TypeError |}
  /\ all_calls (fun c => negb (is_host_call c)) seg = true.
Proof.
  apply (malformed_document_leaves_host_untouched ToolServer cfg0
           (file_update "FILE123") (demo_world (serve (doc_of [JNull]))) []
           (snd (webhook_of ToolServer cfg0 (file_update "FILE123")
                   (demo_world (serve (doc_of [JNull]))) []))
           {| status := 500; sent := SentError TypeError |}
           {| res_status := 200; res_text := Rejected "body used already";
              res_json := Fulfilled (doc_of [JNull]) |}
           (doc_of [JNull])).
  - vm_compute. reflexivity.
  - vm_compute. left. reflexivity.
  - reflexivity.
  - reflexivity.
  - reflexivity.
Defined.

Lemma fetch_rejection (s : Server) (cfg : Config) (a : Settled FetchResponse)
    (reason : string) :
  rejection (Ev (fetch_call cfg) a) = Some reason ->
  fetch_result_of s a = Thrown (Rejection reason).
Proof.
  destruct a as [res|r]; simpl; [discriminate|].
  intros E. inversion E. now destruct s.
Qed.

Lemma fetch_returned_clean (s : Server) (cfg : Config) (a : Settled FetchResponse)
    (j : JsValue) :
  fetch_result_of s a = Returned j -> rejection (Ev (fetch_call cfg) a) = None.
Proof.
  intros H. destruct (fetch_result_returned s a j H) as (res & -> & _). reflexivity.
Qed.

(** X18. In every run, of either server, in which the design tool or
    the host rejects a call, the handler answers 500 with that rejection,
    and it is the only rejected call of the run: nothing is retried and
    nothing is called past a rejection but the error console. *)
Theorem rejected_call_is_answered_500 (s : Server) (cfg : Config) (req : Request)
    (w : World) (t seg : Trace) (resp : Response) (reason : string) :
  webhook_of s cfg req w t = (Returned resp, t ++ seg) ->
  In reason (collect rejection seg) ->
  resp = {| status := 500; sent := SentError (Rejection reason) |}
  /\ collect rejection seg = [reason]
  /\ exists before, seg = before ++ [Ev (ConsoleError (Rejection reason)) tt].
Proof.
  intros H Hin. apply run_of in H.
  destruct H as [e Hs Hthrown | type file Hs Ht Hf Hig | head e Hh Hfetch
                | head figmaJson e Hh Hfetch Hg
                | head pub figmaJson files e Hh Hfetch Hg Hp
                | head pub tail figmaJson files Hh Hfetch Hg Hp Htail];
    try (destruct Hin; fail);
    pose proof (run_head_console s cfg req head Hh) as Hc;
    destruct (console_clean head Hc) as (Hclean & _ & _);
    rewrite ?collect_app, Hclean in Hin |- *.
  - destruct (w (t ++ head) (fetch_call cfg)) as [res|r] eqn:Hw;
      simpl in Hin |- *; [destruct Hin|].
    destruct Hin as [->|[]].
    assert (e = Rejection reason) by (destruct s; simpl in Hfetch; congruence).
    subst e. repeat split.
    exists (head ++ [Ev (fetch_call cfg) (Rejected reason)]).
    now rewrite <- app_assoc.
  - destruct (fetch_result_returned s _ figmaJson Hfetch) as (res & Ha & _).
    rewrite Ha in Hin. simpl in Hin. destruct Hin.
  - destruct (fetch_result_returned s _ figmaJson Hfetch) as (res & Ha & _).
    apply openPR_of_thrown in Hp as (pub' & Hpub & r & He & Hab & _).
    apply app_inv_head in Hpub. subst pub' e.
    rewrite Ha in Hin |- *. simpl in Hin |- *.
    rewrite ?collect_app, (aborted_rejections pub r Hab) in Hin |- *.
    simpl in Hin |- *. destruct Hin as [->|[]].
    repeat split.
    exists (head ++ [Ev (fetch_call cfg) (Fulfilled res)] ++ pub).
    now rewrite <- !app_assoc.
  - destruct (fetch_result_returned s _ figmaJson Hfetch) as (res & Ha & _).
    apply openPR_of_returned in Hp
      as (db & baseSha & now & shas & tree_sha & commit_sha & url & Hlen & Hpub).
    apply app_inv_head in Hpub. subst pub.
    rewrite Ha in Hin. simpl in Hin.
    rewrite ?collect_app, published_clean in Hin by apply base_reads_clean.
    destruct (console_clean tail Htail) as (Ht & _ & _). rewrite Ht in Hin.
    destruct Hin.
Qed.

Lemma rejected_call_is_answered_500_witness :
  let seg := snd (webhook_of RootServer cfg0 (file_update "FILE123")
                    (demo_world (Rejected "getaddrinfo ENOTFOUND api.figma.com"))
                    []) in
  {| status := 500;
     sent := SentError (Rejection "getaddrinfo ENOTFOUND api.figma.com") |}
  = {| status := 500;
       sent := SentError (Rejection "getaddrinfo ENOTFOUND api.figma.com") |}
  /\ collect rejection seg = ["getaddrinfo ENOTFOUND api.figma.com"%string]
  /\ exists before,
       seg = before
             ++ [Ev (ConsoleError (Rejection "getaddrinfo ENOTFOUND api.figma.com")) tt].
Proof.
  apply (rejected_call_is_answered_500 RootServer cfg0 (file_update "FILE123")
           (demo_world (Rejected "getaddrinfo ENOTFOUND api.figma.com")) []
           (snd (webhook_of RootServer cfg0 (file_update "FILE123")
                   (demo_world (Rejected "getaddrinfo ENOTFOUND api.figma.com")) []))
           {| status := 500;
              sent := SentError (Rejection "getaddrinfo ENOTFOUND api.figma.com") |}
           "getaddrinfo ENOTFOUND api.figma.com").
  - vm_compute. reflexivity.
  - vm_compute. left. reflexivity.
Defined.

Lemma run_rest_no_fetch (s : Server) (cfg : Config) (req : Request) (w : World)
    (t seg : Trace) (resp : Response) :
  Run s cfg req w t resp seg ->
  (all_calls is_console seg = true)
  \/ exists head rest,
       Run_head s cfg req head
       /\ seg = head ++ Ev (fetch_call cfg) (w (t ++ head) (fetch_call cfg)) :: rest
       /\ collect fetch_answer rest = [].
Proof.
  intros [e Hs Hthrown | type file Hs Ht Hf Hig | head e Hh Hfetch
         | head figmaJson e Hh Hfetch Hg
         | head pub figmaJson files e Hh Hfetch Hg Hp
         | head pub tail figmaJson files Hh Hfetch Hg Hp Htail].
  - now left.
  - now left.
  - right. now exists head, [log_error e].
  - right. now exists head, [log_error e].
  - right. exists head, (pub ++ [log_error e]). repeat split; auto.
    rewrite collect_app.
    now rewrite (publish_calls_no_fetch pub (publish_segment_calls _ _ _ _ _ _ _ Hp)).
  - right. exists head, (pub ++ tail). repeat split; auto.
    rewrite collect_app.
    rewrite (publish_calls_no_fetch pub (publish_segment_calls _ _ _ _ _ _ _ Hp)).
    now destruct (console_clean tail Htail) as (_ & -> & _).
Qed.

(** X19. When the payload names no file (its file identifier is falsy)
    or names the configured one, and the log line can be written, the
    root handler goes on whatever the event type is: the next thing it
    does is to fetch the configured file, once. *)
Theorem matching_or_missing_file_is_fetched (cfg : Config) (req : Request)
    (w : World) (t : Trace) (type file : string) :
  to_string (Root.eventType req) = Returned type ->
  to_string (Root.fileId req) = Returned file ->
  truthy (Root.fileId req) = false \/ Root.fileId req = JStr (FIGMA_FILE_ID cfg) ->
  exists resp rest,
    Root.webhook cfg req w t
    = (Returned resp,
       t ++ log_received type file
         :: Ev (fetch_call cfg) (w (t ++ [log_received type file]) (fetch_call cfg))
         :: rest)
    /\ collect fetch_answer rest = [].
Proof.
  intros Ht Hf Hid.
  assert (Hd : Root.different_file cfg req = false).
  { unfold Root.different_file. destruct Hid as [->| ->]; [reflexivity|].
    simpl. now rewrite String.eqb_refl, andb_false_r. }
  destruct (webhook_of_run RootServer cfg req w t) as (resp & seg & H & R).
  simpl in H.
  destruct (run_rest_no_fetch _ _ _ _ _ _ _ R) as [Hconsole|(head & rest & Hh & -> & Hr)].
  - exfalso.
    destruct R as [e Hs Hthrown | type' file' Hs Ht' Hf' Hig | head e Hh Hfetch
                  | head figmaJson e Hh Hfetch Hg
                  | head pub figmaJson files e Hh Hfetch Hg Hp
                  | head pub tail figmaJson files Hh Hfetch Hg Hp Htail].
    + destruct Hthrown as [E|[_ E]]; congruence.
    + simpl in Hig. congruence.
    + rewrite all_calls_app in Hconsole. apply andb_prop in Hconsole as [_ Hx].
      discriminate Hx.
    + rewrite all_calls_app in Hconsole. apply andb_prop in Hconsole as [_ Hx].
      discriminate Hx.
    + rewrite all_calls_app in Hconsole. apply andb_prop in Hconsole as [_ Hx].
      discriminate Hx.
    + rewrite all_calls_app in Hconsole. apply andb_prop in Hconsole as [_ Hx].
      discriminate Hx.
  - simpl in Hh. destruct Hh as (type' & file' & Ht' & Hf' & _ & ->).
    assert (type' = type) by congruence. assert (file' = file) by congruence.
    subst. exists resp, rest. split; [exact H | exact Hr].
Qed.

Lemma matching_or_missing_file_is_fetched_witness :
  exists resp rest,
    Root.webhook cfg0 {| body := JObj []; x_figma_event_type := Some "PING"%string |}
      (demo_world forbidden) []
    = (Returned resp,
       [] ++ log_received "PING" "undefined"
          :: Ev (fetch_call cfg0)
                (demo_world forbidden ([] ++ [log_received "PING" "undefined"])
                   (fetch_call cfg0))
          :: rest)
    /\ collect fetch_answer rest = [].
Proof.
  apply (matching_or_missing_file_is_fetched cfg0
           {| body := JObj []; x_figma_event_type := Some "PING"%string |}
           (demo_world forbidden) [] "PING" "undefined").
  - reflexivity.
  - reflexivity.
  - left. reflexivity.
Defined.

(** X22. The earlier server reads nothing of the request: whatever the
    request is, the first thing a run does is to fetch the configured
    file, and it fetches once. *)
Theorem earlier_server_fetches_on_every_request (cfg : Config) (req : Request)
    (w : World) (t : Trace) :
  exists resp rest,
    Tool.webhook cfg req w t
    = (Returned resp, t ++ Ev (fetch_call cfg) (w t (fetch_call cfg)) :: rest)
    /\ collect fetch_answer rest = [].
Proof.
  destruct (webhook_of_run ToolServer cfg req w t) as (resp & seg & H & R).
  simpl in H.
  destruct (run_rest_no_fetch _ _ _ _ _ _ _ R) as [Hconsole|(head & rest & Hh & -> & Hr)].
  - exfalso.
    destruct R as [e Hs Hthrown | type' file' Hs Ht' Hf' Hig | head e Hh Hfetch
                  | head figmaJson e Hh Hfetch Hg
                  | head pub figmaJson files e Hh Hfetch Hg Hp
                  | head pub tail figmaJson files Hh Hfetch Hg Hp Htail];
      try discriminate Hs;
      rewrite all_calls_app in Hconsole; apply andb_prop in Hconsole as [_ Hx];
      discriminate Hx.
  - simpl in Hh. subst head. rewrite app_nil_r in H.
    exists resp, rest. split; [exact H | exact Hr].
Qed.

Lemma own_set_field_other (fields : list (string * JsValue)) (k k' : string)
    (v : JsValue) :
  k <> k' -> own (set_field fields k v) k' = own fields k'.
Proof.
  intros Hk. induction fields as [|[k0 v0] rest IH]; simpl.
  - now rewrite (proj2 (String.eqb_neq k k') Hk).
  - destruct (String.eqb_spec k0 k) as [->|Hne]; simpl.
    + now rewrite (proj2 (String.eqb_neq k k') Hk).
    + destruct (k0 =? k')%string; [reflexivity | exact IH].
Qed.

(** X20. The root handler reads three members of the payload,
    [event_type], [file_key] and [file_id], and one header: adding or
    changing any other member, a passcode for one, changes nothing of
    what a run does or answers. *)
Theorem other_members_of_payload_are_not_read (cfg : Config)
    (fields : list (string * JsValue)) (k : string) (v : JsValue)
    (h : option string) (w : World) (t : Trace) :
  k <> "event_type"%string ->
  k <> "file_key"%string ->
  k <> "file_id"%string ->
  Root.webhook cfg {| body := JObj (set_field fields k v); x_figma_event_type := h |}
    w t
  = Root.webhook cfg {| body := JObj fields; x_figma_event_type := h |} w t.
Proof.
  intros H1 H2 H3.
  unfold Root.webhook, Root.different_file, Root.eventType, Root.fileId. simpl.
  now rewrite !own_set_field_other by assumption.
Qed.

Lemma other_members_of_payload_are_not_read_witness :
  Root.webhook cfg0
    {| body := JObj (set_field [("file_key", JStr "FILE123")]%string
                       "passcode" (JStr "wrong"));
       x_figma_event_type := None |}
    (demo_world forbidden) []
  = Root.webhook cfg0
      {| body := JObj [("file_key", JStr "FILE123")]%string;
         x_figma_event_type := None |}
      (demo_world forbidden) [].
Proof.
  apply (other_members_of_payload_are_not_read cfg0
           [("file_key", JStr "FILE123")]%string "passcode" (JStr "wrong") None
           (demo_world forbidden) []); discriminate.
Defined.

Lemma to_string_primitive (v : JsValue) :
  is_primitive v = true -> exists s, to_string v = Returned s.
Proof. destruct v as [| |[|]| | | |]; simpl; try discriminate; eauto. Qed.

Lemma eventType_primitive (req : Request) :
  is_primitive (get_opt (body req) "event_type") = true ->
  is_primitive (Root.eventType req) = true.
Proof.
  unfold Root.eventType, js_or, header. intros H.
  destruct (truthy (get_opt (body req) "event_type")) eqn:E.
  - now rewrite E.
  - destruct (x_figma_event_type req) as [s|]; simpl; [|reflexivity].
    now destruct (negb (s =? "")%string).
Qed.

(** X21. A request for another file whose event type and file
    identifier are neither objects nor arrays (strings, numbers,
    booleans, null, or missing) is answered 200 after two lines of console
    output, and nothing else is done. *)
Theorem other_file_with_plain_members_is_answered_200 (cfg : Config)
    (req : Request) (w : World) (t : Trace) :
  is_primitive (get_opt (body req) "event_type") = true ->
  is_primitive (Root.fileId req) = true ->
  truthy (Root.fileId req) = true ->
  Root.fileId req <> JStr (FIGMA_FILE_ID cfg) ->
  exists type file,
    Root.webhook cfg req w t
    = (Returned {| status := 200; sent := SentText "OK" |},
       t ++ [Ev (ConsoleLog ("[webhook] type=" ++ type ++ " file=" ++ file)%string) tt;
             Ev (ConsoleLog ("[webhook] skip: different file (" ++ file ++ ")")%string)
                tt]).
Proof.
  intros Hevent Hfile Htruthy Hother.
  destruct (to_string_primitive _ (eventType_primitive req Hevent)) as [type Ht].
  destruct (to_string_primitive _ Hfile) as [file Hf].
  exists type, file.
  rewrite Root_webhook_eq, Ht, Hf. cbv zeta.
  unfold Root.different_file.
  rewrite Htruthy, (strict_eq_str_other _ _ Hother). simpl.
  now rewrite <- app_assoc.
Qed.

Lemma other_file_with_plain_members_is_answered_200_witness :
  exists type file,
    Root.webhook cfg0
      {| body := JObj [("file_id", JNum 42)]%string; x_figma_event_type := None |}
      (demo_world forbidden) []
    = (Returned {| status := 200; sent := SentText "OK" |},
       [] ++ [Ev (ConsoleLog ("[webhook] type=" ++ type ++ " file=" ++ file)%string) tt;
              Ev (ConsoleLog ("[webhook] skip: different file (" ++ file ++ ")")%string)
                 tt]).
Proof.
  apply (other_file_with_plain_members_is_answered_200 cfg0
           {| body := JObj [("file_id", JNum 42)]%string; x_figma_event_type := None |}
           (demo_world forbidden) []); try reflexivity.
  simpl. discriminate.
Defined.

(* ================================================================== *)
(** ** Further properties of the generator *)
(* ================================================================== *)

Lemma serialize_array (indent : string) (items : list JsValue) :
  serialize indent (JArr items)
  = match map (element (indent ++ gap)) items with
    | [] => Some "[]"%string
    | partial =>
        Some ("[" ++ newline ++ (indent ++ gap)
              ++ join ("," ++ newline ++ (indent ++ gap)) partial
              ++ newline ++ indent ++ "]")%string
    end.
Proof.
  simpl.
  assert (E : forall l,
             (fix elems (l : list JsValue) : list string :=
                match l with
                | [] => []
                | x :: rest =>
                    match serialize (indent ++ gap) x with
                    | Some s => s
                    | None => "null"%string
                    end :: elems rest
                end) l = map (element (indent ++ gap)) l).
  { induction l as [|x l IH]; simpl; [reflexivity|]. now rewrite IH. }
  rewrite E. destruct (map (element (indent ++ gap)) items); reflexivity.
Qed.

Lemma generate_by_children (s : Server) (cfg : Config) (j j' : JsValue) :
  first_page_children j = first_page_children j' ->
  generateCode_of s cfg j = generateCode_of s cfg j'.
Proof.
  intros H. rewrite !generateCode_of_eq. unfold topFrames. now rewrite H.
Qed.

Lemma first_page_of_pages (j p : JsValue) (others : list JsValue) :
  pages j = p :: others ->
  first_page_children j = Returned (get_opt p "children").
Proof.
  unfold pages, first_page_children.
  destruct j; simpl; try discriminate.
  destruct (get_opt (own fields "document") "children"); try discriminate.
  intros E. inversion E; subst. reflexivity.
Qed.

(** X5. Only the first page of a document is read: two documents with
    the same first page give the same outcome of the generator, file set
    or error, whatever their other pages are. *)
Theorem only_first_page_is_read (s : Server) (cfg : Config) (j j' p : JsValue)
    (others others' : list JsValue) :
  pages j = p :: others ->
  pages j' = p :: others' ->
  generateCode_of s cfg j = generateCode_of s cfg j'.
Proof.
  intros H H'. apply generate_by_children.
  now rewrite (first_page_of_pages j p others H),
    (first_page_of_pages j' p others' H').
Qed.

Lemma only_first_page_is_read_witness :
  generateCode_of RootServer cfg0
    (book [page_of [node "FRAME" "Home" []]; page_of [node "FRAME" "Drafts" []]])
  = generateCode_of RootServer cfg0 (book [page_of [node "FRAME" "Home" []]]).
Proof.
  apply (only_first_page_is_read RootServer cfg0 _ _
           (page_of [node "FRAME" "Home" []])
           [page_of [node "FRAME" "Drafts" []]] []); reflexivity.
Defined.

Lemma filter_twice {A} (f : A -> bool) (l : list A) :
  filter f (filter f l) = filter f l.
Proof.
  induction l as [|x l IH]; simpl; [reflexivity|].
  destruct (f x) eqn:E; simpl; rewrite ?E, IH; reflexivity.
Qed.

(** X6. A direct child of the first page whose type is not the string
    FRAME counts for nothing: an accepted document and the accepted
    document left when those children are removed give the same file
    set. *)
Theorem children_that_are_not_frames_count_for_nothing (s : Server) (cfg : Config)
    (j j' : JsValue) :
  accepted j = true ->
  accepted j' = true ->
  page_nodes j' = filter is_frame (page_nodes j) ->
  generateCode_of s cfg j = generateCode_of s cfg j'.
Proof.
  intros Hj Hj' Hnodes.
  rewrite (generateCode_of_accepted s cfg j Hj),
    (generateCode_of_accepted s cfg j' Hj'), Hnodes.
  unfold frame_names. now rewrite filter_twice.
Qed.

Lemma children_that_are_not_frames_count_for_nothing_witness :
  generateCode_of ToolServer cfg0
    (doc_of [node "COMPONENT" "Button" []; node "FRAME" "Home" [];
             node "frame" "lower" []; JNum 7])
  = generateCode_of ToolServer cfg0 (doc_of [node "FRAME" "Home" []]).
Proof.
  apply (children_that_are_not_frames_count_for_nothing ToolServer cfg0
           (doc_of [node "COMPONENT" "Button" []; node "FRAME" "Home" [];
                    node "frame" "lower" []; JNum 7])
           (doc_of [node "FRAME" "Home" []])); reflexivity.
Defined.

Lemma content_of_emitted_other (cfg : Config) (home : string)
    (names names' : list JsValue) (p : string) :
  p <> screens_path cfg ->
  content_of (emitted cfg home names) p = content_of (emitted cfg home names') p.
Proof.
  intros Hp. unfold emitted. simpl.
  destruct (tokens_path cfg =? p)%string; [reflexivity|].
  destruct (String.eqb_spec (screens_path cfg) p) as [E|_];
    [now destruct Hp | reflexivity].
Qed.

(** X7. Of the four files only the screens manifest depends on the
    document: the file sets of any two accepted documents have the same
    paths in the same order and the same content at every path but that of
    the manifest. *)
Theorem only_the_manifest_depends_on_the_document (s : Server) (cfg : Config)
    (j j' : JsValue) :
  accepted j = true ->
  accepted j' = true ->
  exists files files',
    generateCode_of s cfg j = Returned files
    /\ generateCode_of s cfg j' = Returned files'
    /\ paths files = paths files'
    /\ forall p, p <> screens_path cfg -> content_of files p = content_of files' p.
Proof.
  intros Hj Hj'.
  exists (emitted cfg (Home_tsx_of s) (frame_names (page_nodes j))),
    (emitted cfg (Home_tsx_of s) (frame_names (page_nodes j'))).
  split; [now apply generateCode_of_accepted|].
  split; [now apply generateCode_of_accepted|].
  split; [reflexivity|].
  intros p Hp. now apply content_of_emitted_other.
Qed.

Lemma only_the_manifest_depends_on_the_document_witness :
  exists files files',
    generateCode_of RootServer cfg0 home_settings = Returned files
    /\ generateCode_of RootServer cfg0 (JObj []) = Returned files'
    /\ paths files = paths files'
    /\ forall p, p <> screens_path cfg0 -> content_of files p = content_of files' p.
Proof.
  apply (only_the_manifest_depends_on_the_document RootServer cfg0 home_settings
           (JObj [])); reflexivity.
Defined.

Lemma element_undefined (indent : string) (v : JsValue) :
  element indent (undefined_as_null v) = element indent v.
Proof. now destruct v. Qed.

Lemma screens_map_undefined (names : list JsValue) :
  screens_map (map undefined_as_null names) = screens_map names.
Proof.
  unfold screens_map, JSON_stringify.
  rewrite !serialize_array, map_map.
  now rewrite (map_ext _ _ (element_undefined ("" ++ gap))).
Qed.

(** X9. A frame without a name and a frame whose name is [null] leave
    the same entry in the manifest: two accepted documents whose frame
    names agree once the missing names are read as [null] give the same
    file set. *)
Theorem missing_name_is_listed_as_null (s : Server) (cfg : Config)
    (j j' : JsValue) :
  accepted j = true ->
  accepted j' = true ->
  map undefined_as_null (frame_names (page_nodes j))
  = map undefined_as_null (frame_names (page_nodes j')) ->
  generateCode_of s cfg j = generateCode_of s cfg j'.
Proof.
  intros Hj Hj' Hnames.
  rewrite (generateCode_of_accepted s cfg j Hj),
    (generateCode_of_accepted s cfg j' Hj').
  unfold emitted.
  now rewrite <- (screens_map_undefined (frame_names (page_nodes j))), Hnames,
    screens_map_undefined.
Qed.

Lemma missing_name_is_listed_as_null_witness :
  generateCode_of RootServer cfg0 (doc_of [JObj [("type", JStr "FRAME")]%string])
  = generateCode_of RootServer cfg0
      (doc_of [JObj [("type", JStr "FRAME"); ("name", JNull)]%string]).
Proof.
  apply (missing_name_is_listed_as_null RootServer cfg0
           (doc_of [JObj [("type", JStr "FRAME")]%string])
           (doc_of [JObj [("type", JStr "FRAME"); ("name", JNull)]%string]));
    reflexivity.
Defined.

Lemma string_app_assoc (a b c : string) :
  ((a ++ b) ++ c = a ++ (b ++ c))%string.
Proof. induction a as [|x a IH]; simpl; [reflexivity | now rewrite IH]. Qed.

Lemma string_app_inv_head (p a b : string) : (p ++ a = p ++ b)%string -> a = b.
Proof.
  intros H. apply String.eqb_eq. rewrite <- (eqb_append_prefix p).
  now apply String.eqb_eq.
Qed.

Lemma unquote_step_quote_char (c : ascii) (rest : string) :
  unquote_step (quote_char c ++ rest) = Some (c, rest).
Proof.
  destruct c as [[|] [|] [|] [|] [|] [|] [|] [|]]; reflexivity.
Qed.

Lemma quote_body_inj (a b ra rb : string) :
  (quote_body a ++ dquote ++ ra = quote_body b ++ dquote ++ rb)%string ->
  a = b /\ ra = rb.
Proof.
  revert b. induction a as [|x a IH]; intros [|y b]; simpl; intros H.
  - split; [reflexivity|]. now injection H.
  - rewrite string_app_assoc in H.
    apply (f_equal unquote_step) in H.
    rewrite unquote_step_quote_char in H. discriminate H.
  - rewrite string_app_assoc in H.
    apply (f_equal unquote_step) in H.
    rewrite unquote_step_quote_char in H. discriminate H.
  - rewrite !string_app_assoc in H.
    apply (f_equal unquote_step) in H.
    rewrite !unquote_step_quote_char in H.
    injection H as Hxy Hrest. destruct (IH b Hrest) as [-> ->]. now subst.
Qed.

Lemma join_cons_tail (sep tail x : string) (l : list string) :
  (join sep (map quote (x :: l)) ++ tail
   = dquote ++ quote_body x ++ dquote
     ++ match l with
        | [] => tail
        | _ => sep ++ join sep (map quote l) ++ tail
        end)%string.
Proof.
  destruct l as [|y l].
  - simpl. unfold quote. now rewrite !string_app_assoc.
  - change (join sep (map quote (x :: y :: l)))
      with (quote x ++ sep ++ join sep (map quote (y :: l)))%string.
    unfold quote. now rewrite !string_app_assoc.
Qed.

Lemma join_quoted_inj (sep tail : string) :
  (forall x, tail <> (sep ++ x)%string) ->
  forall a b : list string,
    a <> [] -> b <> [] ->
    (join sep (map quote a) ++ tail = join sep (map quote b) ++ tail)%string ->
    a = b.
Proof.
  intros Hsep. induction a as [|x a IH]; intros [|y b] Ha Hb H; try congruence.
  rewrite !join_cons_tail in H. apply string_app_inv_head in H.
  apply quote_body_inj in H as [-> H].
  destruct a as [|x' a], b as [|y' b].
  - reflexivity.
  - now apply Hsep in H.
  - symmetry in H. now apply Hsep in H.
  - apply string_app_inv_head in H. f_equal.
    apply IH; [discriminate | discriminate | exact H].
Qed.

Lemma screens_map_strings (l : list string) :
  screens_map (map JStr l)
  = ("export const screens = "
     ++ match l with
        | [] => "[]"
        | _ => "[" ++ newline ++ gap
               ++ join ("," ++ newline ++ gap) (map quote l) ++ newline ++ "]"
        end
     ++ " as const;")%string.
Proof.
  unfold screens_map, JSON_stringify. rewrite serialize_array, map_map.
  destruct l as [|x l]; reflexivity.
Qed.

Lemma screens_map_inj (a b : list string) :
  screens_map (map JStr a) = screens_map (map JStr b) -> a = b.
Proof.
  rewrite !screens_map_strings. intros H. apply string_app_inv_head in H.
  destruct a as [|x a], b as [|y b].
  - reflexivity.
  - discriminate H.
  - discriminate H.
  - rewrite ?string_app_assoc in H.
    do 3 apply string_app_inv_head in H.
    apply (join_quoted_inj ("," ++ newline ++ gap)%string
             (newline ++ "]" ++ " as const;")%string) in H;
      [exact H | intros z E; discriminate E | discriminate | discriminate].
Qed.

(** X8. The manifest keeps the names of the frames apart: two accepted
    documents all of whose frame names are strings give the same file set
    exactly when they have the same frame names in the same order. *)
Theorem manifest_tells_frame_names_apart (s : Server) (cfg : Config)
    (j j' : JsValue) (names names' : list string) :
  accepted j = true ->
  accepted j' = true ->
  frame_names (page_nodes j) = map JStr names ->
  frame_names (page_nodes j') = map JStr names' ->
  (generateCode_of s cfg j = generateCode_of s cfg j' <-> names = names').
Proof.
  intros Hj Hj' Hn Hn'.
  rewrite (generateCode_of_accepted s cfg j Hj),
    (generateCode_of_accepted s cfg j' Hj'), Hn, Hn'.
  split.
  - intros E. unfold emitted in E. injection E as E.
    apply screens_map_inj. unfold screens_map. now rewrite E.
  - now intros ->.
Qed.

Lemma manifest_tells_frame_names_apart_witness :
  generateCode_of RootServer cfg0 home_settings
  = generateCode_of RootServer cfg0 two_homes
  <-> ["Home"; "Settings"]%string = ["Home"; "Home"]%string.
Proof.
  apply (manifest_tells_frame_names_apart RootServer cfg0 home_settings two_homes
           ["Home"; "Settings"]%string ["Home"; "Home"]%string); reflexivity.
Defined.

(* ================================================================== *)
(** ** Properties of the start of the process *)
(* ================================================================== *)

Lemma requireEnv_passes (name : string) (val : option string) :
  Root.requireEnv name val = None <-> exists s, val = Some s /\ blank s = false.
Proof.
  unfold Root.requireEnv. destruct val as [s|]; simpl.
  - destruct (String.eqb_spec s "") as [->|Hs]; simpl.
    + split; [discriminate|]. intros (s & E & B). inversion E; subst. discriminate.
    + destruct (blank s) eqn:B.
      * split; [discriminate|]. intros (s' & E & B'). inversion E; subst. congruence.
      * split; [eauto | reflexivity].
  - split; [discriminate|]. intros (s & E & _). discriminate.
Qed.

Lemma requireAll_passes (env : Env) (names : list string) :
  Root.requireAll env names = None
  <-> forall n, In n names -> exists s, env n = Some s /\ blank s = false.
Proof.
  induction names as [|n rest IH]; simpl.
  - split; [intros _ n [] | reflexivity].
  - destruct (Root.requireEnv n (env n)) as [line|] eqn:E.
    + split; [discriminate|]. intros H.
      specialize (H n (or_introl eq_refl)).
      apply (requireEnv_passes n) in H. congruence.
    + rewrite IH. split.
      * intros H m [<-|Hm]; [now apply (requireEnv_passes n) | now apply H].
      * intros H m Hm. apply H. now right.
Qed.

Lemma started_root_environment (env : Env) (cfg : Config) :
  Root.startup env = Started cfg ->
  (forall n, In n required -> exists s, env n = Some s /\ blank s = false)
  /\ cfg = config_of env (with_default (env "CODEGEN_TARGET"%string) ".").
Proof.
  unfold Root.startup.
  destruct (Root.requireAll env required) as [line|] eqn:E; [discriminate|].
  intros H. inversion H. split; [|reflexivity].
  exact (proj1 (requireAll_passes env _) E).
Qed.

(** X1. The root server starts exactly when each of the five required
    variables is set to a string with a character that is not white
    space; it then serves with the values of the environment, and with
    the target directory of the environment or [.] when that variable is
    not set. *)
Theorem root_server_starts_iff (env : Env) (cfg : Config) :
  Root.startup env = Started cfg
  <-> (forall n, In n ["FIGMA_TOKEN"; "FIGMA_FILE_ID"; "GH_TOKEN"; "GH_OWNER";
                        "GH_REPO"]%string ->
                 exists s, env n = Some s /\ blank s = false)
      /\ cfg = config_of env (with_default (env "CODEGEN_TARGET"%string) ".").
Proof.
  unfold Root.startup.
  destruct (Root.requireAll env required) as [line|] eqn:E.
  - split; [discriminate|]. intros [H _].
    apply (proj2 (requireAll_passes env _)) in H.
    unfold required in E. congruence.
  - pose proof (proj1 (requireAll_passes env _) E) as P. split.
    + intros H. inversion H. split; [exact P | reflexivity].
    + intros [_ ->]. reflexivity.
Qed.

(** X2. When the root server does not start it exits with code 1, and
    the line it writes names the first of the five variables, in the order
    of the source, that is unset or blank. *)
Theorem root_server_names_first_missing_variable (env : Env) (code : Z)
    (line : string) :
  Root.startup env = Exited code line ->
  code = 1%Z
  /\ exists before n after,
       ["FIGMA_TOKEN"; "FIGMA_FILE_ID"; "GH_TOKEN"; "GH_OWNER"; "GH_REPO"]%string
       = before ++ n :: after
       /\ line = ("[env] Missing required env var: " ++ n)%string
       /\ (forall s, env n = Some s -> blank s = true)
       /\ (forall m, In m before -> exists s, env m = Some s /\ blank s = false).
Proof.
  unfold Root.startup.
  destruct (Root.requireAll env required) as [l|] eqn:E; [|discriminate].
  intros H. inversion H; subst. split; [reflexivity|].
  unfold required in E. revert E.
  generalize ["FIGMA_TOKEN"; "FIGMA_FILE_ID"; "GH_TOKEN"; "GH_OWNER"; "GH_REPO"]%string.
  intros names. induction names as [|n rest IH]; simpl; [discriminate|].
  destruct (Root.requireEnv n (env n)) as [l|] eqn:En.
  - intros E. inversion E; subst. exists [], n, rest.
    split; [reflexivity|]. split.
    + unfold Root.requireEnv in En.
      destruct (unset_or_empty (env n) || blank (value_of (env n)));
        now inversion En.
    + split; [|intros m []].
      intros s Hs. destruct (blank s) eqn:B; [reflexivity|].
      assert (P : Root.requireEnv n (env n) = None)
        by (apply requireEnv_passes; eauto).
      congruence.
  - intros E. destruct (IH E) as (before & m & after & -> & Hl & Hm & Hb).
    exists (n :: before), m, after. repeat split; auto.
    intros k [<-|Hk]; [now apply (requireEnv_passes n) | now apply Hb].
Qed.

Lemma root_server_names_first_missing_variable_witness :
  1%Z = 1%Z
  /\ exists before n after,
       ["FIGMA_TOKEN"; "FIGMA_FILE_ID"; "GH_TOKEN"; "GH_OWNER"; "GH_REPO"]%string
       = before ++ n :: after
       /\ "[env] Missing required env var: GH_TOKEN"%string
          = ("[env] Missing required env var: " ++ n)%string
       /\ (forall s, sample_env n = Some s -> blank s = true)
       /\ (forall m, In m before -> exists s, sample_env m = Some s /\ blank s = false).
Proof.
  apply (root_server_names_first_missing_variable sample_env 1
           "[env] Missing required env var: GH_TOKEN").
  reflexivity.
Defined.

Lemma tool_check_passes (env : Env) :
  (forall n, In n required -> unset_or_empty (env n) = false) ->
  Tool.startup env
  = Started (config_of env (with_default (env "CODEGEN_TARGET"%string) "apps/tma")).
Proof.
  intros H. unfold Tool.startup, required in *.
  rewrite !H by (simpl; auto 10). reflexivity.
Qed.

Lemma not_blank_not_empty (val : option string) (s : string) :
  val = Some s -> blank s = false -> unset_or_empty val = false.
Proof.
  intros -> B. simpl. destruct s; [discriminate | reflexivity].
Qed.

(** X3. The check of the root server is the stricter one: an environment
    with which the root server starts also starts the earlier server, with
    the same five values; the two configurations differ at most in the
    target directory, which the earlier server defaults to [apps/tma]. *)
Theorem root_environment_starts_earlier_server (env : Env) (cfg : Config) :
  Root.startup env = Started cfg ->
  Tool.startup env
  = Started {| FIGMA_TOKEN := FIGMA_TOKEN cfg;
               FIGMA_FILE_ID := FIGMA_FILE_ID cfg;
               GH_TOKEN := GH_TOKEN cfg;
               GH_OWNER := GH_OWNER cfg;
               GH_REPO := GH_REPO cfg;
               CODEGEN_TARGET :=
                 with_default (env "CODEGEN_TARGET"%string) "apps/tma" |}.
Proof.
  intros H. apply started_root_environment in H. destruct H as [Hall ->].
  rewrite tool_check_passes; [reflexivity|].
  intros n Hn. destruct (Hall n Hn) as (s & E & B).
  exact (not_blank_not_empty _ s E B).
Qed.

Lemma root_environment_starts_earlier_server_witness :
  Tool.startup started_env
  = Started {| FIGMA_TOKEN := "figd_token"; FIGMA_FILE_ID := "FILE123";
               GH_TOKEN := "ghp_token"; GH_OWNER := "acme"; GH_REPO := "front";
               CODEGEN_TARGET := "" |}.
Proof.
  apply (root_environment_starts_earlier_server started_env
           {| FIGMA_TOKEN := "figd_token"; FIGMA_FILE_ID := "FILE123";
              GH_TOKEN := "ghp_token"; GH_OWNER := "acme"; GH_REPO := "front";
              CODEGEN_TARGET := "" |}).
  reflexivity.
Defined.

(** X4. A required variable that holds nothing but white space stops the
    root server and not the earlier one: when all five variables are set
    and none is the empty string, the earlier server starts, and if one of
    them is blank the root server exits with code 1. *)
Theorem blank_value_stops_only_root_server (env : Env) (n s : string) :
  (forall m, In m ["FIGMA_TOKEN"; "FIGMA_FILE_ID"; "GH_TOKEN"; "GH_OWNER";
                   "GH_REPO"]%string -> unset_or_empty (env m) = false) ->
  In n ["FIGMA_TOKEN"; "FIGMA_FILE_ID"; "GH_TOKEN"; "GH_OWNER"; "GH_REPO"]%string ->
  env n = Some s ->
  blank s = true ->
  Tool.startup env
  = Started (config_of env (with_default (env "CODEGEN_TARGET"%string) "apps/tma"))
  /\ exists line, Root.startup env = Exited 1 line.
Proof.
  intros Hall Hn E B. split; [now apply tool_check_passes|].
  unfold Root.startup.
  destruct (Root.requireAll env required) as [line|] eqn:R; [eauto|].
  destruct (proj1 (requireAll_passes env _) R n Hn) as (s' & E' & B').
  congruence.
Qed.

Lemma blank_value_stops_only_root_server_witness :
  Tool.startup blank_env
  = Started (config_of blank_env
               (with_default (blank_env "CODEGEN_TARGET"%string) "apps/tma"))
  /\ exists line, Root.startup blank_env = Exited 1 line.
Proof.
  apply (blank_value_stops_only_root_server blank_env "GH_REPO"
           (String (ascii_of_nat 32) (String (ascii_of_nat 10) EmptyString))).
  - intros m Hm. simpl in Hm.
    destruct Hm as [<-|[<-|[<-|[<-|[<-|[]]]]]]; reflexivity.
  - simpl. auto 10.
  - reflexivity.
  - reflexivity.
Defined.

(** X23. The target directory of the environment reaches the paths
    unchanged: a server that started writes its four files under the
    value of [CODEGEN_TARGET] when the variable is set, the empty string
    included, which gives paths that begin with a slash, and under its own
    default only when the variable is not set. *)
Theorem target_of_environment_prefixes_paths (s : Server) (env : Env)
    (cfg : Config) (j : JsValue) :
  startup_of s env = Started cfg ->
  accepted j = true ->
  exists files,
    generateCode_of s cfg j = Returned files
    /\ paths files
       = map (fun rest =>
                (match env "CODEGEN_TARGET"%string with
                 | Some dir => dir
                 | None => default_target s
                 end ++ rest)%string)
             ["/src/tokens.json"; "/src/generated/screens.map.ts";
              "/src/generated/Home.tsx"; "/src/generated/index.ts"]%string.
Proof.
  intros Hs Hacc. eexists. split; [apply generateCode_of_accepted, Hacc|].
  assert (T : CODEGEN_TARGET cfg
              = match env "CODEGEN_TARGET"%string with
                | Some dir => dir
                | None => default_target s
                end).
  { destruct s; simpl in Hs.
    - unfold Root.startup in Hs.
      destruct (Root.requireAll env required); [discriminate|].
      inversion Hs; subst; simpl.
      now destruct (env "CODEGEN_TARGET"%string).
    - unfold Tool.startup in Hs.
      destruct (_ || _); [discriminate|].
      inversion Hs; subst; simpl.
      now destruct (env "CODEGEN_TARGET"%string). }
  simpl. unfold tokens_path, screens_path, home_path, index_path.
  now rewrite T.
Qed.

Lemma target_of_environment_prefixes_paths_witness :
  exists files,
    generateCode_of RootServer
      {| FIGMA_TOKEN := "figd_token"; FIGMA_FILE_ID := "FILE123";
         GH_TOKEN := "ghp_token"; GH_OWNER := "acme"; GH_REPO := "front";
         CODEGEN_TARGET := "" |} (JObj []) = Returned files
    /\ paths files
       = map (fun rest =>
                (match started_env "CODEGEN_TARGET"%string with
                 | Some dir => dir
                 | None => default_target RootServer
                 end ++ rest)%string)
             ["/src/tokens.json"; "/src/generated/screens.map.ts";
              "/src/generated/Home.tsx"; "/src/generated/index.ts"]%string.
Proof.
  apply (target_of_environment_prefixes_paths RootServer started_env);
    reflexivity.
Defined.
